(** * Provisioning scripts of the aws-cicd repository

    A shallow embedding of [create_infrastructure.py], [create_pipeline.py]
    and [deploy_contact_form.py].  The scripts are straight-line sequences
    of control-plane calls wrapped in [try]/[except]; they are embedded as
    programs of a small state-and-exception monad whose only effect is
    [call], a request to the remote control plane.  The control plane is a
    parameter of every script (a [handler]), so properties that depend on
    the code alone are proved for every remote behaviour, and properties
    that depend on what the remote answers are proved against an explicit
    reference model of the services. *)

From Stdlib Require Import ZArith Ascii String List Bool Lia.
From stdpp Require Import base option list gmap strings fin_maps pretty.

Set Default Proof Using "Type".
Set Warnings "-register-all".

(** ** Python values *)

(** The values the scripts handle dynamically: what [json.loads] may return,
    the raw secret string, binary secrets and [None].  Text is kept as the
    UTF-8 bytes of the Python [str]; a float is kept as its literal. *)
Inductive pyval : Type :=
| PNone
| PBool (b : bool)
| PInt (z : Z)
| PFloat (literal : string)
| PStr (s : string)
| PBytes (s : string)
| PList (items : list pyval)
| PDict (items : list (string * pyval)).

(** Dictionaries with string keys, in insertion order. *)
Fixpoint dict_get {A} (k : string) (d : list (string * A)) : option A :=
  match d with
  | [] => None
  | (k', v) :: d' => if String.eqb k k' then Some v else dict_get k d'
  end.

(** [d[k] = v]: an existing key keeps its position and takes the new value. *)
Fixpoint dict_set {A} (k : string) (v : A) (d : list (string * A)) : list (string * A) :=
  match d with
  | [] => [(k, v)]
  | (k', v') :: d' =>
      if String.eqb k k' then (k, v) :: d' else (k', v') :: dict_set k v d'
  end.

(** [needle in hay] on strings. *)
Fixpoint str_contains (needle hay : string) : bool :=
  String.prefix needle hay
  || match hay with
     | EmptyString => false
     | String _ hay' => str_contains needle hay'
     end.

(** ** Exceptions *)

(** The exception classes the scripts name in [except] clauses, the ones the
    Python runtime raises in the modelled code, and the botocore classes
    that are not [ClientError] (transport and credential failures, waiter
    failures). *)
Inductive exn_class : Type :=
| BaseException
| SystemExit
| Exception
| ClientError
| NoSuchEntityException
| EntityAlreadyExistsException
| ResourceConflictException
| BotoCoreError
| WaiterError
| ValueError
| JSONDecodeError
| AttributeError
| KeyError
| RecursionError
| FileNotFoundError.

#[global] Instance exn_class_eq_dec : EqDecision exn_class.
Proof. solve_decision. Defined.

(** Direct base class. *)
Definition base_class (c : exn_class) : option exn_class :=
  match c with
  | BaseException => None
  | SystemExit => Some BaseException
  | Exception => Some BaseException
  | ClientError => Some Exception
  | NoSuchEntityException => Some ClientError
  | EntityAlreadyExistsException => Some ClientError
  | ResourceConflictException => Some ClientError
  | BotoCoreError => Some Exception
  | WaiterError => Some BotoCoreError
  | ValueError => Some Exception
  | JSONDecodeError => Some ValueError
  | AttributeError => Some Exception
  | KeyError => Some Exception
  | RecursionError => Some Exception
  | FileNotFoundError => Some Exception
  end.

Fixpoint issubclass_upto (n : nat) (c d : exn_class) : bool :=
  bool_decide (c = d)
  || match n, base_class c with
     | S n', Some b => issubclass_upto n' b d
     | _, _ => false
     end.

Definition issubclass (c d : exn_class) : bool := issubclass_upto 4 c d.

Record exn : Type := Exn { exn_type : exn_class; exn_str : string }.

(** [isinstance(e, C)], the test an [except C] clause performs. *)
Definition isinstance (e : exn) (c : exn_class) : bool := issubclass (exn_type e) c.

(** What a Python call or block does: it returns a value or raises. *)
Inductive outcome (A : Type) : Type :=
| Returned (a : A)
| Raised (e : exn).
Arguments Returned {A} a.
Arguments Raised {A} e.

(** ** [json.loads] *)

(** The decoder of the Python standard library, for the default options the
    script uses: strict strings, [NaN] and the infinities accepted, a
    duplicate key keeping its last value.  [\uXXXX] escapes are written out
    as UTF-8 (a lone surrogate as its three-byte form). *)
Module Json.

Definition quote : ascii := "034"%char.
Definition backslash : ascii := "\"%char.

Definition is_ws (c : ascii) : bool :=
  (Ascii.eqb c " " || Ascii.eqb c "009" || Ascii.eqb c "010" || Ascii.eqb c "013")%char.

Fixpoint skip_ws (s : string) : string :=
  match s with
  | String c r => if is_ws c then skip_ws r else s
  | EmptyString => s
  end.

Definition digit_val (c : ascii) : option N :=
  let n := N_of_ascii c in
  if ((48 <=? n) && (n <=? 57))%N then Some (n - 48)%N else None.

Definition hex_val (c : ascii) : option N :=
  let n := N_of_ascii c in
  if ((48 <=? n) && (n <=? 57))%N then Some (n - 48)%N
  else if ((65 <=? n) && (n <=? 70))%N then Some (n - 55)%N
  else if ((97 <=? n) && (n <=? 102))%N then Some (n - 87)%N
  else None.

Definition hex4 (a b c d : ascii) : option N :=
  x1 ← hex_val a; x2 ← hex_val b; x3 ← hex_val c; x4 ← hex_val d;
  Some (((x1 * 16 + x2) * 16 + x3) * 16 + x4)%N.

Definition byte (n : N) : ascii := ascii_of_N n.

(** [chr(uni)] as UTF-8 bytes. *)
Definition utf8 (uni : N) : string :=
  if (uni <? 128)%N then String (byte uni) EmptyString
  else if (uni <? 2048)%N then
    String (byte (192 + uni / 64)) (String (byte (128 + uni mod 64)) EmptyString)
  else if (uni <? 65536)%N then
    String (byte (224 + uni / 4096))
      (String (byte (128 + (uni / 64) mod 64))
         (String (byte (128 + uni mod 64)) EmptyString))
  else
    String (byte (240 + uni / 262144))
      (String (byte (128 + (uni / 4096) mod 64))
         (String (byte (128 + (uni / 64) mod 64))
            (String (byte (128 + uni mod 64)) EmptyString))).

(** The [BACKSLASH] table of the decoder. *)
Definition unescape (c : ascii) : option ascii :=
  if Ascii.eqb c quote then Some quote
  else if Ascii.eqb c backslash then Some backslash
  else if Ascii.eqb c "/" then Some "/"%char
  else if Ascii.eqb c "b" then Some "008"%char
  else if Ascii.eqb c "f" then Some "012"%char
  else if Ascii.eqb c "n" then Some "010"%char
  else if Ascii.eqb c "r" then Some "013"%char
  else if Ascii.eqb c "t" then Some "009"%char
  else None.

Definition is_high_surrogate (u : N) : bool := ((55296 <=? u) && (u <=? 56319))%N.
Definition is_low_surrogate (u : N) : bool := ((56320 <=? u) && (u <=? 57343))%N.

(** [py_scanstring], entered after the opening quote: the decoded text and
    what follows the closing quote. *)
Fixpoint scanstring (s : string) : option (string * string) :=
  match s with
  | EmptyString => None
  | String c r =>
      if Ascii.eqb c quote then Some (EmptyString, r)
      else if Ascii.eqb c backslash then
        match r with
        | EmptyString => None
        | String esc r1 =>
            if Ascii.eqb esc "u" then
              match r1 with
              | String h1 (String h2 (String h3 (String h4 r2))) =>
                  match hex4 h1 h2 h3 h4 with
                  | None => None
                  | Some uni =>
                      match r2 with
                      | String b (String u (String g1 (String g2 (String g3 (String g4 r3))))) =>
                          if is_high_surrogate uni && Ascii.eqb b backslash && Ascii.eqb u "u"
                          then
                            match hex4 g1 g2 g3 g4 with
                            | None => None
                            | Some uni2 =>
                                if is_low_surrogate uni2 then
                                  '(out, rest) ← scanstring r3;
                                  Some (utf8 (65536 + ((uni - 55296) * 1024 + (uni2 - 56320)))%N
                                          +:+ out, rest)
                                else
                                  '(out, rest) ← scanstring r2;
                                  Some (utf8 uni +:+ out, rest)
                            end
                          else
                            '(out, rest) ← scanstring r2;
                            Some (utf8 uni +:+ out, rest)
                      | _ =>
                          '(out, rest) ← scanstring r2;
                          Some (utf8 uni +:+ out, rest)
                      end
                  end
              | _ => None
              end
            else
              ch ← unescape esc;
              '(out, rest) ← scanstring r1;
              Some (String ch out, rest)
        end
      else if (N_of_ascii c <? 32)%N then None
      else
        '(out, rest) ← scanstring r;
        Some (String c out, rest)
  end.

Fixpoint span_digits (s : string) : string * string :=
  match s with
  | String c r =>
      match digit_val c with
      | Some _ => let '(ds, rest) := span_digits r in (String c ds, rest)
      | None => (EmptyString, s)
      end
  | EmptyString => (EmptyString, s)
  end.

Definition decimal (ds : string) : Z :=
  fold_left (fun acc c => (10 * acc + Z.of_N (default 0%N (digit_val c)))%Z)
            (list_ascii_of_string ds) 0%Z.

Definition strip_prefix (p s : string) : option string :=
  if String.prefix p s then Some (String.substring (String.length p)
                                    (String.length s - String.length p) s)
  else None.

(** [NUMBER_RE], matched greedily at the head of [s]: an optional minus
    sign, then a single zero or a digit string without leading zero, then
    optionally a dot with at least one digit, then optionally an exponent
    mark with optional sign and at least one digit.  Each part gives its
    text and what follows it. *)
Definition number_sign (s : string) : string * string :=
  match s with
  | String c r => if Ascii.eqb c "-" then ("-"%string, r) else (EmptyString, s)
  | EmptyString => (EmptyString, s)
  end.

Definition number_int (s : string) : option (string * string) :=
  match s with
  | EmptyString => None
  | String c r =>
      match digit_val c with
      | None => None
      | Some d =>
          if (d =? 0)%N then Some (String c EmptyString, r)
          else let '(ds, rest) := span_digits r in Some (String c ds, rest)
      end
  end.

Definition number_frac (s : string) : string * string :=
  match s with
  | String c r =>
      if Ascii.eqb c "." then
        let '(fs, rest) := span_digits r in
        match fs with
        | EmptyString => (EmptyString, s)
        | _ => (String c fs, rest)
        end
      else (EmptyString, s)
  | EmptyString => (EmptyString, s)
  end.

Definition number_exp (s : string) : string * string :=
  match s with
  | String e r =>
      if (Ascii.eqb e "e" || Ascii.eqb e "E")%char then
        let '(sg, r1) :=
          match r with
          | String c r1 =>
              if (Ascii.eqb c "+" || Ascii.eqb c "-")%char
              then (String c EmptyString, r1) else (EmptyString, r)
          | EmptyString => (EmptyString, r)
          end in
        let '(es, rest) := span_digits r1 in
        match es with
        | EmptyString => (EmptyString, s)
        | _ => (String e (sg +:+ es), rest)
        end
      else (EmptyString, s)
  | EmptyString => (EmptyString, s)
  end.

(** The two kinds of container, as the interpreter names them when the
    nesting is too deep. *)
Inductive container : Type := JsonObject | JsonArray.

(** What a scan gives: a value and the rest of the input; a syntax error
    ([JSONDecodeError]); a container opened beyond the nesting the
    interpreter allows ([RecursionError]); an integer literal of more digits
    than [int] converts ([ValueError]); or the fuel of the model used up,
    which [loads] never lets happen ([loads_never_out_of_fuel]). *)
Inductive scan (A : Type) : Type :=
| Scanned (a : A) (rest : string)
| Malformed
| TooDeep (kind : container)
| TooLong (digits : nat)
| OutOfFuel.
Arguments Scanned {A} a rest.
Arguments Malformed {A}.
Arguments TooDeep {A} kind.
Arguments TooLong {A} digits.
Arguments OutOfFuel {A}.

(** [sys.get_int_max_str_digits()], the default of the interpreter: a
    literal without fraction and exponent goes through [int], which refuses
    more decimal digits than this (the sign is not counted). *)
Definition int_max_str_digits : Z := 4300.

Definition match_number (s : string) : option (scan pyval) :=
  let '(sign, s1) := number_sign s in
  match number_int s1 with
  | None => None
  | Some (int_digits, rest) =>
      let '(frac, rest1) := number_frac rest in
      let '(exp, rest2) := number_exp rest1 in
      match frac, exp with
      | EmptyString, EmptyString =>
          if (int_max_str_digits <? Z.of_nat (String.length int_digits))%Z
          then Some (TooLong (String.length int_digits))
          else
            let n := decimal int_digits in
            Some (Scanned (PInt (if String.eqb sign EmptyString then n else - n)%Z) rest2)
      | _, _ => Some (Scanned (PFloat (sign +:+ int_digits +:+ frac +:+ exp)) rest2)
      end
  end.

Definition scan_constant (s : string) : scan pyval :=
  match strip_prefix "null" s, strip_prefix "true" s, strip_prefix "false" s with
  | Some r, _, _ => Scanned PNone r
  | _, Some r, _ => Scanned (PBool true) r
  | _, _, Some r => Scanned (PBool false) r
  | _, _, _ =>
      match match_number s with
      | Some result => result
      | None =>
          match strip_prefix "NaN" s, strip_prefix "Infinity" s,
                strip_prefix "-Infinity" s with
          | Some r, _, _ => Scanned (PFloat "NaN") r
          | _, Some r, _ => Scanned (PFloat "Infinity") r
          | _, _, Some r => Scanned (PFloat "-Infinity") r
          | _, _, _ => Malformed
          end
      end
  end.

(** [scan_once], [JSONArray] and [JSONObject].  Recursion is on a fuel that
    [loads] sets from the length of the input, always enough for it
    ([loads_never_out_of_fuel]).  [depth] is the number of containers that
    may still be opened: the scanner enters a recursive call of the
    interpreter at every opening brace or bracket, before it looks at what
    follows, and leaves it when the container is closed. *)
Fixpoint scan_once (fuel depth : nat) (s : string) : scan pyval :=
  match fuel with
  | O => OutOfFuel
  | S fuel' =>
      match s with
      | EmptyString => Malformed
      | String c r =>
          if Ascii.eqb c quote then
            match scanstring r with
            | Some (str, rest) => Scanned (PStr str) rest
            | None => Malformed
            end
          else if Ascii.eqb c "{" then
            match depth with
            | O => TooDeep JsonObject
            | S depth' =>
                match skip_ws r with
                | String c1 r1 =>
                    if Ascii.eqb c1 "}" then Scanned (PDict []) r1
                    else json_object fuel' depth' (String c1 r1) []
                | EmptyString => Malformed
                end
            end
          else if Ascii.eqb c "[" then
            match depth with
            | O => TooDeep JsonArray
            | S depth' =>
                match skip_ws r with
                | String c1 r1 =>
                    if Ascii.eqb c1 "]" then Scanned (PList []) r1
                    else json_array fuel' depth' (String c1 r1) []
                | EmptyString => Malformed
                end
            end
          else scan_constant s
      end
  end
with json_array (fuel depth : nat) (s : string) (acc : list pyval) : scan pyval :=
  match fuel with
  | O => OutOfFuel
  | S fuel' =>
      match scan_once fuel' depth s with
      | Scanned v rest =>
          match skip_ws rest with
          | String c r =>
              if Ascii.eqb c "]" then Scanned (PList (rev (v :: acc))) r
              else if Ascii.eqb c "," then json_array fuel' depth (skip_ws r) (v :: acc)
              else Malformed
          | EmptyString => Malformed
          end
      | Malformed => Malformed
      | TooDeep kind => TooDeep kind
      | TooLong digits => TooLong digits
      | OutOfFuel => OutOfFuel
      end
  end
with json_object (fuel depth : nat) (s : string) (acc : list (string * pyval)) : scan pyval :=
  match fuel with
  | O => OutOfFuel
  | S fuel' =>
      match s with
      | String c r =>
          if Ascii.eqb c quote then
            match scanstring r with
            | Some (key, rest) =>
                match skip_ws rest with
                | String c1 r1 =>
                    if Ascii.eqb c1 ":" then
                      match scan_once fuel' depth (skip_ws r1) with
                      | Scanned v rest1 =>
                          match skip_ws rest1 with
                          | String c2 r2 =>
                              if Ascii.eqb c2 "}" then Scanned (PDict (dict_set key v acc)) r2
                              else if Ascii.eqb c2 ","
                                   then json_object fuel' depth (skip_ws r2) (dict_set key v acc)
                                   else Malformed
                          | EmptyString => Malformed
                          end
                      | Malformed => Malformed
                      | TooDeep kind => TooDeep kind
                      | TooLong digits => TooLong digits
                      | OutOfFuel => OutOfFuel
                      end
                    else Malformed
                | EmptyString => Malformed
                end
            | None => Malformed
            end
          else Malformed
      | EmptyString => Malformed
      end
  end.

(** The containers that may be open at once when [json.loads] is called
    from [get_secret], itself called from the top level of the script:
    CPython 3.11 (the version the repository deploys for) with the default
    [sys.getrecursionlimit()] of 1000, of which the frames of the script,
    of [get_secret], of [loads], [decode] and [raw_decode] and the call of
    the scanner are in use.  Nesting of 994 containers is decoded, the
    995th opening raises. *)
Definition nesting_limit : nat := 994.

Definition container_name (kind : container) : string :=
  match kind with JsonObject => "object" | JsonArray => "array" end.

(** The texts of the two errors of the interpreter. *)
Definition recursion_error (kind : container) : exn :=
  Exn RecursionError
    ("maximum recursion depth exceeded while decoding a JSON "
     +:+ container_name kind +:+ " from a unicode string").

Definition int_digits_error (digits : nat) : exn :=
  Exn ValueError
    ("Exceeds the limit (4300 digits) for integer string conversion: value has "
     +:+ pretty digits
     +:+ " digits; use sys.set_int_max_str_digits() to increase the limit").

(** [json.loads(s)]: leading and trailing white space is skipped, anything
    else after the value is an error.  The last case is never reached
    ([loads_never_out_of_fuel]). *)
Definition loads (s : string) : outcome pyval :=
  match scan_once (2 * String.length s + 2) nesting_limit (skip_ws s) with
  | Scanned v rest =>
      match skip_ws rest with
      | EmptyString => Returned v
      | _ => Raised (Exn JSONDecodeError "Extra data")
      end
  | Malformed => Raised (Exn JSONDecodeError "Expecting value")
  | TooDeep kind => Raised (recursion_error kind)
  | TooLong digits => Raised (int_digits_error digits)
  | OutOfFuel => Raised (Exn RecursionError "out of fuel")
  end.

End Json.

(** A text in double quotes, for documents that are written as JSON. *)
Definition quoted (s : string) : string :=
  String Json.quote EmptyString +:+ s +:+ String Json.quote EmptyString.

(** [type(v).__name__]. *)
Definition type_name (v : pyval) : string :=
  match v with
  | PNone => "NoneType"
  | PBool _ => "bool"
  | PInt _ => "int"
  | PFloat _ => "float"
  | PStr _ => "str"
  | PBytes _ => "bytes"
  | PList _ => "list"
  | PDict _ => "dict"
  end.

(** The text of the [AttributeError] for a missing method. *)
Definition no_attribute (v : pyval) (attr : string) : string :=
  "'" +:+ type_name v +:+ "' object has no attribute '" +:+ attr +:+ "'".

(** [obj.get(key, default)]: only a dictionary has the method. *)
Definition py_get (obj : pyval) (key : string) (dflt : pyval) : outcome pyval :=
  match obj with
  | PDict d => Returned (default dflt (dict_get key d))
  | _ => Raised (Exn AttributeError (no_attribute obj "get"))
  end.

(** ** Truthiness *)

(** The digits of a fraction or exponent part, without the dot or the
    exponent mark. *)
Definition tail (s : string) : string :=
  match s with String _ r => r | EmptyString => EmptyString end.

(** The exponent part of a float literal as an integer: empty, or the mark
    followed by an optional sign and digits. *)
Definition exponent_value (exp : string) : Z :=
  match tail exp with
  | String c r =>
      if Ascii.eqb c "-" then (- Json.decimal r)%Z
      else if Ascii.eqb c "+" then Json.decimal r
      else Json.decimal (String c r)
  | EmptyString => 0%Z
  end.

(** A float literal of the decoder as [m * 10 ^ e] with [m] a natural
    number: the digits before and after the dot, and the exponent less the
    number of digits after the dot.  The sign plays no part in what
    follows. *)
Definition float_decimal (literal : string) : option (Z * Z) :=
  let '(_, s1) := Json.number_sign literal in
  match Json.number_int s1 with
  | None => None
  | Some (int_digits, rest) =>
      let '(frac, rest1) := Json.number_frac rest in
      let '(exp, _) := Json.number_exp rest1 in
      Some (Json.decimal (int_digits +:+ tail frac),
            (exponent_value exp - Z.of_nat (String.length (tail frac)))%Z)
  end.

(** [float(literal) == 0.0].  The conversion rounds to the nearest double,
    ties to even, so the result is zero exactly when the magnitude is at
    most [2 ^ -1075], half of the smallest positive double.  [NaN] and the
    infinities, which do not parse as numbers, are not zero; nor is a
    literal too large for a double, which becomes an infinity. *)
Definition float_is_zero (literal : string) : bool :=
  match float_decimal literal with
  | None => false
  | Some (m, e) =>
      (m =? 0)%Z || ((e <? 0)%Z && (m * 2 ^ 1075 <=? 10 ^ (- e))%Z)
  end.

(** Python truthiness, as used by [if not github_token] and [if roles]: a
    number is false when it is zero, a text or a container when it is
    empty. *)
Definition truthy (v : pyval) : bool :=
  match v with
  | PNone => false
  | PBool b => b
  | PInt z => negb (Z.eqb z 0)
  | PFloat l => negb (float_is_zero l)
  | PStr s => negb (String.eqb s EmptyString)
  | PBytes s => negb (String.eqb s EmptyString)
  | PList l => match l with [] => false | _ => true end
  | PDict d => match d with [] => false | _ => true end
  end.

(** ** The control plane *)

(** *** Pipeline definitions, as [create_pipeline] receives them *)

Record artifact : Type := Artifact { artifact_name : string }.

Record action_type : Type := ActionType {
  category : string; owner : string; provider : string; version : string }.

Record action : Type := Action {
  action_name : string;
  actionTypeId : action_type;
  inputArtifacts : option (list artifact);
  outputArtifacts : option (list artifact);
  configuration : list (string * pyval) }.

Record stage : Type := Stage { stage_name : string; actions : list action }.

Record artifact_store : Type := ArtifactStore { store_type : string; location : string }.

Record pipeline : Type := Pipeline {
  pipeline_name : string;
  roleArn : string;
  artifactStore : artifact_store;
  stages : list stage }.

Record build_environment : Type := BuildEnvironment {
  env_type : string; computeType : string; image : string }.

Record deployment_style : Type := DeploymentStyle {
  deploymentType : string; deploymentOption : string }.

Record tag_filter : Type := TagFilter {
  tag_key : string; tag_value : string; tag_type : string }.

(** *** Requests *)

(** One constructor per client method the scripts call, with the keyword
    arguments of the call.  The region a client is bound to is not part of
    the request. *)
Inductive request : Type :=
(* cloudformation *)
| describe_stacks (StackName : string)
| update_stack (StackName TemplateBody : string) (Capabilities : list string)
| wait_stack_update_complete (StackName : string)
| create_stack (StackName TemplateBody : string) (Capabilities : list string)
| wait_stack_create_complete (StackName : string)
| describe_stack_resources (StackName : string)
(* secretsmanager *)
| get_secret_value (SecretId : string)
(* iam *)
| get_role (RoleName : string)
| create_role (RoleName AssumeRolePolicyDocument Description : string)
| attach_role_policy (RoleName PolicyArn : string)
| put_role_policy (RoleName PolicyName PolicyDocument : string)
(* codepipeline, s3, codedeploy, codebuild *)
| create_pipeline (definition : pipeline)
| create_bucket (Bucket LocationConstraint : string)
| create_application (applicationName : string)
| create_project (name : string) (serviceRole : option string)
    (artifacts_type source_type : string) (environment : build_environment)
| create_deployment_group (applicationName deploymentGroupName serviceRoleArn : string)
    (deploymentStyle : deployment_style) (ec2TagFilters : list tag_filter)
(* lambda *)
| create_function (FunctionName Runtime Role Handler ZipFile : string) (Timeout : Z)
    (Variables : gmap string string)
| update_function_code (FunctionName ZipFile : string)
| update_function_configuration (FunctionName : string) (Variables : gmap string string)
| add_permission (FunctionName StatementId Action Principal SourceArn : string)
(* apigatewayv2 *)
| create_api (Name ProtocolType : string)
| create_integration (ApiId IntegrationType IntegrationUri PayloadFormatVersion : string)
| create_route (ApiId RouteKey Target : string)
| create_deployment (ApiId Description : string)
| create_stage (ApiId StageName DeploymentId : string)
(* sts *)
| get_caller_identity.

(** *** Responses *)

(** Of each response, the fields the scripts read. *)
Record StackResource : Type := mkStackResource {
  ResourceType : string;
  LogicalResourceId : string;
  PhysicalResourceId : string }.

Record SecretValue : Type := mkSecretValue {
  SecretString : option string;
  SecretBinary : option string }.

Record RoleResponse : Type := mkRoleResponse { Arn : string }.
Record ApiResponse : Type := mkApiResponse { ApiId_of : string }.
Record IntegrationResponse : Type := mkIntegrationResponse { IntegrationId_of : string }.
Record DeploymentResponse : Type := mkDeploymentResponse { DeploymentId_of : string }.
Record CallerIdentity : Type := mkCallerIdentity { Account : string }.

Definition response_type (r : request) : Type :=
  match r with
  | describe_stack_resources _ => list StackResource
  | get_secret_value _ => SecretValue
  | get_role _ => RoleResponse
  | create_role _ _ _ => RoleResponse
  | create_api _ _ => ApiResponse
  | create_integration _ _ _ _ => IntegrationResponse
  | create_deployment _ _ => DeploymentResponse
  | get_caller_identity => CallerIdentity
  | _ => unit
  end.

(** A control plane: a state and, for each request, the reply and the next
    state. *)
Definition handler (remote : Type) : Type :=
  ∀ r : request, remote → outcome (response_type r) * remote.

(** The client method behind a request. *)
Definition method (r : request) : string :=
  match r with
  | describe_stacks _ => "describe_stacks"
  | update_stack _ _ _ => "update_stack"
  | wait_stack_update_complete _ => "stack_update_complete.wait"
  | create_stack _ _ _ => "create_stack"
  | wait_stack_create_complete _ => "stack_create_complete.wait"
  | describe_stack_resources _ => "describe_stack_resources"
  | get_secret_value _ => "get_secret_value"
  | get_role _ => "get_role"
  | create_role _ _ _ => "create_role"
  | attach_role_policy _ _ => "attach_role_policy"
  | put_role_policy _ _ _ => "put_role_policy"
  | create_pipeline _ => "create_pipeline"
  | create_bucket _ _ => "create_bucket"
  | create_application _ => "create_application"
  | create_project _ _ _ _ _ => "create_project"
  | create_deployment_group _ _ _ _ _ => "create_deployment_group"
  | create_function _ _ _ _ _ _ _ => "create_function"
  | update_function_code _ _ => "update_function_code"
  | update_function_configuration _ _ => "update_function_configuration"
  | add_permission _ _ _ _ _ => "add_permission"
  | create_api _ _ => "create_api"
  | create_integration _ _ _ _ => "create_integration"
  | create_route _ _ _ => "create_route"
  | create_deployment _ _ => "create_deployment"
  | create_stage _ _ _ => "create_stage"
  | get_caller_identity => "get_caller_identity"
  end.

(** In a sequence of method names, every [a] comes before every [b]. *)
Definition precedes (a b : string) (names : list string) : Prop :=
  ∀ i j, names !! i = Some a → names !! j = Some b → i < j.

(** ** The script monad *)

(** What a run can observe and change: the remote state, the local files,
    the requests sent so far and the lines printed so far. *)
Record world (remote : Type) : Type := World {
  cloud : remote;
  files : gmap string string;
  calls : list request;
  stdout : list string }.
Arguments World {remote} cloud files calls stdout.
Arguments cloud {remote} w.
Arguments files {remote} w.
Arguments calls {remote} w.
Arguments stdout {remote} w.

(** How a statement ends: it falls through to the next one, it executes
    [return], or it raises. *)
Inductive completion (R A : Type) : Type :=
| Normal (a : A)
| Return (v : R)
| Raise (e : exn).
Arguments Normal {R A} a.
Arguments Return {R A} v.
Arguments Raise {R A} e.

(** Statements of a function whose [return] carries an [R]. *)
Definition M (remote R A : Type) : Type := world remote → completion R A * world remote.

(** A callable, seen from its caller. *)
Definition Fn (remote A : Type) : Type := world remote → outcome A * world remote.

#[global] Instance M_ret {remote R} : MRet (M remote R) :=
  λ A a w, (Normal a, w).

#[global] Instance M_bind {remote R} : MBind (M remote R) :=
  λ A B f m w,
    match m w with
    | (Normal a, w') => f a w'
    | (Return v, w') => (Return v, w')
    | (Raise e, w') => (Raise e, w')
    end.

Section Statements.
Context {remote : Type} (serve : handler remote).

(** A client method call: the request is recorded and the control plane
    answers. *)
Definition call {R} (r : request) : M remote R (response_type r) :=
  λ w,
    let '(reply, cloud') := serve r (cloud w) in
    (match reply with Returned a => Normal a | Raised e => Raise e end,
     World cloud' (files w) (calls w ++ [r]) (stdout w)).

Definition print {R} (line : string) : M remote R unit :=
  λ w, (Normal (), World (cloud w) (files w) (calls w) (stdout w ++ [line])).

Definition return_ {R A} (v : R) : M remote R A := λ w, (Return v, w).

Definition raise {R A} (e : exn) : M remote R A := λ w, (Raise e, w).

(** The value of an expression that may raise. *)
Definition eval {R A} (o : outcome A) : M remote R A :=
  λ w, (match o with Returned a => Normal a | Raised e => Raise e end, w).

(** [try: body except C as e: handle e], with [catches] the test the
    clause makes on the exception. *)
Definition try_except {R A} (body : M remote R A) (catches : exn → bool)
    (handle : exn → M remote R A) : M remote R A :=
  λ w,
    match body w with
    | (Raise e, w') => if catches e then handle e w' else (Raise e, w')
    | done => done
    end.

(** [def f(...): body]; falling off the end returns [none]. *)
Definition def {R} (none : R) (body : M remote R unit) : Fn remote R :=
  λ w,
    match body w with
    | (Normal _, w') => (Returned none, w')
    | (Return v, w') => (Returned v, w')
    | (Raise e, w') => (Raised e, w')
    end.

(** A call of a function defined in the script. *)
Definition invoke {R A} (f : Fn remote A) : M remote R A :=
  λ w,
    match f w with
    | (Returned a, w') => (Normal a, w')
    | (Raised e, w') => (Raise e, w')
    end.

(** [open(path).read()]. *)
Definition read_file {R} (path : string) : M remote R string :=
  λ w,
    match files w !! path with
    | Some content => (Normal content, w)
    | None => (Raise (Exn FileNotFoundError path), w)
    end.

Definition write_file {R} (path content : string) : M remote R unit :=
  λ w, (Normal (), World (cloud w) (<[path := content]> (files w)) (calls w) (stdout w)).

(** [exit(code)]. *)
Definition exit {R A} (code : string) : M remote R A := raise (Exn SystemExit code).

(** [time.sleep]; elapsed time is not part of the world. *)
Definition sleep {R} (seconds : nat) : M remote R unit := mret ().

End Statements.

(** ** The scripts *)

Section Scripts.
Context {remote : Type} (serve : handler remote).
(** [zipfile]: the archive holding one named entry. *)
Context (zip_archive : list (string * string) → string).

Local Abbreviation call := (call serve).

(** *** [create_infrastructure.py] *)

(** The loop over [resources['StackResources']] that fills [role_arns]. *)
Definition role_arns_of (resources : list StackResource) : gmap string string :=
  foldl (λ role_arns res,
           if String.eqb (ResourceType res) "AWS::IAM::Role"
           then <[LogicalResourceId res := PhysicalResourceId res]> role_arns
           else role_arns)
        ∅ resources.

Definition create_or_update_cf_stack (stack_name template_file region : string)
  : Fn remote (option (gmap string string)) :=
  def None (
    template_body ← read_file template_file;
    stack_exists ←
      try_except
        (call (describe_stacks stack_name);;
         mret true)
        (λ e, isinstance e ClientError)
        (λ e, if str_contains "does not exist" (exn_str e)
              then mret false
              else print ("Error describing stack: " +:+ exn_str e);;
                   return_ None);
    (if stack_exists : bool then
       print ("🔄 Updating CloudFormation stack '" +:+ stack_name +:+ "'...");;
       try_except
         (call (update_stack stack_name template_body ["CAPABILITY_IAM"]);;
          call (wait_stack_update_complete stack_name);;
          print ("✅ Stack '" +:+ stack_name +:+ "' updated successfully."))
         (λ e, isinstance e ClientError)
         (λ e, if str_contains "No updates are to be performed" (exn_str e)
               then print ("ℹ️ Stack '" +:+ stack_name
                           +:+ "' is already up-to-date, no changes to perform.")
               else print ("❌ Error updating CloudFormation stack: " +:+ exn_str e);;
                    return_ None)
     else
       print ("🚀 Creating CloudFormation stack '" +:+ stack_name +:+ "'...");;
       try_except
         (call (create_stack stack_name template_body ["CAPABILITY_IAM"]);;
          call (wait_stack_create_complete stack_name);;
          print ("✅ Stack '" +:+ stack_name +:+ "' created successfully."))
         (λ e, isinstance e Exception)
         (λ e, print ("❌ Error creating CloudFormation stack: " +:+ exn_str e);;
               return_ None));;
    try_except
      (resources ← call (describe_stack_resources stack_name);
       return_ (Some (role_arns_of resources)))
      (λ e, isinstance e Exception)
      (λ e, print ("❌ Error fetching stack resources: " +:+ exn_str e);;
            return_ None)).

(** [for x in items: body x]. *)
Definition for_each {R A} (items : list A) (body : A → M remote R unit) : M remote R unit :=
  foldr (λ x rest, body x;; rest) (mret ()) items.

(** The statements under [if __name__ == "__main__"] of
    [create_infrastructure.py].  [if roles] is false for [None] and for
    an empty dictionary.  The lines of the loop come in the order in which
    the map enumerates its entries; properties about them are stated up to
    that order. *)
Definition create_infrastructure_main : M remote unit unit :=
  let region := "ap-south-1" in
  let cf_stack_name := "MyCICDProjectStack" in
  let template_file := "iac_ec2.yml" in
  roles ← invoke (create_or_update_cf_stack cf_stack_name template_file region);
  match roles with
  | Some role_arns =>
      if bool_decide (role_arns = ∅)
      then print (String "010" "❌ CloudFormation stack operation failed.")
      else
        print (String "010" "✅ Infrastructure setup complete. IAM Roles created/managed:");;
        for_each (map_to_list role_arns)
          (λ '(logical_id, arn), print ("- " +:+ logical_id +:+ ": " +:+ arn))
  | None => print (String "010" "❌ CloudFormation stack operation failed.")
  end.

(** *** [create_pipeline.py] *)

Definition get_secret (secret_name region_name : string) : Fn remote pyval :=
  def PNone (
    try_except
      (response ← call (get_secret_value secret_name);
       match SecretString response with
       | Some secret =>
           try_except
             (decoded ← eval (Json.loads secret);
              token ← eval (py_get decoded "github_token" (PStr secret));
              return_ token)
             (λ e, isinstance e JSONDecodeError)
             (λ _, return_ (PStr secret))
       | None =>
           match SecretBinary response with
           | Some blob => return_ (PBytes blob)
           | None => raise (Exn KeyError "'SecretBinary'")
           end
       end)
      (λ e, isinstance e Exception)
      (λ e, print ("❌ Error retrieving secret '" +:+ secret_name +:+ "': " +:+ exn_str e);;
            return_ PNone)).

(** [json.dumps(trust_policy)] in [ensure_codebuild_role]. *)
Definition codebuild_trust_policy : string :=
  "{" +:+ quoted "Version" +:+ ": " +:+ quoted "2012-10-17" +:+ ", "
  +:+ quoted "Statement" +:+ ": [{" +:+ quoted "Effect" +:+ ": " +:+ quoted "Allow" +:+ ", "
  +:+ quoted "Principal" +:+ ": {" +:+ quoted "Service" +:+ ": "
  +:+ quoted "codebuild.amazonaws.com" +:+ "}, "
  +:+ quoted "Action" +:+ ": " +:+ quoted "sts:AssumeRole" +:+ "}]}".

Definition ensure_codebuild_role (role_name : string) : Fn remote (option string) :=
  def None (
    try_except
      (role ← call (get_role role_name);
       print ("✅ IAM Role '" +:+ role_name +:+ "' already exists.");;
       return_ (Some (Arn role)))
      (λ e, isinstance e NoSuchEntityException)
      (λ _,
         print ("⚠️ IAM Role '" +:+ role_name +:+ "' not found. Creating...");;
         role ← call (create_role role_name codebuild_trust_policy
                        "Service role for CodeBuild with S3 + build permissions");
         call (attach_role_policy role_name "arn:aws:iam::aws:policy/AmazonS3FullAccess");;
         call (attach_role_policy role_name
                 "arn:aws:iam::aws:policy/AWSCodeBuildDeveloperAccess");;
         print ("✅ Created IAM Role '" +:+ role_name +:+ "' with policies.");;
         return_ (Some (Arn role)))).

(** The [pipeline] argument of the [create_pipeline] call. *)
Definition pipeline_definition
    (pipeline_name s3_bucket_name github_repo_name github_owner
     codebuild_project_name codedeploy_app_name codedeploy_group_name
     codepipeline_role_arn : string) (github_token : pyval) : pipeline :=
  Pipeline pipeline_name codepipeline_role_arn (ArtifactStore "S3" s3_bucket_name)
    [ Stage "Source"
        [ Action "Source" (ActionType "Source" "ThirdParty" "GitHub" "1")
            None
            (Some [Artifact "SourceArtifact"])
            [ ("Owner", PStr github_owner);
              ("Repo", PStr github_repo_name);
              ("Branch", PStr "main");
              ("OAuthToken", github_token);
              ("PollForSourceChanges", PStr "false") ] ];
      Stage "Build"
        [ Action "Build" (ActionType "Build" "AWS" "CodeBuild" "1")
            (Some [Artifact "SourceArtifact"])
            (Some [Artifact "BuildArtifact"])
            [ ("ProjectName", PStr codebuild_project_name) ] ];
      Stage "Deploy"
        [ Action "Deploy" (ActionType "Deploy" "AWS" "CodeDeploy" "1")
            (Some [Artifact "BuildArtifact"])
            None
            [ ("ApplicationName", PStr codedeploy_app_name);
              ("DeploymentGroupName", PStr codedeploy_group_name) ] ] ].

(** The [try] statement of [create_codepipeline], for the definition it
    passes. *)
Definition submit_pipeline (pipeline_name : string) (definition : pipeline)
  : M remote unit unit :=
  try_except
    (call (create_pipeline definition);;
     print ("✅ CodePipeline '" +:+ pipeline_name +:+ "' created."))
    (λ e, isinstance e Exception)
    (λ e, print ("❌ Error creating CodePipeline: " +:+ exn_str e)).

Definition create_codepipeline
    (pipeline_name s3_bucket_name github_repo_name github_owner
     codebuild_project_name codedeploy_app_name codedeploy_group_name
     codepipeline_role_arn : string) (github_token : pyval)
    (codebuild_role_arn : option string) : Fn remote unit :=
  def () (
    submit_pipeline pipeline_name
      (pipeline_definition pipeline_name s3_bucket_name github_repo_name
         github_owner codebuild_project_name codedeploy_app_name
         codedeploy_group_name codepipeline_role_arn github_token)).

(** The statements under [if __name__ == "__main__"] of
    [create_pipeline.py]. *)
Definition create_pipeline_main : M remote unit unit :=
  let region := "ap-south-1" in
  let s3_bucket_name := "cicd-artifact-bucket-980921729554-ap-south-1" in
  let github_repo_name := "aws-cicd-project" in
  let github_owner := "your-github-username" in
  let github_secret_name := "github_pat_for_cicd" in
  let codebuild_project_name := "MyCICDProjectBuild" in
  let codedeploy_app_name := "MyCICDProjectApp" in
  let codedeploy_group_name := "MyCICDProjectGroup" in
  let codepipeline_role_arn :=
    "arn:aws:iam::980921729554:role/MyCICDProjectStack-CodePipelineRole-BfBJkSvHRfJN" in
  let codedeploy_role_arn :=
    "arn:aws:iam::980921729554:role/MyCICDProjectStack-CodeDeployRole-qrk0vjduap4d" in
  codebuild_role_arn ← invoke (ensure_codebuild_role "CodeBuildServiceRole");
  github_token ← invoke (get_secret github_secret_name region);
  (if negb (truthy github_token) then
     print "❌ Failed to retrieve GitHub token. Exiting.";;
     exit "1"
   else mret ());;
  try_except
    (call (create_bucket s3_bucket_name region);;
     print ("✅ S3 bucket '" +:+ s3_bucket_name +:+ "' created."))
    (λ e, isinstance e Exception)
    (λ e, print ("⚠️ Error creating S3 bucket: " +:+ exn_str e));;
  try_except
    (call (create_application codedeploy_app_name);;
     print ("✅ CodeDeploy application '" +:+ codedeploy_app_name +:+ "' created."))
    (λ e, isinstance e Exception)
    (λ e, print ("⚠️ Error creating CodeDeploy application: " +:+ exn_str e));;
  try_except
    (call (create_project codebuild_project_name codebuild_role_arn
             "CODEPIPELINE" "CODEPIPELINE"
             (BuildEnvironment "LINUX_CONTAINER" "BUILD_GENERAL1_SMALL"
                "aws/codebuild/standard:5.0"));;
     print ("✅ CodeBuild project '" +:+ codebuild_project_name +:+ "' created."))
    (λ e, isinstance e Exception)
    (λ e, print ("❌ Error creating CodeBuild project: " +:+ exn_str e));;
  try_except
    (call (create_deployment_group codedeploy_app_name codedeploy_group_name
             codedeploy_role_arn
             (DeploymentStyle "IN_PLACE" "WITHOUT_TRAFFIC_CONTROL")
             [TagFilter "Name" "MyEC2Instance" "KEY_AND_VALUE"]);;
     print ("✅ CodeDeploy deployment group '" +:+ codedeploy_group_name +:+ "' created."))
    (λ e, isinstance e Exception)
    (λ e, print ("❌ Error creating CodeDeploy deployment group: " +:+ exn_str e));;
  invoke (create_codepipeline "MyCICDProjectPipeline" s3_bucket_name github_repo_name
            github_owner codebuild_project_name codedeploy_app_name
            codedeploy_group_name codepipeline_role_arn github_token
            codebuild_role_arn).

(** *** [deploy_contact_form.py] *)

Definition LAMBDA_NAME : string := "contact-form-sender".
Definition API_NAME : string := "ContactFormAPI".
Definition REGION : string := "ap-south-1".
Definition FROM_EMAIL : string := "aswanidev997@gmail.com".
Definition TO_EMAIL : string := "aswanidev997@gmail.com".
Definition SES_REGION : string := REGION.

Definition role_name : string := "ContactFormLambdaRole".

(** [json.dumps(assume_role_policy)]. *)
Definition assume_role_policy : string :=
  "{" +:+ quoted "Version" +:+ ": " +:+ quoted "2012-10-17" +:+ ", "
  +:+ quoted "Statement" +:+ ": [{" +:+ quoted "Effect" +:+ ": " +:+ quoted "Allow" +:+ ", "
  +:+ quoted "Principal" +:+ ": {" +:+ quoted "Service" +:+ ": "
  +:+ quoted "lambda.amazonaws.com" +:+ "}, "
  +:+ quoted "Action" +:+ ": " +:+ quoted "sts:AssumeRole" +:+ "}]}".

(** [json.dumps(ses_policy)]. *)
Definition ses_policy : string :=
  "{" +:+ quoted "Version" +:+ ": " +:+ quoted "2012-10-17" +:+ ", "
  +:+ quoted "Statement" +:+ ": [{" +:+ quoted "Effect" +:+ ": " +:+ quoted "Allow" +:+ ", "
  +:+ quoted "Action" +:+ ": [" +:+ quoted "ses:SendEmail" +:+ ", "
  +:+ quoted "ses:SendRawEmail" +:+ "], "
  +:+ quoted "Resource" +:+ ": " +:+ quoted "*" +:+ "}]}".

(** The first [try] of the IAM role set-up: the role in [role]. *)
Definition create_or_get_role : M remote unit RoleResponse :=
  try_except
    (role ← call (create_role role_name assume_role_policy
                    "Lambda role for SES contact form");
     print ("IAM role '" +:+ role_name +:+ "' created.");;
     mret role)
    (λ e, isinstance e EntityAlreadyExistsException)
    (λ _,
       role ← call (get_role role_name);
       print ("IAM role '" +:+ role_name +:+ "' already exists.");;
       mret role).

(** IAM role set-up; its value is [role_arn]. *)
Definition iam_role_setup : M remote unit string :=
  role ← create_or_get_role;
  let role_arn := Arn role in
  call (attach_role_policy role_name
          "arn:aws:iam::aws:policy/service-role/AWSLambdaBasicExecutionRole");;
  try_except
    (call (put_role_policy role_name "SESSendEmailPolicy" ses_policy))
    (λ e, isinstance e Exception)
    (λ e, print ("Error attaching inline SES policy: " +:+ exn_str e));;
  sleep 10;;
  mret role_arn.

Definition zip_filename : string := "lambda_function.zip".

(** [with zipfile.ZipFile(zip_filename, 'w') as zipf: zipf.write(...)].
    Opening the archive for writing creates the file or empties it; the
    entry is then read from [lambda_function.py]; leaving the block closes
    the archive, which writes it out with the entries added so far, also
    when the block is left by the exception of a missing source file. *)
Definition zip_lambda_function : M remote unit unit :=
  write_file zip_filename EmptyString;;
  try_except
    (source ← read_file "lambda_function.py";
     write_file zip_filename (zip_archive [("lambda_function.py", source)]))
    (λ _, true)
    (λ e, write_file zip_filename (zip_archive []);; raise e).

Definition env_vars : gmap string string :=
  <["SES_REGION" := SES_REGION]>
    (<["TO_EMAIL" := TO_EMAIL]> (<["FROM_EMAIL" := FROM_EMAIL]> ∅)).

(** Create or update the function, for the [role_arn] and [env_vars] in
    scope. *)
Definition create_or_update_lambda (role_arn : string) (env_vars : gmap string string)
  : M remote unit unit :=
  try_except
    (zipped_code ← read_file zip_filename;
     call (create_function LAMBDA_NAME "python3.11" role_arn
             "lambda_function.lambda_handler" zipped_code 10 env_vars);;
     print ("Lambda function '" +:+ LAMBDA_NAME +:+ "' created."))
    (λ e, isinstance e ResourceConflictException)
    (λ _,
       zipped_code ← read_file zip_filename;
       call (update_function_code LAMBDA_NAME zipped_code);;
       call (update_function_configuration LAMBDA_NAME env_vars);;
       print ("Lambda function '" +:+ LAMBDA_NAME +:+ "' updated.")).

(** API, integration, route, deployment, stage and invoke permission. *)
Definition create_api_gateway : M remote unit unit :=
  api ← call (create_api API_NAME "HTTP");
  let api_id := ApiId_of api in
  caller ← call get_caller_identity;
  integration ←
    call (create_integration api_id "AWS_PROXY"
            ("arn:aws:apigateway:" +:+ REGION
             +:+ ":lambda:path/2015-03-31/functions/arn:aws:lambda:" +:+ REGION +:+ ":"
             +:+ Account caller +:+ ":function:" +:+ LAMBDA_NAME +:+ "/invocations")
            "2.0");
  call (create_route api_id "POST /contact"
          ("integrations/" +:+ IntegrationId_of integration));;
  deployment ← call (create_deployment api_id "Contact Form Deployment");
  call (create_stage api_id "prod" (DeploymentId_of deployment));;
  caller' ← call get_caller_identity;
  call (add_permission LAMBDA_NAME "APIGatewayInvoke" "lambda:InvokeFunction"
          "apigateway.amazonaws.com"
          ("arn:aws:execute-api:" +:+ REGION +:+ ":" +:+ Account caller' +:+ ":"
           +:+ api_id +:+ "/*/*/contact"));;
  print ("Contact form API is live at: https://" +:+ api_id +:+ ".execute-api."
         +:+ REGION +:+ ".amazonaws.com/prod/contact").

Definition deploy_contact_form : M remote unit unit :=
  role_arn ← iam_role_setup;
  zip_lambda_function;;
  create_or_update_lambda role_arn env_vars;;
  create_api_gateway.

End Scripts.

(** ** A reference control plane *)

(** The provider's side of the calls, as far as the scripts can observe it:
    which names exist, what a create or update call on an existing or
    missing name answers, and what is stored.  Used where a property is
    about two runs in a row or about what the remote keeps. *)
Module Aws.

Record role : Type := Role {
  role_arn : string;
  role_trust : string;
  role_managed : list string;
  role_inline : gmap string string }.

Record function : Type := Function {
  fn_runtime : string;
  fn_role : string;
  fn_handler : string;
  fn_code : string;
  fn_timeout : Z;
  fn_environment : gmap string string;
  fn_statements : list string }.

Record api : Type := Api {
  api_name : string;
  api_integrations : list string;
  api_routes : list (string * string);
  api_deployments : list string;
  api_stages : list (string * string) }.

Record state : Type := State {
  account_id : string;
  (** the resources a template instantiates *)
  provision : string → list StackResource;
  stacks : gmap string string;
  roles : gmap string role;
  secrets : gmap string SecretValue;
  functions : gmap string function;
  apis : gmap string api;
  (** buckets, applications, projects, groups and pipelines, by kind and name *)
  named : list (string * string);
  (** how many identifiers were handed out *)
  issued : nat }.

Definition with_stacks (s : state) (v : gmap string string) : state :=
  State (account_id s) (provision s) v (roles s) (secrets s) (functions s) (apis s)
        (named s) (issued s).
Definition with_roles (s : state) (v : gmap string role) : state :=
  State (account_id s) (provision s) (stacks s) v (secrets s) (functions s) (apis s)
        (named s) (issued s).
Definition with_functions (s : state) (v : gmap string function) : state :=
  State (account_id s) (provision s) (stacks s) (roles s) (secrets s) v (apis s)
        (named s) (issued s).
Definition with_apis (s : state) (v : gmap string api) (n : nat) : state :=
  State (account_id s) (provision s) (stacks s) (roles s) (secrets s) (functions s) v
        (named s) n.
Definition with_named (s : state) (v : list (string * string)) : state :=
  State (account_id s) (provision s) (stacks s) (roles s) (secrets s) (functions s)
        (apis s) v (issued s).

Definition error_text (code operation message : string) : string :=
  "An error occurred (" +:+ code +:+ ") when calling the " +:+ operation
  +:+ " operation: " +:+ message.

Definition client_error (code operation message : string) : exn :=
  Exn ClientError (error_text code operation message).

Definition fresh_id (s : state) : string := "id" +:+ pretty (issued s).

(** A create call on a name of some kind: refused when taken. *)
Definition create_named (kind name code operation : string) (s : state)
  : outcome unit * state :=
  if bool_decide ((kind, name) ∈ named s)
  then (Raised (client_error code operation (name +:+ " already exists")), s)
  else (Returned (), with_named s (named s ++ [(kind, name)])).

Definition serve : handler state :=
  λ r,
    match r as r' return state → outcome (response_type r') * state with
    | describe_stacks n => λ s,
        match stacks s !! n with
        | Some _ => (Returned (), s)
        | None => (Raised (client_error "ValidationError" "DescribeStacks"
                             ("Stack with id " +:+ n +:+ " does not exist")), s)
        end
    | update_stack n body _ => λ s,
        match stacks s !! n with
        | Some current =>
            if String.eqb current body
            then (Raised (client_error "ValidationError" "UpdateStack"
                            "No updates are to be performed."), s)
            else (Returned (), with_stacks s (<[n := body]> (stacks s)))
        | None => (Raised (client_error "ValidationError" "UpdateStack"
                             ("Stack [" +:+ n +:+ "] does not exist")), s)
        end
    | wait_stack_update_complete n => λ s,
        match stacks s !! n with
        | Some _ => (Returned (), s)
        | None => (Raised (Exn WaiterError "Waiter StackUpdateComplete failed"), s)
        end
    | create_stack n body _ => λ s,
        match stacks s !! n with
        | Some _ => (Raised (client_error "AlreadyExistsException" "CreateStack"
                               ("Stack [" +:+ n +:+ "] already exists")), s)
        | None => (Returned (), with_stacks s (<[n := body]> (stacks s)))
        end
    | wait_stack_create_complete n => λ s,
        match stacks s !! n with
        | Some _ => (Returned (), s)
        | None => (Raised (Exn WaiterError "Waiter StackCreateComplete failed"), s)
        end
    | describe_stack_resources n => λ s,
        match stacks s !! n with
        | Some body => (Returned (provision s body), s)
        | None => (Raised (client_error "ValidationError" "DescribeStackResources"
                             ("Stack with id " +:+ n +:+ " does not exist")), s)
        end
    | get_secret_value n => λ s,
        match secrets s !! n with
        | Some v => (Returned v, s)
        | None => (Raised (client_error "ResourceNotFoundException" "GetSecretValue"
                             "Secrets Manager can't find the specified secret."), s)
        end
    | get_role n => λ s,
        match roles s !! n with
        | Some ro => (Returned (mkRoleResponse (role_arn ro)), s)
        | None => (Raised (Exn NoSuchEntityException
                             (error_text "NoSuchEntity" "GetRole"
                                ("The role with name " +:+ n +:+ " cannot be found."))), s)
        end
    | create_role n trust _ => λ s,
        match roles s !! n with
        | Some _ => (Raised (Exn EntityAlreadyExistsException
                               (error_text "EntityAlreadyExists" "CreateRole"
                                  ("Role with name " +:+ n +:+ " already exists."))), s)
        | None =>
            let arn := "arn:aws:iam::" +:+ account_id s +:+ ":role/" +:+ n in
            (Returned (mkRoleResponse arn),
             with_roles s (<[n := Role arn trust [] ∅]> (roles s)))
        end
    | attach_role_policy n policy => λ s,
        match roles s !! n with
        | Some ro =>
            let managed := if bool_decide (policy ∈ role_managed ro)
                           then role_managed ro else role_managed ro ++ [policy] in
            (Returned (),
             with_roles s (<[n := Role (role_arn ro) (role_trust ro) managed
                                    (role_inline ro)]> (roles s)))
        | None => (Raised (Exn NoSuchEntityException
                             (error_text "NoSuchEntity" "AttachRolePolicy"
                                ("The role with name " +:+ n +:+ " cannot be found."))), s)
        end
    | put_role_policy n pname doc => λ s,
        match roles s !! n with
        | Some ro =>
            (Returned (),
             with_roles s (<[n := Role (role_arn ro) (role_trust ro) (role_managed ro)
                                    (<[pname := doc]> (role_inline ro))]> (roles s)))
        | None => (Raised (Exn NoSuchEntityException
                             (error_text "NoSuchEntity" "PutRolePolicy"
                                ("The role with name " +:+ n +:+ " cannot be found."))), s)
        end
    | create_pipeline p =>
        create_named "pipeline" (pipeline_name p) "PipelineNameInUseException"
          "CreatePipeline"
    | create_bucket b _ =>
        create_named "bucket" b "BucketAlreadyOwnedByYou" "CreateBucket"
    | create_application a =>
        create_named "application" a "ApplicationAlreadyExistsException"
          "CreateApplication"
    | create_project n _ _ _ _ =>
        create_named "project" n "ResourceAlreadyExistsException" "CreateProject"
    | create_deployment_group a g _ _ _ =>
        create_named "deployment group" (a +:+ "/" +:+ g)
          "DeploymentGroupAlreadyExistsException" "CreateDeploymentGroup"
    | create_function n runtime ro hd code timeout vars => λ s,
        match functions s !! n with
        | Some _ => (Raised (Exn ResourceConflictException
                               (error_text "ResourceConflictException" "CreateFunction"
                                  ("Function already exist: " +:+ n))), s)
        | None =>
            (Returned (),
             with_functions s
               (<[n := Function runtime ro hd code timeout vars []]> (functions s)))
        end
    | update_function_code n code => λ s,
        match functions s !! n with
        | Some f =>
            (Returned (),
             with_functions s
               (<[n := Function (fn_runtime f) (fn_role f) (fn_handler f) code
                        (fn_timeout f) (fn_environment f) (fn_statements f)]>
                  (functions s)))
        | None => (Raised (client_error "ResourceNotFoundException" "UpdateFunctionCode"
                             ("Function not found: " +:+ n)), s)
        end
    | update_function_configuration n vars => λ s,
        match functions s !! n with
        | Some f =>
            (Returned (),
             with_functions s
               (<[n := Function (fn_runtime f) (fn_role f) (fn_handler f) (fn_code f)
                        (fn_timeout f) vars (fn_statements f)]>
                  (functions s)))
        | None => (Raised (client_error "ResourceNotFoundException"
                             "UpdateFunctionConfiguration"
                             ("Function not found: " +:+ n)), s)
        end
    | add_permission n sid _ _ _ => λ s,
        match functions s !! n with
        | Some f =>
            if bool_decide (sid ∈ fn_statements f)
            then (Raised (Exn ResourceConflictException
                            (error_text "ResourceConflictException" "AddPermission"
                               ("The statement id (" +:+ sid
                                +:+ ") provided already exists."))), s)
            else
              (Returned (),
               with_functions s
                 (<[n := Function (fn_runtime f) (fn_role f) (fn_handler f) (fn_code f)
                          (fn_timeout f) (fn_environment f) (fn_statements f ++ [sid])]>
                    (functions s)))
        | None => (Raised (client_error "ResourceNotFoundException" "AddPermission"
                             ("Function not found: " +:+ n)), s)
        end
    | create_api n _ => λ s,
        let i := fresh_id s in
        (Returned (mkApiResponse i),
         with_apis s (<[i := Api n [] [] [] []]> (apis s)) (S (issued s)))
    | create_integration a _ _ _ => λ s,
        match apis s !! a with
        | Some x =>
            let i := fresh_id s in
            (Returned (mkIntegrationResponse i),
             with_apis s
               (<[a := Api (api_name x) (api_integrations x ++ [i]) (api_routes x)
                        (api_deployments x) (api_stages x)]> (apis s))
               (S (issued s)))
        | None => (Raised (client_error "NotFoundException" "CreateIntegration"
                             ("Invalid API identifier specified " +:+ a)), s)
        end
    | create_route a key target => λ s,
        match apis s !! a with
        | Some x =>
            (Returned (),
             with_apis s
               (<[a := Api (api_name x) (api_integrations x) (api_routes x ++ [(key, target)])
                        (api_deployments x) (api_stages x)]> (apis s))
               (issued s))
        | None => (Raised (client_error "NotFoundException" "CreateRoute"
                             ("Invalid API identifier specified " +:+ a)), s)
        end
    | create_deployment a _ => λ s,
        match apis s !! a with
        | Some x =>
            let i := fresh_id s in
            (Returned (mkDeploymentResponse i),
             with_apis s
               (<[a := Api (api_name x) (api_integrations x) (api_routes x)
                        (api_deployments x ++ [i]) (api_stages x)]> (apis s))
               (S (issued s)))
        | None => (Raised (client_error "NotFoundException" "CreateDeployment"
                             ("Invalid API identifier specified " +:+ a)), s)
        end
    | create_stage a name dep => λ s,
        match apis s !! a with
        | Some x =>
            if bool_decide (name ∈ (api_stages x).*1)
            then (Raised (client_error "ConflictException" "CreateStage"
                            "Stage already exists"), s)
            else
              (Returned (),
               with_apis s
                 (<[a := Api (api_name x) (api_integrations x) (api_routes x)
                          (api_deployments x) (api_stages x ++ [(name, dep)])]> (apis s))
                 (issued s))
        | None => (Raised (client_error "NotFoundException" "CreateStage"
                             ("Invalid API identifier specified " +:+ a)), s)
        end
    | get_caller_identity => λ s, (Returned (mkCallerIdentity (account_id s)), s)
    end.

(** An account in which nothing has been created yet. *)
Definition empty (account : string) (provision : string → list StackResource)
    (secrets : gmap string SecretValue) : state :=
  State account provision ∅ ∅ secrets ∅ ∅ [] 0.

End Aws.

(** A control plane that cannot be reached: every call fails in the client
    library before any response exists. *)
Definition unreachable : handler unit :=
  λ r s, (Raised (Exn BotoCoreError "Could not connect to the endpoint URL"), s).

(** The world a first run starts in. *)
Definition start {remote} (c : remote) (fs : gmap string string) : world remote :=
  World c fs [] [].

(** The world a later run starts in: the remote state and the files the
    earlier run left, a new process with nothing sent or printed yet. *)
Definition rerun {remote} (w : world remote) : world remote :=
  World (cloud w) (files w) [] [].

(** The world after one more request. *)
Definition sent {remote} (w : world remote) (r : request) (c : remote) : world remote :=
  World c (files w) (calls w ++ [r]) (stdout w).

(** The world after one more printed line. *)
Definition printed {remote} (w : world remote) (line : string) : world remote :=
  World (cloud w) (files w) (calls w) (stdout w ++ [line]).

(** ** Concrete accounts and payloads *)

Definition github_token_payload (token : string) : string :=
  "{" +:+ quoted "github_token" +:+ ":" +:+ quoted token +:+ "}".

(** A secret in the other accepted shape: an object without the key. *)
Definition other_key_payload : string :=
  "{" +:+ quoted "user" +:+ ":" +:+ quoted "x" +:+ "}".

(** A fresh account that holds one secret string under the name the
    pipeline script asks for. *)
Definition account_with_secret (payload : string) : world Aws.state :=
  start (Aws.empty "980921729554" (λ _, [])
           (<["github_pat_for_cicd" := mkSecretValue (Some payload) None]> ∅))
        ∅.

(** The files next to the scripts: the stack template and the function
    source. *)
Definition sample_template : string := "Resources: CodePipelineRole, ArtifactBucket".

Definition workstation : gmap string string :=
  <["lambda_function.py" := "def lambda_handler(event, context): pass"]>
    (<["iac_ec2.yml" := sample_template]> ∅).

(** A stack with one role and one bucket. *)
Definition sample_role : StackResource :=
  mkStackResource "AWS::IAM::Role" "CodePipelineRole"
    "MyCICDProjectStack-CodePipelineRole-BfBJkSvHRfJN".

Definition sample_bucket : StackResource :=
  mkStackResource "AWS::S3::Bucket" "ArtifactBucket"
    "cicd-artifact-bucket-980921729554-ap-south-1".

(** A fresh account in which every template instantiates that role and
    that bucket. *)
Definition fresh_account : Aws.state :=
  Aws.empty "980921729554" (λ _, [sample_role; sample_bucket]) ∅.

(** ** The stage-chain validator of the specification *)

(** Modelled from the spec: the names of the artifacts an action declares,
    for the validator of section 4.3, which the source does not contain
    (the specification calls it a recommended addition). *)
Definition artifact_names (declared : option (list artifact)) : list string :=
  match declared with
  | Some l => artifact_name <$> l
  | None => []
  end.

(** Modelled from the spec: every declared input artifact of an action was
    produced as an output artifact by an earlier action of the stage
    sequence; [produced] holds the outputs of the actions already passed. *)
Fixpoint inputs_produced (produced : list string) (acts : list action) : bool :=
  match acts with
  | [] => true
  | a :: rest =>
      forallb (λ n, bool_decide (n ∈ produced)) (artifact_names (inputArtifacts a))
      && inputs_produced (produced ++ artifact_names (outputArtifacts a)) rest
  end.

(** Modelled from the spec: the chaining condition on a whole definition,
    its actions taken in the order of the stages. *)
Definition chains_validly (p : pipeline) : bool :=
  inputs_produced [] (stages p ≫= actions).

(** Modelled from the spec: stage names are unique in the pipeline and
    action names are unique in their stage. *)
Definition names_unique (p : pipeline) : bool :=
  bool_decide (NoDup (stage_name <$> stages p))
  && forallb (λ st, bool_decide (NoDup (action_name <$> actions st))) (stages p).

(** Modelled from the spec: both conditions of the validator. *)
Definition valid_topology (p : pipeline) : bool := chains_validly p && names_unique p.

(** Modelled from the spec: the error with which the validator fails,
    carrying its description. *)
Inductive topology_error : Type :=
| InvalidPipelineTopology (description : string).

(** Modelled from the spec: the validator of section 4.3, absent from the
    source.  It fails when an action declares an input artifact that no
    earlier action produced, or when names are not unique in their scope,
    and passes otherwise. *)
Definition validate_topology (p : pipeline) : option topology_error :=
  if negb (chains_validly p)
  then Some (InvalidPipelineTopology
               "an action declares an input artifact that no earlier action produces")
  else if negb (names_unique p)
       then Some (InvalidPipelineTopology "stage names or action names are not unique")
       else None.



(** An archive format for concrete runs: a marker, then the name and the
    content of every entry. *)
Definition sample_zip (entries : list (string * string)) : string :=
  "PK" +:+ String.concat EmptyString
             (map (λ entry, ":" +:+ entry.1 +:+ ":" +:+ entry.2) entries).

(** The method names of the calls of the API set-up, in program order. *)
Definition api_gateway_methods : list string :=
  ["create_api"; "get_caller_identity"; "create_integration"; "create_route";
   "create_deployment"; "create_stage"; "get_caller_identity"; "add_permission"].

(** An account in which the function of the contact form is deployed. *)
Definition account_with_function : Aws.state :=
  Aws.with_functions fresh_account
    (<[LAMBDA_NAME := Aws.Function "python3.11"
                        "arn:aws:iam::980921729554:role/ContactFormLambdaRole"
                        "lambda_function.lambda_handler" "PK" 10 env_vars []]> ∅).

(** A scan that did not run out of fuel and, if it produced a value,
    consumed some of its input. *)
Definition scans_within {A} (result : Json.scan A) (s : string) : Prop :=
  result ≠ Json.OutOfFuel ∧ ∀ v rest, result = Json.Scanned v rest → String.length rest < String.length s.

(** ** Further control planes and accounts *)

(** The reference control plane with stack operations that never complete:
    both waiters give up. *)
Definition stalled : handler Aws.state :=
  λ r,
    match r as r' return Aws.state → outcome (response_type r') * Aws.state with
    | wait_stack_update_complete _ =>
        λ s, (Raised (Exn WaiterError "Waiter StackUpdateComplete failed: Max attempts exceeded"), s)
    | wait_stack_create_complete _ =>
        λ s, (Raised (Exn WaiterError "Waiter StackCreateComplete failed: Max attempts exceeded"), s)
    | r' => Aws.serve r'
    end.

(** A fresh account in which a template instantiates a bucket and no role. *)
Definition account_without_roles : Aws.state :=
  Aws.empty "980921729554" (λ _, [sample_bucket]) ∅.

(** A fresh account whose secret is binary. *)
Definition account_with_binary_secret (blob : string) : world Aws.state :=
  start (Aws.empty "980921729554" (λ _, [])
           (<["github_pat_for_cicd" := mkSecretValue None (Some blob)]> ∅))
        ∅.

(** A fresh account whose secret entry carries neither field. *)
Definition account_with_empty_secret : world Aws.state :=
  start (Aws.empty "980921729554" (λ _, [])
           (<["github_pat_for_cicd" := mkSecretValue None None]> ∅))
        ∅.

(** The reference control plane with a policy service that refuses every
    attachment and every inline policy. *)
Definition policies_denied : handler Aws.state :=
  λ r,
    match r as r' return Aws.state → outcome (response_type r') * Aws.state with
    | attach_role_policy _ _ =>
        λ s, (Raised (Aws.client_error "AccessDenied" "AttachRolePolicy"
                        "not authorized to perform iam:AttachRolePolicy"), s)
    | put_role_policy _ _ _ =>
        λ s, (Raised (Aws.client_error "AccessDenied" "PutRolePolicy"
                        "not authorized to perform iam:PutRolePolicy"), s)
    | r' => Aws.serve r'
    end.

(** The reference control plane on which only inline policies are refused. *)
Definition inline_policies_denied : handler Aws.state :=
  λ r,
    match r as r' return Aws.state → outcome (response_type r') * Aws.state with
    | put_role_policy _ _ _ =>
        λ s, (Raised (Aws.client_error "AccessDenied" "PutRolePolicy"
                        "not authorized to perform iam:PutRolePolicy"), s)
    | r' => Aws.serve r'
    end.

(** The reference control plane on which the configuration of a function
    cannot be changed while its code update is in progress. *)
Definition update_in_progress : handler Aws.state :=
  λ r,
    match r as r' return Aws.state → outcome (response_type r') * Aws.state with
    | update_function_configuration n _ =>
        λ s, (Raised (Exn ResourceConflictException
                        (Aws.error_text "ResourceConflictException"
                           "UpdateFunctionConfiguration"
                           ("An update is in progress for resource: " +:+ n))), s)
    | r' => Aws.serve r'
    end.

(** The sequences of client methods one call of [create_or_update_cf_stack]
    can make: none when the template cannot be read, the probe alone, the
    update path cut short or complete (with or without a wait), and the
    create path cut short or complete. *)
Definition stack_call_sequences : list (list string) :=
  [ [];
    ["describe_stacks"];
    ["describe_stacks"; "update_stack"];
    ["describe_stacks"; "update_stack"; "describe_stack_resources"];
    ["describe_stacks"; "update_stack"; "stack_update_complete.wait"];
    ["describe_stacks"; "update_stack"; "stack_update_complete.wait";
     "describe_stack_resources"];
    ["describe_stacks"; "create_stack"];
    ["describe_stacks"; "create_stack"; "stack_create_complete.wait"];
    ["describe_stacks"; "create_stack"; "stack_create_complete.wait";
     "describe_stack_resources"] ].

(** The reference control plane for a caller who may not describe stacks:
    the probe is refused with an access error. *)
Definition access_denied : handler Aws.state :=
  λ r,
    match r as r' return Aws.state → outcome (response_type r') * Aws.state with
    | describe_stacks _ =>
        λ s, (Raised (Aws.client_error "AccessDenied" "DescribeStacks"
                        "the policy that would allow cloudformation:DescribeStacks does not exist"), s)
    | r' => Aws.serve r'
    end.

(** ** The main sequence of the pipeline script, step by step *)

(** The world one [try] statement of the main sequence leaves: the request
    is sent, and one line is printed, the line of success when the call
    returns and otherwise the line of the handler, which ends in the text
    of the exception. *)
Definition logged_call {remote} (serve : handler remote) (r : request)
    (created failed : string) (w : world remote) : world remote :=
  match serve r (cloud w) with
  | (Returned _, c') => printed (sent w r c') created
  | (Raised e, c') => printed (sent w r c') (failed +:+ exn_str e)
  end.

(** An account that holds the token and in which the bucket, the
    application, the build project and the deployment group of the
    pipeline script exist already. *)
Definition account_with_resources : world Aws.state :=
  start (Aws.with_named
           (Aws.empty "980921729554" (λ _, [])
              (<["github_pat_for_cicd"
                 := mkSecretValue (Some (github_token_payload "abc")) None]> ∅))
           [("bucket", "cicd-artifact-bucket-980921729554-ap-south-1");
            ("application", "MyCICDProjectApp");
            ("project", "MyCICDProjectBuild");
            ("deployment group", "MyCICDProjectApp/MyCICDProjectGroup")])
        ∅.

(** An account in which the pipeline of the script exists already. *)
Definition account_with_pipeline : world Aws.state :=
  start (Aws.with_named fresh_account [("pipeline", "MyCICDProjectPipeline")]) workstation.

(** ** Payloads at the limits of the interpreter *)

(** [text * n]. *)
Fixpoint repeated (text : string) (n : nat) : string :=
  match n with
  | O => EmptyString
  | S n' => text +:+ repeated text n'
  end.

(** An object whose token is an integer of [n] digits. *)
Definition integer_token_payload (n : nat) : string :=
  "{" +:+ quoted "github_token" +:+ ":" +:+ repeated "1" n +:+ "}".

(** An object whose token is [n] arrays, one inside the other. *)
Definition nested_token_payload (n : nat) : string :=
  "{" +:+ quoted "github_token" +:+ ":" +:+ repeated "[" n +:+ repeated "]" n +:+ "}".

(** The line [get_secret] prints for an exception with the given text. *)
Definition secret_error_line (secret_name text : string) : string :=
  "❌ Error retrieving secret '" +:+ secret_name +:+ "': " +:+ text.

(** * Properties *)

Arguments isinstance : simpl never.
Arguments str_contains : simpl never.
Arguments String.append : simpl never.
Arguments Json.loads : simpl never.

Ltac unfold_script :=
  cbv [call print return_ raise eval try_except def invoke read_file write_file
       exit sleep mbind mret M_bind M_ret].

(** ** The decoder *)

Section Decoder.
Import Json.

Lemma skip_ws_length (s : string) : String.length (skip_ws s) <= String.length s.
Proof.
  induction s as [|c s IH]; simpl; [lia|].
  destruct (is_ws c); simpl; lia.
Qed.

Ltac split_scan H :=
  repeat match type of H with
    | context [mbind _ (scanstring ?r)] =>
        destruct (scanstring r) as [[? ?]|] eqn:?;
        cbn [mbind option_bind] in H; try discriminate H
    | context [mbind _ (unescape ?r)] =>
        destruct (unescape r) as [?|] eqn:?;
        cbn [mbind option_bind] in H; try discriminate H
    | context [match ?x with _ => _ end] =>
        destruct x eqn:?; try discriminate H
    end.

Lemma scanstring_length (n : nat) :
  ∀ s out rest, String.length s <= n → scanstring s = Some (out, rest) →
                String.length rest < String.length s.
Proof.
  induction n as [|n IH]; intros s out rest Hn Hscan.
  - destruct s; [discriminate | cbn [String.length] in Hn; lia].
  - destruct s as [|c r]; [discriminate|].
    cbn [scanstring] in Hscan. split_scan Hscan.
    all: injection Hscan as <- <-; subst; cbn [String.length] in *.
    all: repeat match goal with
        | H : scanstring ?r = Some (_, ?rest) |- _ =>
            apply IH in H; [|cbn [String.length] in *; lia]
        end.
    all: cbn [String.length] in *; lia.
Qed.

Lemma span_digits_length (s ds rest : string) :
  span_digits s = (ds, rest) → String.length rest <= String.length s.
Proof.
  revert ds rest. induction s as [|c s IH]; intros ds rest H; cbn [span_digits] in H.
  - injection H as <- <-. lia.
  - destruct (digit_val c).
    + destruct (span_digits s) as [ds' rest'] eqn:E. injection H as <- <-.
      specialize (IH _ _ eq_refl). cbn [String.length]. lia.
    + injection H as <- <-. lia.
Qed.

Lemma substring_length (n m : nat) (s : string) :
  String.length (String.substring n m s) <= String.length s - n.
Proof.
  revert n m. induction s as [|c s IH]; intros n m.
  - destruct n, m; simpl; lia.
  - destruct n as [|n].
    + destruct m as [|m]; simpl; [lia|]. specialize (IH 0 m). lia.
    + simpl. apply IH.
Qed.

Lemma strip_prefix_length (p s rest : string) :
  strip_prefix p s = Some rest → String.length rest <= String.length s - String.length p.
Proof.
  unfold strip_prefix. destruct (String.prefix p s); [|discriminate].
  intros [= <-]. apply substring_length.
Qed.

Lemma prefix_length (p s : string) :
  String.prefix p s = true → String.length p <= String.length s.
Proof.
  revert s. induction p as [|c p IH]; intros s H; simpl; [lia|].
  destruct s as [|d s]; simpl in H; [discriminate|].
  destruct (ascii_dec c d); [|discriminate]. specialize (IH _ H). simpl. lia.
Qed.

Lemma strip_prefix_shorter (p s rest : string) :
  0 < String.length p → strip_prefix p s = Some rest →
  String.length rest < String.length s.
Proof.
  intros Hp H. pose proof (strip_prefix_length _ _ _ H) as Hlen.
  unfold strip_prefix in H. destruct (String.prefix p s) eqn:E; [|discriminate].
  apply prefix_length in E. lia.
Qed.


Lemma number_sign_length (s sign rest : string) :
  number_sign s = (sign, rest) → String.length rest <= String.length s.
Proof.
  unfold number_sign. destruct s as [|c r]; [intros [= <- <-]; lia|].
  destruct (Ascii.eqb c "-"); intros [= <- <-]; cbn [String.length]; lia.
Qed.

Lemma number_int_length (s digits rest : string) :
  number_int s = Some (digits, rest) → String.length rest < String.length s.
Proof.
  unfold number_int. destruct s as [|c r]; [discriminate|].
  destruct (digit_val c) as [d|]; [|discriminate].
  destruct (d =? 0)%N.
  - intros [= <- <-]. cbn [String.length]. lia.
  - destruct (span_digits r) as [ds rest'] eqn:E. apply span_digits_length in E.
    intros [= <- <-]. cbn [String.length]. lia.
Qed.

Lemma number_frac_length (s frac rest : string) :
  number_frac s = (frac, rest) → String.length rest <= String.length s.
Proof.
  unfold number_frac. destruct s as [|c r]; [intros [= <- <-]; lia|].
  destruct (Ascii.eqb c "."); [|intros [= <- <-]; lia].
  destruct (span_digits r) as [fs rest'] eqn:E. apply span_digits_length in E.
  destruct fs; intros [= <- <-]; cbn [String.length]; lia.
Qed.

Lemma number_exp_length (s exp rest : string) :
  number_exp s = (exp, rest) → String.length rest <= String.length s.
Proof.
  unfold number_exp. destruct s as [|e r]; [intros [= <- <-]; lia|].
  destruct (Ascii.eqb e "e" || Ascii.eqb e "E")%char; [|intros [= <- <-]; lia].
  assert (∃ sg r1,
             match r with
             | String c r1 =>
                 if (Ascii.eqb c "+" || Ascii.eqb c "-")%char
                 then (String c EmptyString, r1) else (EmptyString, r)
             | EmptyString => (EmptyString, r)
             end = (sg, r1) ∧ String.length r1 <= String.length r)
    as (sg & r1 & -> & Hr1).
  { destruct r as [|c r1]; [eauto|].
    destruct (Ascii.eqb c "+" || Ascii.eqb c "-")%char; do 2 eexists;
      (split; [reflexivity | cbn [String.length]; lia]). }
  destruct (span_digits r1) as [es rest'] eqn:E. apply span_digits_length in E.
  destruct es; intros [= <- <-]; cbn [String.length]; lia.
Qed.

Lemma match_number_length (s rest : string) (v : pyval) :
  match_number s = Some (Scanned v rest) → String.length rest < String.length s.
Proof.
  unfold match_number.
  destruct (number_sign s) as [sign s1] eqn:Hsign. apply number_sign_length in Hsign.
  destruct (number_int s1) as [[digits r0]|] eqn:Hint; [|discriminate].
  apply number_int_length in Hint.
  destruct (number_frac r0) as [frac r1] eqn:Hfrac. apply number_frac_length in Hfrac.
  destruct (number_exp r1) as [exp r2] eqn:Hexp. apply number_exp_length in Hexp.
  destruct frac, exp;
    try destruct (int_max_str_digits <? Z.of_nat (String.length digits))%Z;
    intros [= <- <-]; lia.
Qed.

Lemma match_number_fuel (s : string) : match_number s ≠ Some OutOfFuel.
Proof.
  unfold match_number.
  destruct (number_sign s) as [sign s1].
  destruct (number_int s1) as [[digits r0]|]; [|discriminate].
  destruct (number_frac r0) as [frac r1].
  destruct (number_exp r1) as [exp r2].
  destruct frac, exp;
    try destruct (int_max_str_digits <? Z.of_nat (String.length digits))%Z;
    discriminate.
Qed.

Lemma scan_constant_length (s rest : string) (v : pyval) :
  scan_constant s = Scanned v rest → String.length rest < String.length s.
Proof.
  unfold scan_constant.
  destruct (strip_prefix "null" s) eqn:E1.
  { intros [= <- <-]. apply strip_prefix_shorter in E1; [exact E1 | simpl; lia]. }
  destruct (strip_prefix "true" s) eqn:E2.
  { intros [= <- <-]. apply strip_prefix_shorter in E2; [exact E2 | simpl; lia]. }
  destruct (strip_prefix "false" s) eqn:E3.
  { intros [= <- <-]. apply strip_prefix_shorter in E3; [exact E3 | simpl; lia]. }
  destruct (match_number s) as [result|] eqn:E4.
  { intros ->. apply match_number_length in E4. exact E4. }
  destruct (strip_prefix "NaN" s) eqn:E5.
  { intros [= <- <-]. apply strip_prefix_shorter in E5; [exact E5 | simpl; lia]. }
  destruct (strip_prefix "Infinity" s) eqn:E6.
  { intros [= <- <-]. apply strip_prefix_shorter in E6; [exact E6 | simpl; lia]. }
  destruct (strip_prefix "-Infinity" s) eqn:E7.
  { intros [= <- <-]. apply strip_prefix_shorter in E7; [exact E7 | simpl; lia]. }
  discriminate.
Qed.

Lemma scan_constant_fuel (s : string) : scan_constant s ≠ OutOfFuel.
Proof.
  unfold scan_constant.
  destruct (strip_prefix "null" s); [discriminate|].
  destruct (strip_prefix "true" s); [discriminate|].
  destruct (strip_prefix "false" s); [discriminate|].
  destruct (match_number s) as [result|] eqn:E4.
  { intros ->. exact (match_number_fuel _ E4). }
  destruct (strip_prefix "NaN" s); [discriminate|].
  destruct (strip_prefix "Infinity" s); [discriminate|].
  destruct (strip_prefix "-Infinity" s); discriminate.
Qed.

Lemma scan_fuel_enough (fuel : nat) :
  (∀ depth s, 2 * String.length s < fuel → scans_within (scan_once fuel depth s) s)
  ∧ (∀ depth s acc, 2 * String.length s + 1 < fuel →
                    scans_within (json_array fuel depth s acc) s)
  ∧ (∀ depth s acc, 2 * String.length s + 1 < fuel →
                    scans_within (json_object fuel depth s acc) s).
Proof.
  induction fuel as [|fuel (IHonce & IHarray & IHobject)].
  { repeat split; intros; lia. }
  split; [|split].
  - intros depth s Hfuel. destruct s as [|c r]; cbn [scan_once].
    { split; [discriminate | intros ? ? [=]]. }
    cbn [String.length] in Hfuel.
    destruct (Ascii.eqb c quote).
    { destruct (scanstring r) as [[str rest]|] eqn:E.
      - apply (scanstring_length _ _ _ _ (le_n _)) in E.
        split; [discriminate | intros ? ? [= <- <-]; cbn [String.length]; lia].
      - split; [discriminate | intros ? ? [=]]. }
    destruct (Ascii.eqb c "{").
    { destruct depth as [|depth]; [split; [discriminate | intros ? ? [=]]|].
      pose proof (skip_ws_length r) as Hws.
      destruct (skip_ws r) as [|c1 r1]; [split; [discriminate | intros ? ? [=]]|].
      cbn [String.length] in Hws.
      destruct (Ascii.eqb c1 "}").
      - split; [discriminate | intros ? ? [= <- <-]; cbn [String.length]; lia].
      - destruct (IHobject depth (String c1 r1) []) as [Hdeep Hlen];
          [cbn [String.length]; lia|].
        split; [exact Hdeep|]. intros v rest Hscan. apply Hlen in Hscan.
        cbn [String.length] in *. lia. }
    destruct (Ascii.eqb c "[").
    { destruct depth as [|depth]; [split; [discriminate | intros ? ? [=]]|].
      pose proof (skip_ws_length r) as Hws.
      destruct (skip_ws r) as [|c1 r1]; [split; [discriminate | intros ? ? [=]]|].
      cbn [String.length] in Hws.
      destruct (Ascii.eqb c1 "]").
      - split; [discriminate | intros ? ? [= <- <-]; cbn [String.length]; lia].
      - destruct (IHarray depth (String c1 r1) []) as [Hdeep Hlen];
          [cbn [String.length]; lia|].
        split; [exact Hdeep|]. intros v rest Hscan. apply Hlen in Hscan.
        cbn [String.length] in *. lia. }
    split; [apply scan_constant_fuel|].
    intros v rest Hscan. apply scan_constant_length in Hscan. exact Hscan.
  - intros depth s acc Hfuel. cbn [json_array].
    destruct (IHonce depth s) as [Hdeep Hlen]; [lia|].
    destruct (scan_once fuel depth s) as [v rest| | | |];
      [| split; [discriminate | intros ? ? [=]] ..| destruct (Hdeep eq_refl)].
    specialize (Hlen v rest eq_refl).
    pose proof (skip_ws_length rest) as Hws.
    destruct (skip_ws rest) as [|c r]; [split; [discriminate | intros ? ? [=]]|].
    cbn [String.length] in Hws.
    destruct (Ascii.eqb c "]").
    { split; [discriminate | intros ? ? [= <- <-]; lia]. }
    destruct (Ascii.eqb c ","); [|split; [discriminate | intros ? ? [=]]].
    pose proof (skip_ws_length r) as Hws'.
    destruct (IHarray depth (skip_ws r) (v :: acc)) as [Hdeep' Hlen']; [lia|].
    split; [exact Hdeep'|]. intros v' rest' Hscan. apply Hlen' in Hscan. lia.
  - intros depth s acc Hfuel. cbn [json_object].
    destruct s as [|c r]; [split; [discriminate | intros ? ? [=]]|].
    cbn [String.length] in Hfuel.
    destruct (Ascii.eqb c quote); [|split; [discriminate | intros ? ? [=]]].
    destruct (scanstring r) as [[key rest]|] eqn:E;
      [|split; [discriminate | intros ? ? [=]]].
    apply (scanstring_length _ _ _ _ (le_n _)) in E.
    pose proof (skip_ws_length rest) as Hws.
    destruct (skip_ws rest) as [|c1 r1]; [split; [discriminate | intros ? ? [=]]|].
    cbn [String.length] in Hws.
    destruct (Ascii.eqb c1 ":"); [|split; [discriminate | intros ? ? [=]]].
    pose proof (skip_ws_length r1) as Hws1.
    destruct (IHonce depth (skip_ws r1)) as [Hdeep Hlen]; [lia|].
    destruct (scan_once fuel depth (skip_ws r1)) as [v rest1| | | |];
      [| split; [discriminate | intros ? ? [=]] ..| destruct (Hdeep eq_refl)].
    specialize (Hlen v rest1 eq_refl).
    pose proof (skip_ws_length rest1) as Hws2.
    destruct (skip_ws rest1) as [|c2 r2]; [split; [discriminate | intros ? ? [=]]|].
    cbn [String.length] in Hws2.
    destruct (Ascii.eqb c2 "}").
    { split; [discriminate | intros ? ? [= <- <-]; cbn [String.length]; lia]. }
    destruct (Ascii.eqb c2 ","); [|split; [discriminate | intros ? ? [=]]].
    pose proof (skip_ws_length r2) as Hws3.
    destruct (IHobject depth (skip_ws r2) (dict_set key v acc)) as [Hdeep' Hlen']; [lia|].
    split; [exact Hdeep'|]. intros v' rest' Hscan. apply Hlen' in Hscan.
    cbn [String.length]. lia.
Qed.

(** The fuel [loads] starts from is always enough: decoding ends in a
    value, in a decode error, or in one of the two errors of the
    interpreter's limits. *)
Lemma loads_never_out_of_fuel (s : string) :
  scan_once (2 * String.length s + 2) nesting_limit (skip_ws s) ≠ OutOfFuel.
Proof.
  destruct (scan_fuel_enough (2 * String.length s + 2)) as [Honce _].
  pose proof (skip_ws_length s) as Hws.
  destruct (Honce nesting_limit (skip_ws s)) as [Hfuel _]; [lia | exact Hfuel].
Qed.

(** What [loads] can do: return, or raise one of three errors, each an
    [Exception]; only the first is a decode error. *)
Lemma loads_outcomes (s : string) :
  match loads s with
  | Returned _ => True
  | Raised e =>
      isinstance e Exception = true
      ∧ (exn_type e = JSONDecodeError
         ∨ (∃ kind, e = recursion_error kind)
         ∨ (∃ digits, e = int_digits_error digits))
  end.
Proof.
  pose proof (loads_never_out_of_fuel s) as Hfuel. unfold loads.
  destruct (scan_once _ _ (skip_ws s)) as [v rest| |kind|digits|].
  - destruct (skip_ws rest); [exact I|]. split; [reflexivity | left; reflexivity].
  - split; [reflexivity | left; reflexivity].
  - split; [reflexivity | right; left; eexists; reflexivity].
  - split; [reflexivity | right; right; eexists; reflexivity].
  - destruct (Hfuel eq_refl).
Qed.

End Decoder.

(** ** Secret resolution *)

Lemma get_secret_of_payload {remote} (serve : handler remote)
    (secret_name region_name : string) (w : world remote)
    (secret : string) (blob : option string) (c' : remote) :
  serve (get_secret_value secret_name) (cloud w)
  = (Returned (mkSecretValue (Some secret) blob), c') →
  get_secret serve secret_name region_name w =
  match Json.loads secret with
  | Returned (PDict d) =>
      (Returned (default (PStr secret) (dict_get "github_token" d)),
       sent w (get_secret_value secret_name) c')
  | Returned v =>
      (Returned PNone,
       printed (sent w (get_secret_value secret_name) c')
         ("❌ Error retrieving secret '" +:+ secret_name +:+ "': "
          +:+ no_attribute v "get"))
  | Raised e =>
      if isinstance e JSONDecodeError
      then (Returned (PStr secret), sent w (get_secret_value secret_name) c')
      else if isinstance e Exception
           then (Returned PNone,
                 printed (sent w (get_secret_value secret_name) c')
                   ("❌ Error retrieving secret '" +:+ secret_name +:+ "': "
                    +:+ exn_str e))
           else (Raised e, sent w (get_secret_value secret_name) c')
  end.
Proof.
  intros reply. unfold get_secret. unfold_script. rewrite reply. cbn [SecretString].
  destruct (Json.loads secret) as [v|e]; simpl.
  - destruct v; reflexivity.
  - destruct (isinstance e JSONDecodeError); [reflexivity|].
    destruct (isinstance e Exception); reflexivity.
Qed.

Lemma loads_github_token_payload :
  Json.loads (github_token_payload "abc") = Returned (PDict [("github_token", PStr "abc")]).
Proof. vm_compute. reflexivity. Qed.

Lemma loads_raw_string :
  Json.loads "raw-string" = Raised (Exn JSONDecodeError "Expecting value").
Proof. vm_compute. reflexivity. Qed.

Lemma loads_other_key_payload :
  Json.loads other_key_payload = Returned (PDict [("user", PStr "x")]).
Proof. vm_compute. reflexivity. Qed.

(** For a secret string the resolver always returns: the value stored under
    the key, the raw string, or [None]. *)
Lemma get_secret_always_returns {remote} (serve : handler remote)
    (secret_name region_name : string) (w : world remote)
    (secret : string) (blob : option string) (c' : remote) :
  serve (get_secret_value secret_name) (cloud w)
  = (Returned (mkSecretValue (Some secret) blob), c') →
  ∃ v w',
    get_secret serve secret_name region_name w = (Returned v, w')
    ∧ (v = PStr secret ∨ v = PNone
       ∨ ∃ d, Json.loads secret = Returned (PDict d)
              ∧ dict_get "github_token" d = Some v).
Proof.
  intros reply. rewrite (get_secret_of_payload _ _ _ _ _ _ _ reply).
  pose proof (loads_outcomes secret) as Hloads.
  destruct (Json.loads secret) as [v|e].
  - destruct v as [| | | | | | |d];
      try (do 2 eexists; split; [reflexivity | right; left; reflexivity]).
    destruct (dict_get "github_token" d) as [v|] eqn:Hkey; simpl;
      do 2 eexists; (split; [reflexivity|]).
    + right. right. exists d. split; [reflexivity | exact Hkey].
    + left. reflexivity.
  - destruct Hloads as [-> _].
    destruct (isinstance e JSONDecodeError); do 2 eexists;
      (split; [reflexivity|]); [left | right; left]; reflexivity.
Qed.

(** The decoder at its two limits: an integer of 4300 digits is decoded
    and one of 4301 is refused; an object holding 993 nested arrays is
    decoded and one more level, or 1000, is refused. *)
Lemma loads_at_the_limits :
  Json.loads (integer_token_payload 4300)
  = Returned (PDict [("github_token", PInt (Json.decimal (repeated "1" 4300)))])
  ∧ Json.loads (integer_token_payload 4301) = Raised (Json.int_digits_error 4301)
  ∧ (∃ v, Json.loads (nested_token_payload 993) = Returned (PDict [("github_token", v)]))
  ∧ Json.loads (nested_token_payload 994) = Raised (Json.recursion_error Json.JsonArray)
  ∧ Json.loads (nested_token_payload 1000) = Raised (Json.recursion_error Json.JsonArray).
Proof.
  split; [vm_compute; reflexivity|].
  split; [vm_compute; reflexivity|].
  split; [eexists; vm_compute; reflexivity|].
  split; vm_compute; reflexivity.
Qed.

(** C1 (as the code has it): for a retrieved secret string, [get_secret]
    returns ["abc"] for the payload [{"github_token":"abc"}]; returns the
    raw string unchanged when JSON decoding fails with a decode error, as
    for [raw-string]; for a payload that decodes to an object, returns the
    value under [github_token] when the key is present and otherwise the
    raw payload string, not the decoded object; and when decoding fails
    with another error (an integer literal of more than 4300 digits, as a
    token of 4301 digits, or containers nested beyond the recursion limit
    of the interpreter, as a token of 1000 nested arrays), prints the error
    and returns [None]. *)
Theorem get_secret_normalizes {remote} (serve : handler remote)
    (secret_name region_name : string) (w : world remote)
    (secret : string) (blob : option string) (c' : remote) :
  serve (get_secret_value secret_name) (cloud w)
  = (Returned (mkSecretValue (Some secret) blob), c') →
  let run := get_secret serve secret_name region_name w in
  let w' := sent w (get_secret_value secret_name) c' in
  (secret = github_token_payload "abc" → run = (Returned (PStr "abc"), w'))
  ∧ (secret = "raw-string" → run = (Returned (PStr "raw-string"), w'))
  ∧ (∀ e, Json.loads secret = Raised e → isinstance e JSONDecodeError = true →
          run = (Returned (PStr secret), w'))
  ∧ (∀ d v, Json.loads secret = Returned (PDict d) →
            dict_get "github_token" d = Some v → run = (Returned v, w'))
  ∧ (∀ d, Json.loads secret = Returned (PDict d) →
          dict_get "github_token" d = None → run = (Returned (PStr secret), w'))
  ∧ (∀ e, Json.loads secret = Raised e → isinstance e JSONDecodeError = false →
          run = (Returned PNone,
                 printed w' (secret_error_line secret_name (exn_str e))))
  ∧ (secret = integer_token_payload 4301 →
     run = (Returned PNone,
            printed w' (secret_error_line secret_name
              "Exceeds the limit (4300 digits) for integer string conversion: value has 4301 digits; use sys.set_int_max_str_digits() to increase the limit")))
  ∧ (secret = nested_token_payload 1000 →
     run = (Returned PNone,
            printed w' (secret_error_line secret_name
              "maximum recursion depth exceeded while decoding a JSON array from a unicode string"))).
Proof.
  intros reply run w'. subst run w'.
  rewrite (get_secret_of_payload _ _ _ _ _ _ _ reply).
  destruct loads_at_the_limits as (_ & Hlong & _ & _ & Hdeep).
  repeat split.
  - intros ->. rewrite loads_github_token_payload. reflexivity.
  - intros ->. rewrite loads_raw_string. reflexivity.
  - intros e -> ->. reflexivity.
  - intros d v -> Hk. simpl. rewrite Hk. reflexivity.
  - intros d -> Hk. simpl. rewrite Hk. reflexivity.
  - intros e Hloads Hdecode. pose proof (loads_outcomes secret) as Hout.
    rewrite Hloads in *. destruct Hout as [Hexc _]. rewrite Hdecode, Hexc. reflexivity.
  - intros ->. rewrite Hlong. reflexivity.
  - intros ->. rewrite Hdeep. reflexivity.
Qed.

(** In a fresh account whose secret is an object without the key, the
    raw payload comes back. *)
Lemma get_secret_normalizes_witness :
  (get_secret Aws.serve "github_pat_for_cicd" "ap-south-1"
     (account_with_secret other_key_payload)).1
  = Returned (PStr other_key_payload).
Proof.
  pose proof (get_secret_normalizes Aws.serve "github_pat_for_cicd" "ap-south-1"
                (account_with_secret other_key_payload) other_key_payload None
                (cloud (account_with_secret other_key_payload)) eq_refl) as H.
  destruct H as (_ & _ & _ & _ & H & _).
  rewrite (H [("user", PStr "x")] loads_other_key_payload eq_refl).
  reflexivity.
Defined.

(** C1 as stated fails: the payload [{"user":"x"}] decodes to an object
    without [github_token], and [get_secret] returns the payload string,
    which is not the decoded object. *)
Lemma get_secret_object_without_key_not_decoded :
  Json.loads other_key_payload = Returned (PDict [("user", PStr "x")])
  ∧ dict_get "github_token" [("user", PStr "x")] = (None : option pyval)
  ∧ (get_secret Aws.serve "github_pat_for_cicd" "ap-south-1"
       (account_with_secret other_key_payload)).1
    = Returned (PStr other_key_payload)
  ∧ (get_secret Aws.serve "github_pat_for_cicd" "ap-south-1"
       (account_with_secret other_key_payload)).1
    ≠ Returned (PDict [("user", PStr "x")]).
Proof.
  split; [apply loads_other_key_payload|].
  split; [reflexivity|].
  assert (run : (get_secret Aws.serve "github_pat_for_cicd" "ap-south-1"
                   (account_with_secret other_key_payload)).1
                = Returned (PStr other_key_payload)).
  { rewrite (get_secret_of_payload Aws.serve "github_pat_for_cicd" "ap-south-1"
               (account_with_secret other_key_payload) other_key_payload None
               (cloud (account_with_secret other_key_payload)) eq_refl).
    rewrite loads_other_key_payload. reflexivity. }
  split; [exact run|]. rewrite run. discriminate.
Qed.

Lemma loads_non_objects :
  Json.loads "5" = Returned (PInt 5)
  ∧ Json.loads "[1,2]" = Returned (PList [PInt 1; PInt 2])
  ∧ Json.loads (quoted "abc") = Returned (PStr "abc").
Proof. repeat split; vm_compute; reflexivity. Qed.

(** C9: when the secret string is valid JSON but not an object (as [5],
    [[1,2]] or a quoted ["abc"]), the [.get] on the decoded value raises
    an attribute error that names the type of the value, the inner handler
    for decode errors lets it pass, the outer handler prints it, and
    [get_secret] returns [None] rather than the raw string. *)
Theorem get_secret_non_object_returns_None {remote} (serve : handler remote)
    (secret_name region_name : string) (w : world remote)
    (secret : string) (blob : option string) (c' : remote) :
  serve (get_secret_value secret_name) (cloud w)
  = (Returned (mkSecretValue (Some secret) blob), c') →
  let run := get_secret serve secret_name region_name w in
  let logged text :=
    printed (sent w (get_secret_value secret_name) c')
      ("❌ Error retrieving secret '" +:+ secret_name +:+ "': " +:+ text) in
  (∀ v, Json.loads secret = Returned v → (∀ d, v ≠ PDict d) →
        run = (Returned PNone,
               logged ("'" +:+ type_name v +:+ "' object has no attribute 'get'")))
  ∧ (secret = "5" →
     run = (Returned PNone, logged "'int' object has no attribute 'get'"))
  ∧ (secret = "[1,2]" →
     run = (Returned PNone, logged "'list' object has no attribute 'get'"))
  ∧ (secret = quoted "abc" →
     run = (Returned PNone, logged "'str' object has no attribute 'get'"))
  ∧ (secret = "5" ∨ secret = "[1,2]" ∨ secret = quoted "abc" →
     run.1 = Returned PNone ∧ run.1 ≠ Returned (PStr secret)).
Proof.
  intros reply run logged. subst run logged.
  rewrite (get_secret_of_payload _ _ _ _ _ _ _ reply).
  destruct loads_non_objects as (L5 & L12 & Labc).
  split; [|split; [|split; [|split]]].
  - intros v -> Hv. destruct v as [| | | | | | |d]; try reflexivity.
    destruct (Hv d eq_refl).
  - intros ->. rewrite L5. reflexivity.
  - intros ->. rewrite L12. reflexivity.
  - intros ->. rewrite Labc. reflexivity.
  - intros [-> | [-> | ->]].
    + rewrite L5. split; [reflexivity | discriminate].
    + rewrite L12. split; [reflexivity | discriminate].
    + rewrite Labc. split; [reflexivity | discriminate].
Qed.

(** In a fresh account whose secret string is [5], the token is [None] and
    the printed line names the type [int]. *)
Lemma get_secret_non_object_returns_None_witness :
  get_secret Aws.serve "github_pat_for_cicd" "ap-south-1" (account_with_secret "5")
  = (Returned PNone,
     printed (sent (account_with_secret "5") (get_secret_value "github_pat_for_cicd")
                (cloud (account_with_secret "5")))
       "❌ Error retrieving secret 'github_pat_for_cicd': 'int' object has no attribute 'get'").
Proof.
  pose proof (get_secret_non_object_returns_None Aws.serve "github_pat_for_cicd"
                "ap-south-1" (account_with_secret "5") "5" None
                (cloud (account_with_secret "5")) eq_refl) as [H _].
  rewrite (H (PInt 5)); [reflexivity | vm_compute; reflexivity | discriminate].
Defined.

(** ** Stack reconciliation *)

Ltac world_simpl := cbn [cloud files calls stdout fst snd].

(** A request with the given head is none of the listed ones. *)
Ltac absent_from_rest :=
  intros;
  repeat (apply not_elem_of_cons; split; [discriminate|]);
  apply not_elem_of_nil.

Ltac script_step H := world_simpl; rewrite H; cbn beta iota; world_simpl.

(** C3 (as the code has it): with the template file readable, a probe that
    fails with a [ClientError] saying the stack does not exist is followed
    by the create call and no update call; a probe that fails with any
    other [ClientError] is logged and the function returns [None] after
    that single request; a probe failure that is not a [ClientError]
    leaves the function as an exception, again after that single
    request. *)
Theorem probe_failure_paths {remote} (serve : handler remote)
    (stack_name template_file region template_body : string) (w : world remote)
    (e : exn) (c1 : remote) :
  files w !! template_file = Some template_body →
  serve (describe_stacks stack_name) (cloud w) = (Raised e, c1) →
  let run := create_or_update_cf_stack serve stack_name template_file region w in
  (isinstance e ClientError = true →
   str_contains "does not exist" (exn_str e) = true →
   ∃ rest,
     calls run.2
     = calls w ++ [describe_stacks stack_name;
                   create_stack stack_name template_body ["CAPABILITY_IAM"]] ++ rest
     ∧ ∀ body caps, update_stack stack_name body caps ∉ rest)
  ∧ (isinstance e ClientError = true →
     str_contains "does not exist" (exn_str e) = false →
     run = (Returned None,
            printed (sent w (describe_stacks stack_name) c1)
              ("Error describing stack: " +:+ exn_str e)))
  ∧ (isinstance e ClientError = false →
     run = (Raised e, sent w (describe_stacks stack_name) c1)).
Proof.
  intros Hfile Hprobe run. subst run.
  unfold create_or_update_cf_stack. unfold_script.
  rewrite Hfile. script_step Hprobe.
  split; [|split].
  - intros -> ->. world_simpl.
    destruct (serve (create_stack stack_name template_body ["CAPABILITY_IAM"]) c1)
      as [[[]|e1] c2]; world_simpl.
    + destruct (serve (wait_stack_create_complete stack_name) c2) as [[[]|e2] c3];
        world_simpl.
      * destruct (serve (describe_stack_resources stack_name) c3) as [[rs|e3] c4];
          world_simpl.
        -- eexists [_; _]. rewrite <- !app_assoc. split; [reflexivity | absent_from_rest].
        -- destruct (isinstance e3 Exception); world_simpl;
             (eexists [_; _]; rewrite <- !app_assoc; split;
              [reflexivity | absent_from_rest]).
      * destruct (isinstance e2 Exception); world_simpl;
          (eexists [_]; rewrite <- !app_assoc; split; [reflexivity | absent_from_rest]).
    + destruct (isinstance e1 Exception); world_simpl;
        (eexists []; rewrite <- !app_assoc; split; [reflexivity | absent_from_rest]).
  - intros -> ->. reflexivity.
  - intros ->. reflexivity.
Qed.

(** In a fresh account the probe reports that the stack does not exist,
    and the create call follows it. *)
Lemma probe_failure_paths_witness :
  ∃ rest,
    calls (create_or_update_cf_stack Aws.serve "MyCICDProjectStack" "iac_ec2.yml"
             "ap-south-1" (start fresh_account workstation)).2
    = [describe_stacks "MyCICDProjectStack";
       create_stack "MyCICDProjectStack" sample_template ["CAPABILITY_IAM"]] ++ rest.
Proof.
  destruct (probe_failure_paths Aws.serve "MyCICDProjectStack" "iac_ec2.yml" "ap-south-1"
              sample_template (start fresh_account workstation)
              (Aws.client_error "ValidationError" "DescribeStacks"
                 ("Stack with id " +:+ "MyCICDProjectStack" +:+ " does not exist"))
              fresh_account eq_refl eq_refl) as (H & _ & _).
  destruct H as (rest & Hcalls & _); [vm_compute; reflexivity | vm_compute; reflexivity |].
  exists rest. exact Hcalls.
Defined.

(** C3 as stated fails: when the control plane cannot be reached, the probe
    raises an exception that is not a [ClientError]; it is neither caught
    nor logged, and the function raises instead of returning [None]. *)
Lemma probe_transport_failure_not_caught :
  let run := create_or_update_cf_stack unreachable "MyCICDProjectStack" "iac_ec2.yml"
               "ap-south-1" (start () workstation) in
  isinstance (Exn BotoCoreError "Could not connect to the endpoint URL") ClientError = false
  ∧ run.1 = Raised (Exn BotoCoreError "Could not connect to the endpoint URL")
  ∧ run.1 ≠ Returned None
  ∧ stdout run.2 = []
  ∧ calls run.2 = [describe_stacks "MyCICDProjectStack"].
Proof.
  assert (run : (create_or_update_cf_stack unreachable "MyCICDProjectStack" "iac_ec2.yml"
                   "ap-south-1" (start () workstation))
                = (Raised (Exn BotoCoreError "Could not connect to the endpoint URL"),
                   World () workstation [describe_stacks "MyCICDProjectStack"] []))
    by (vm_compute; reflexivity).
  cbv zeta. rewrite run. repeat split; try reflexivity. discriminate.
Qed.

(** *** Text of the provider's errors *)

Lemma prefix_app (a b : string) : String.prefix a (a +:+ b) = true.
Proof.
  induction a as [|c a IH]; simpl.
  - destruct b; reflexivity.
  - destruct (ascii_dec c c) as [_|Hc]; [exact IH | destruct (Hc eq_refl)].
Qed.

Lemma str_contains_app_r (needle a b : string) :
  str_contains needle b = true → str_contains needle (a +:+ b) = true.
Proof.
  intros Hb. induction a as [|c a IH].
  - exact Hb.
  - change (String c a +:+ b) with (String c (a +:+ b)).
    unfold str_contains; fold str_contains. rewrite IH. apply orb_true_r.
Qed.

Lemma str_contains_app_l (needle b : string) :
  str_contains needle (needle +:+ b) = true.
Proof.
  destruct needle as [|c n]; [destruct b; reflexivity|].
  change (String c n +:+ b) with (String c (n +:+ b)).
  unfold str_contains; fold str_contains.
  change (String c (n +:+ b)) with (String c n +:+ b).
  rewrite prefix_app. reflexivity.
Qed.

Ltac text_contains :=
  unfold Aws.client_error, Aws.error_text; cbn [exn_str];
  repeat first [ solve [vm_compute; reflexivity]
               | apply str_contains_app_l
               | apply str_contains_app_r ].

Lemma missing_stack_text (n : string) :
  str_contains "does not exist"
    (exn_str (Aws.client_error "ValidationError" "DescribeStacks"
                ("Stack with id " +:+ n +:+ " does not exist"))) = true.
Proof. text_contains. Qed.

Lemma no_updates_text :
  str_contains "No updates are to be performed"
    (exn_str (Aws.client_error "ValidationError" "UpdateStack"
                "No updates are to be performed.")) = true.
Proof. text_contains. Qed.

Lemma noop_update_run {remote} (serve : handler remote)
    (stack_name template_file region template_body : string)
    (w : world remote) (e : exn) (c1 c2 c3 : remote)
    (reply : outcome (list StackResource)) :
  files w !! template_file = Some template_body →
  serve (describe_stacks stack_name) (cloud w) = (Returned (), c1) →
  serve (update_stack stack_name template_body ["CAPABILITY_IAM"]) c1 = (Raised e, c2) →
  isinstance e ClientError = true →
  str_contains "No updates are to be performed" (exn_str e) = true →
  serve (describe_stack_resources stack_name) c2 = (reply, c3) →
  let w' :=
    World c3 (files w)
      (calls w ++ [describe_stacks stack_name;
                   update_stack stack_name template_body ["CAPABILITY_IAM"];
                   describe_stack_resources stack_name])
      (stdout w ++ ["🔄 Updating CloudFormation stack '" +:+ stack_name +:+ "'...";
                    "ℹ️ Stack '" +:+ stack_name
                    +:+ "' is already up-to-date, no changes to perform."]) in
  create_or_update_cf_stack serve stack_name template_file region w
  = match reply with
    | Returned resources => (Returned (Some (role_arns_of resources)), w')
    | Raised e' =>
        if isinstance e' Exception
        then (Returned None,
              printed w' ("❌ Error fetching stack resources: " +:+ exn_str e'))
        else (Raised e', w')
    end.
Proof.
  intros Hfile Hprobe Hupdate Hclass Htext Hread w'. subst w'.
  unfold create_or_update_cf_stack. unfold_script.
  rewrite Hfile. script_step Hprobe. script_step Hupdate.
  rewrite Hclass, Htext. script_step Hread.
  unfold printed. world_simpl. rewrite <- !app_assoc.
  destruct reply as [rs|e']; [reflexivity|].
  destruct (isinstance e' Exception); world_simpl; rewrite <- ?app_assoc; reflexivity.
Qed.

Lemma noop_update_on_reference (stack_name template_file region template_body : string)
    (s : Aws.state) (fs : gmap string string) :
  fs !! template_file = Some template_body →
  Aws.stacks s !! stack_name = Some template_body →
  create_or_update_cf_stack Aws.serve stack_name template_file region (start s fs)
  = (Returned (Some (role_arns_of (Aws.provision s template_body))),
     World s fs
       [describe_stacks stack_name;
        update_stack stack_name template_body ["CAPABILITY_IAM"];
        describe_stack_resources stack_name]
       ["🔄 Updating CloudFormation stack '" +:+ stack_name +:+ "'...";
        "ℹ️ Stack '" +:+ stack_name
        +:+ "' is already up-to-date, no changes to perform."]).
Proof.
  intros Hfile Hstack.
  rewrite (noop_update_run Aws.serve stack_name template_file region template_body
             (start s fs)
             (Aws.client_error "ValidationError" "UpdateStack"
                "No updates are to be performed.") s s s
             (Returned (Aws.provision s template_body))).
  - reflexivity.
  - exact Hfile.
  - simpl. rewrite Hstack. reflexivity.
  - simpl. rewrite Hstack, String.eqb_refl. reflexivity.
  - reflexivity.
  - exact no_updates_text.
  - simpl. rewrite Hstack. reflexivity.
Qed.

(** C2: when the probe succeeds and the update call fails with a
    [ClientError] saying that no updates are to be performed, the function
    logs that the stack is up to date and goes on to read the stack
    resources exactly as after a successful update: it returns the role
    map whenever that read succeeds, and [None] only if the read itself
    fails.  Against the reference control plane, reconciling a stack that
    already holds the same template ends this way, with the remote state
    unchanged. *)
Theorem noop_update_is_unchanged (stack_name template_file region template_body : string) :
  (∀ {remote} (serve : handler remote) (w : world remote) (e : exn) (c1 c2 c3 : remote)
     (reply : outcome (list StackResource)),
     files w !! template_file = Some template_body →
     serve (describe_stacks stack_name) (cloud w) = (Returned (), c1) →
     serve (update_stack stack_name template_body ["CAPABILITY_IAM"]) c1 = (Raised e, c2) →
     isinstance e ClientError = true →
     str_contains "No updates are to be performed" (exn_str e) = true →
     serve (describe_stack_resources stack_name) c2 = (reply, c3) →
     let w' :=
       World c3 (files w)
         (calls w ++ [describe_stacks stack_name;
                      update_stack stack_name template_body ["CAPABILITY_IAM"];
                      describe_stack_resources stack_name])
         (stdout w ++ ["🔄 Updating CloudFormation stack '" +:+ stack_name +:+ "'...";
                       "ℹ️ Stack '" +:+ stack_name
                       +:+ "' is already up-to-date, no changes to perform."]) in
     create_or_update_cf_stack serve stack_name template_file region w
     = match reply with
       | Returned resources => (Returned (Some (role_arns_of resources)), w')
       | Raised e' =>
           if isinstance e' Exception
           then (Returned None,
                 printed w' ("❌ Error fetching stack resources: " +:+ exn_str e'))
           else (Raised e', w')
       end)
  ∧ (∀ (s : Aws.state) (fs : gmap string string),
       fs !! template_file = Some template_body →
       Aws.stacks s !! stack_name = Some template_body →
       create_or_update_cf_stack Aws.serve stack_name template_file region (start s fs)
       = (Returned (Some (role_arns_of (Aws.provision s template_body))),
          World s fs
            [describe_stacks stack_name;
             update_stack stack_name template_body ["CAPABILITY_IAM"];
             describe_stack_resources stack_name]
            ["🔄 Updating CloudFormation stack '" +:+ stack_name +:+ "'...";
             "ℹ️ Stack '" +:+ stack_name
             +:+ "' is already up-to-date, no changes to perform."])).
Proof.
  split.
  - intros remote serve w e c1 c2 c3 reply. apply noop_update_run.
  - intros s fs. apply noop_update_on_reference.
Qed.

(** A stack that already holds the template of the file is reported as up
    to date, and its role comes back. *)
Lemma noop_update_is_unchanged_witness :
  (create_or_update_cf_stack Aws.serve "MyCICDProjectStack" "iac_ec2.yml" "ap-south-1"
     (start (Aws.with_stacks fresh_account (<["MyCICDProjectStack" := sample_template]> ∅))
        workstation)).1
  = Returned (Some (role_arns_of [sample_role; sample_bucket])).
Proof.
  destruct (noop_update_is_unchanged "MyCICDProjectStack" "iac_ec2.yml" "ap-south-1"
              sample_template) as [_ H].
  rewrite (H (Aws.with_stacks fresh_account (<["MyCICDProjectStack" := sample_template]> ∅))
             workstation);
    [reflexivity | vm_compute; reflexivity | vm_compute; reflexivity].
Defined.

(** ** Role map extraction *)

Lemma role_arns_of_snoc (resources : list StackResource) (res : StackResource) :
  role_arns_of (resources ++ [res])
  = if String.eqb (ResourceType res) "AWS::IAM::Role"
    then <[LogicalResourceId res := PhysicalResourceId res]> (role_arns_of resources)
    else role_arns_of resources.
Proof. unfold role_arns_of. rewrite foldl_snoc. reflexivity. Qed.

Lemma role_arns_of_sound (resources : list StackResource) (k v : string) :
  role_arns_of resources !! k = Some v →
  ∃ res, res ∈ resources ∧ ResourceType res = "AWS::IAM::Role"
         ∧ LogicalResourceId res = k ∧ PhysicalResourceId res = v.
Proof.
  induction resources as [|res resources IH] using rev_ind.
  - unfold role_arns_of. simpl. rewrite lookup_empty. discriminate.
  - rewrite role_arns_of_snoc.
    destruct (String.eqb_spec (ResourceType res) "AWS::IAM::Role") as [Hrole|_].
    + destruct (decide (LogicalResourceId res = k)) as [<-|Hne].
      * rewrite lookup_insert_eq. intros [= <-].
        exists res. rewrite elem_of_app, list_elem_of_singleton. auto.
      * rewrite lookup_insert_ne by exact Hne. intros Hk.
        destruct (IH Hk) as (r & Hin & Hr). exists r.
        rewrite elem_of_app. auto.
    + intros Hk. destruct (IH Hk) as (r & Hin & Hr). exists r.
      rewrite elem_of_app. auto.
Qed.

Lemma role_arns_of_keys (resources : list StackResource) (res : StackResource) :
  res ∈ resources → ResourceType res = "AWS::IAM::Role" →
  is_Some (role_arns_of resources !! LogicalResourceId res).
Proof.
  induction resources as [|r resources IH] using rev_ind.
  - intros Hin. apply elem_of_nil in Hin. destruct Hin.
  - rewrite elem_of_app, list_elem_of_singleton, role_arns_of_snoc.
    intros [Hin | ->] Hrole.
    + destruct (String.eqb (ResourceType r) "AWS::IAM::Role"); [|auto].
      destruct (decide (LogicalResourceId r = LogicalResourceId res)) as [->|Hne].
      * rewrite lookup_insert_eq. eauto.
      * rewrite lookup_insert_ne by exact Hne. auto.
    + rewrite Hrole. simpl. rewrite lookup_insert_eq. eauto.
Qed.

Lemma role_arns_of_complete (resources : list StackResource) (res : StackResource) :
  NoDup (LogicalResourceId <$> resources) →
  res ∈ resources → ResourceType res = "AWS::IAM::Role" →
  role_arns_of resources !! LogicalResourceId res = Some (PhysicalResourceId res).
Proof.
  induction resources as [|r resources IH] using rev_ind.
  - intros _ Hin. apply elem_of_nil in Hin. destruct Hin.
  - rewrite fmap_app, NoDup_app. intros (Hnd & Hfresh & _).
    rewrite elem_of_app, list_elem_of_singleton, role_arns_of_snoc.
    intros [Hin | ->] Hrole.
    + assert (LogicalResourceId r ≠ LogicalResourceId res) as Hne.
      { intros Heq. apply (Hfresh (LogicalResourceId res)).
        - apply list_elem_of_fmap. eauto.
        - rewrite <- Heq. simpl. apply list_elem_of_singleton. reflexivity. }
      destruct (String.eqb (ResourceType r) "AWS::IAM::Role"); [|auto].
      rewrite lookup_insert_ne by exact Hne. auto.
    + rewrite Hrole. simpl. apply lookup_insert_eq.
Qed.

(** Whatever the control plane answers, a role map returned by
    [create_or_update_cf_stack] is the one extracted from the reply to a
    [describe_stack_resources] request for that stack. *)
Lemma returned_role_map_is_extracted {remote} (serve : handler remote)
    (stack_name template_file region : string) (w : world remote)
    (role_arns : gmap string string) :
  (create_or_update_cf_stack serve stack_name template_file region w).1
  = Returned (Some role_arns) →
  ∃ resources c c',
    serve (describe_stack_resources stack_name) c = (Returned resources, c')
    ∧ role_arns = role_arns_of resources.
Proof.
  unfold create_or_update_cf_stack. unfold_script.
  destruct (files w !! template_file) as [body|]; [|discriminate].
  repeat lazymatch goal with
    | |- context [serve ?r ?c] =>
        let E := fresh "E" in
        destruct (serve r c) as [[?|?] ?] eqn:E; world_simpl
    | |- context [if isinstance ?e ?k then _ else _] =>
        destruct (isinstance e k); world_simpl
    | |- context [if str_contains ?a ?b then _ else _] =>
        destruct (str_contains a b); world_simpl
    end;
    intros [= <-]; eauto.
Qed.

(** C4: the role map built from a list of stack resources has an entry
    only for resources of type [AWS::IAM::Role], has a key for the logical
    id of every such resource, and, logical ids being unique within a
    stack, maps each of them to its physical id.  For one role and one
    other resource, in either order, the map is the single entry of the
    role. *)
Theorem role_map_extraction (resources : list StackResource) :
  (∀ k v, role_arns_of resources !! k = Some v →
          ∃ res, res ∈ resources ∧ ResourceType res = "AWS::IAM::Role"
                 ∧ LogicalResourceId res = k ∧ PhysicalResourceId res = v)
  ∧ (∀ res, res ∈ resources → ResourceType res = "AWS::IAM::Role" →
            is_Some (role_arns_of resources !! LogicalResourceId res))
  ∧ (NoDup (LogicalResourceId <$> resources) →
     ∀ res, res ∈ resources → ResourceType res = "AWS::IAM::Role" →
            role_arns_of resources !! LogicalResourceId res = Some (PhysicalResourceId res))
  ∧ (∀ role other,
       resources = [role; other] ∨ resources = [other; role] →
       ResourceType role = "AWS::IAM::Role" → ResourceType other ≠ "AWS::IAM::Role" →
       role_arns_of resources = {[LogicalResourceId role := PhysicalResourceId role]}
       ∧ size (role_arns_of resources) = 1).
Proof.
  split; [apply role_arns_of_sound|].
  split; [apply role_arns_of_keys|].
  split; [intros Hnd res; apply role_arns_of_complete; exact Hnd|].
  intros role other Hres Hrole Hother.
  assert (role_arns_of resources = {[LogicalResourceId role := PhysicalResourceId role]})
    as ->.
  { apply String.eqb_neq in Hother.
    destruct Hres as [-> | ->]; unfold role_arns_of; simpl; rewrite Hrole, Hother;
      reflexivity. }
  split; [reflexivity | apply map_size_singleton].
Qed.

(** The sample stack, one role and one bucket: one entry, under the logical
    id of the role. *)
Lemma role_map_extraction_witness :
  role_arns_of [sample_role; sample_bucket]
  = {["CodePipelineRole" := "MyCICDProjectStack-CodePipelineRole-BfBJkSvHRfJN"]}
  ∧ role_arns_of [sample_role; sample_bucket] !! "CodePipelineRole"
    = Some "MyCICDProjectStack-CodePipelineRole-BfBJkSvHRfJN".
Proof.
  destruct (role_map_extraction [sample_role; sample_bucket]) as (_ & _ & Hall & Htwo).
  split.
  - apply (Htwo sample_role sample_bucket); [left; reflexivity | reflexivity | discriminate].
  - apply (λ nodup, Hall nodup sample_role); [| apply list_elem_of_here | reflexivity].
    apply (bool_decide_unpack _). vm_compute. exact I.
Defined.

(** ** Pipeline submission *)

Lemma submit_pipeline_run {remote} (serve : handler remote)
    (pipeline_name : string) (definition : pipeline) (w : world remote) :
  submit_pipeline serve pipeline_name definition w
  = match serve (create_pipeline definition) (cloud w) with
    | (Returned _, c') =>
        (Normal (),
         printed (sent w (create_pipeline definition) c')
           ("✅ CodePipeline '" +:+ pipeline_name +:+ "' created."))
    | (Raised e, c') =>
        if isinstance e Exception
        then (Normal (),
              printed (sent w (create_pipeline definition) c')
                ("❌ Error creating CodePipeline: " +:+ exn_str e))
        else (Raise e, sent w (create_pipeline definition) c')
    end.
Proof.
  unfold submit_pipeline. unfold_script.
  destruct (serve (create_pipeline definition) (cloud w)) as [[[]|e] c']; world_simpl.
  - reflexivity.
  - destruct (isinstance e Exception); reflexivity.
Qed.




(** ** Order of the API calls *)

Lemma precedes_prefix (a b : string) (names full : list string) :
  names `prefix_of` full → precedes a b full → precedes a b names.
Proof.
  intros Hpre Hfull i j Hi Hj.
  apply (Hfull i j); eapply prefix_lookup_Some; eassumption.
Qed.

Lemma api_gateway_methods_order :
  precedes "create_integration" "create_route" api_gateway_methods
  ∧ precedes "create_route" "create_deployment" api_gateway_methods
  ∧ precedes "create_route" "create_stage" api_gateway_methods.
Proof.
  unfold precedes, api_gateway_methods.
  repeat split; intros i j Hi Hj;
    repeat (destruct i as [|i]; simpl in Hi; try discriminate Hi);
    repeat (destruct j as [|j]; simpl in Hj; try discriminate Hj);
    lia.
Qed.

(** C8 (as the code has it): the calls of the API set-up are made in one
    fixed order, stopping at the first one that raises: API, caller
    identity, integration, route, deployment, stage, caller identity,
    invoke permission.  So the route is created after the integration and
    before the deployment and the stage; a run that completes has made
    all of them. *)
Theorem api_gateway_call_order {remote} (serve : handler remote) (w : world remote) :
  ∃ made,
    calls (create_api_gateway serve w).2 = calls w ++ made
    ∧ method <$> made `prefix_of` api_gateway_methods
    ∧ (∀ u, (create_api_gateway serve w).1 = Normal u →
            method <$> made = api_gateway_methods)
    ∧ precedes "create_integration" "create_route" (method <$> made)
    ∧ precedes "create_route" "create_deployment" (method <$> made)
    ∧ precedes "create_route" "create_stage" (method <$> made).
Proof.
  assert (shape : ∃ made,
             calls (create_api_gateway serve w).2 = calls w ++ made
             ∧ method <$> made `prefix_of` api_gateway_methods
             ∧ (∀ u, (create_api_gateway serve w).1 = Normal u →
                     method <$> made = api_gateway_methods)).
  { unfold create_api_gateway. unfold_script.
    repeat lazymatch goal with
      | |- context [serve ?r ?c] =>
          let reply := fresh "reply" in
          let c' := fresh "c" in
          destruct (serve r c) as [[reply|?] c']; world_simpl
      end;
      rewrite <- ?app_assoc;
      (eexists; split; [reflexivity|]; split;
       [ simpl; unfold api_gateway_methods;
         repeat (apply prefix_cons); apply prefix_nil
       | intros u Hu; first [discriminate Hu | reflexivity] ]). }
  destruct shape as (made & Hcalls & Hprefix & Hdone).
  destruct api_gateway_methods_order as (O1 & O2 & O3).
  exists made. repeat split; eauto using precedes_prefix.
Qed.

(** With the function in place every call succeeds, and all eight are
    made in that order. *)
Lemma api_gateway_call_order_witness :
  method <$> calls (create_api_gateway Aws.serve (start account_with_function ∅)).2
  = api_gateway_methods.
Proof.
  destruct (api_gateway_call_order Aws.serve (start account_with_function ∅))
    as (made & Hcalls & _ & Hdone & _).
  rewrite Hcalls. apply (Hdone ()). vm_compute. reflexivity.
Defined.

(** C8 as stated fails: in a complete run of the script against a fresh
    account the route is created before the deployment and the stage, not
    after them. *)
Lemma route_created_before_deployment_and_stage :
  let names :=
    method <$> calls (deploy_contact_form Aws.serve sample_zip
                        (start fresh_account workstation)).2 in
  names = ["create_role"; "attach_role_policy"; "put_role_policy"; "create_function";
           "create_api"; "get_caller_identity"; "create_integration"; "create_route";
           "create_deployment"; "create_stage"; "get_caller_identity"; "add_permission"]
  ∧ ¬ precedes "create_deployment" "create_route" names
  ∧ ¬ precedes "create_stage" "create_route" names.
Proof.
  assert (Hnames :
    method <$> calls (deploy_contact_form Aws.serve sample_zip
                        (start fresh_account workstation)).2
    = ["create_role"; "attach_role_policy"; "put_role_policy"; "create_function";
       "create_api"; "get_caller_identity"; "create_integration"; "create_route";
       "create_deployment"; "create_stage"; "get_caller_identity"; "add_permission"])
    by (vm_compute; reflexivity).
  cbv zeta. rewrite Hnames.
  split; [reflexivity|].
  split; intros Hclaim.
  - specialize (Hclaim 8 7 eq_refl eq_refl). lia.
  - specialize (Hclaim 9 7 eq_refl eq_refl). lia.
Qed.

(** ** Function deployment *)

Lemma lambda_update_run {remote} (serve : handler remote)
    (role_arn : string) (env : gmap string string) (w : world remote)
    (code : string) (e : exn) (c1 c2 c3 : remote) :
  files w !! zip_filename = Some code →
  serve (create_function LAMBDA_NAME "python3.11" role_arn
           "lambda_function.lambda_handler" code 10 env) (cloud w) = (Raised e, c1) →
  isinstance e ResourceConflictException = true →
  serve (update_function_code LAMBDA_NAME code) c1 = (Returned (), c2) →
  serve (update_function_configuration LAMBDA_NAME env) c2 = (Returned (), c3) →
  create_or_update_lambda serve role_arn env w
  = (Normal (),
     World c3 (files w)
       (calls w ++ [create_function LAMBDA_NAME "python3.11" role_arn
                      "lambda_function.lambda_handler" code 10 env;
                    update_function_code LAMBDA_NAME code;
                    update_function_configuration LAMBDA_NAME env])
       (stdout w ++ ["Lambda function '" +:+ LAMBDA_NAME +:+ "' updated."])).
Proof.
  intros Hfile Hcreate Hclass Hcode Hconf.
  unfold create_or_update_lambda. unfold_script.
  rewrite Hfile. script_step Hcreate. rewrite Hclass. rewrite Hfile.
  script_step Hcode. script_step Hconf.
  rewrite <- !app_assoc. reflexivity.
Qed.

Lemma lambda_first_deploy (s : Aws.state) (fs : gmap string string)
    (role_arn code : string) (env : gmap string string) :
  Aws.functions s !! LAMBDA_NAME = None →
  fs !! zip_filename = Some code →
  create_or_update_lambda Aws.serve role_arn env (start s fs)
  = (Normal (),
     World (Aws.with_functions s
              (<[LAMBDA_NAME := Aws.Function "python3.11" role_arn
                                  "lambda_function.lambda_handler" code 10 env []]>
                 (Aws.functions s)))
       fs
       [create_function LAMBDA_NAME "python3.11" role_arn
          "lambda_function.lambda_handler" code 10 env]
       ["Lambda function '" +:+ LAMBDA_NAME +:+ "' created."]).
Proof.
  intros Hnew Hfile.
  unfold create_or_update_lambda. unfold_script. unfold start. world_simpl.
  rewrite Hfile. cbn [Aws.serve]. world_simpl. rewrite Hnew. reflexivity.
Qed.

Lemma lambda_redeploy (s : Aws.state) (fs : gmap string string)
    (role_arn code : string) (env : gmap string string) (f : Aws.function) :
  Aws.functions s !! LAMBDA_NAME = Some f →
  fs !! zip_filename = Some code →
  create_or_update_lambda Aws.serve role_arn env (start s fs)
  = (Normal (),
     World (Aws.with_functions s
              (<[LAMBDA_NAME := Aws.Function (Aws.fn_runtime f) (Aws.fn_role f)
                                  (Aws.fn_handler f) code (Aws.fn_timeout f) env
                                  (Aws.fn_statements f)]>
                 (Aws.functions s)))
       fs
       [create_function LAMBDA_NAME "python3.11" role_arn
          "lambda_function.lambda_handler" code 10 env;
        update_function_code LAMBDA_NAME code;
        update_function_configuration LAMBDA_NAME env]
       ["Lambda function '" +:+ LAMBDA_NAME +:+ "' updated."]).
Proof.
  intros Hold Hfile.
  rewrite (lambda_update_run Aws.serve role_arn env (start s fs) code
             (Exn ResourceConflictException
                (Aws.error_text "ResourceConflictException" "CreateFunction"
                   ("Function already exist: " +:+ LAMBDA_NAME)))
             s
             (Aws.with_functions s
                (<[LAMBDA_NAME := Aws.Function (Aws.fn_runtime f) (Aws.fn_role f)
                                    (Aws.fn_handler f) code (Aws.fn_timeout f)
                                    (Aws.fn_environment f) (Aws.fn_statements f)]>
                   (Aws.functions s)))
             (Aws.with_functions s
                (<[LAMBDA_NAME := Aws.Function (Aws.fn_runtime f) (Aws.fn_role f)
                                    (Aws.fn_handler f) code (Aws.fn_timeout f) env
                                    (Aws.fn_statements f)]>
                   (Aws.functions s)))).
  - reflexivity.
  - exact Hfile.
  - simpl. rewrite Hold. reflexivity.
  - reflexivity.
  - simpl. rewrite Hold. reflexivity.
  - simpl. rewrite lookup_insert_eq. simpl. unfold Aws.with_functions. simpl.
    rewrite insert_insert_eq. reflexivity.
Qed.

(** C5: when [create_function] fails with a resource conflict, the script
    re-reads the archive and makes two separate calls, [update_function_code]
    with the archive and [update_function_configuration] with the whole of
    [env_vars], and prints that the function was updated.  Against the
    reference control plane, deploying a second time with other code and
    other variables leaves the function with the second code and exactly
    the second variables: nothing of the first variables is kept. *)
Theorem lambda_conflict_updates_in_place :
  (∀ {remote} (serve : handler remote) (role_arn : string) (env : gmap string string)
     (w : world remote) (code : string) (e : exn) (c1 c2 c3 : remote),
     files w !! zip_filename = Some code →
     serve (create_function LAMBDA_NAME "python3.11" role_arn
              "lambda_function.lambda_handler" code 10 env) (cloud w) = (Raised e, c1) →
     isinstance e ResourceConflictException = true →
     serve (update_function_code LAMBDA_NAME code) c1 = (Returned (), c2) →
     serve (update_function_configuration LAMBDA_NAME env) c2 = (Returned (), c3) →
     create_or_update_lambda serve role_arn env w
     = (Normal (),
        World c3 (files w)
          (calls w ++ [create_function LAMBDA_NAME "python3.11" role_arn
                         "lambda_function.lambda_handler" code 10 env;
                       update_function_code LAMBDA_NAME code;
                       update_function_configuration LAMBDA_NAME env])
          (stdout w ++ ["Lambda function '" +:+ LAMBDA_NAME +:+ "' updated."])))
  ∧ (∀ (s : Aws.state) (fs1 fs2 : gmap string string) (role1 role2 code1 code2 : string)
       (env1 env2 : gmap string string),
       Aws.functions s !! LAMBDA_NAME = None →
       fs1 !! zip_filename = Some code1 →
       fs2 !! zip_filename = Some code2 →
       let first := create_or_update_lambda Aws.serve role1 env1 (start s fs1) in
       let second :=
         create_or_update_lambda Aws.serve role2 env2 (start (cloud first.2) fs2) in
       first.1 = Normal ()
       ∧ second.1 = Normal ()
       ∧ calls second.2
         = [create_function LAMBDA_NAME "python3.11" role2
              "lambda_function.lambda_handler" code2 10 env2;
            update_function_code LAMBDA_NAME code2;
            update_function_configuration LAMBDA_NAME env2]
       ∧ Aws.functions (cloud second.2) !! LAMBDA_NAME
         = Some (Aws.Function "python3.11" role1 "lambda_function.lambda_handler"
                   code2 10 env2 [])).
Proof.
  split.
  - intros remote serve role_arn env w code e c1 c2 c3. apply lambda_update_run.
  - intros s fs1 fs2 role1 role2 code1 code2 env1 env2 Hnew Hfs1 Hfs2 first second.
    subst second first.
    rewrite (lambda_first_deploy s fs1 role1 code1 env1 Hnew Hfs1). world_simpl.
    erewrite lambda_redeploy;
      [| unfold Aws.with_functions; simpl; apply lookup_insert_eq | exact Hfs2].
    world_simpl. repeat split.
    unfold Aws.with_functions. simpl. apply lookup_insert_eq.
Qed.

(** A first deployment with a variable [DEBUG], a second one with the
    variables of the script: [DEBUG] is gone afterwards. *)
Lemma lambda_conflict_updates_in_place_witness :
  let first :=
    create_or_update_lambda Aws.serve "arn:role" (<["DEBUG" := "1"]> ∅)
      (start fresh_account (<[zip_filename := "PK:old"]> ∅)) in
  let second :=
    create_or_update_lambda Aws.serve "arn:role" env_vars
      (start (cloud first.2) (<[zip_filename := "PK:new"]> ∅)) in
  ∃ f, Aws.functions (cloud second.2) !! LAMBDA_NAME = Some f
       ∧ Aws.fn_code f = "PK:new"
       ∧ Aws.fn_environment f = env_vars
       ∧ Aws.fn_environment f !! "DEBUG" = None.
Proof.
  destruct lambda_conflict_updates_in_place as [_ H].
  destruct (H fresh_account (<[zip_filename := "PK:old"]> ∅) (<[zip_filename := "PK:new"]> ∅)
              "arn:role" "arn:role" "PK:old" "PK:new" (<["DEBUG" := "1"]> ∅) env_vars)
    as (_ & _ & _ & Hf);
    [reflexivity | vm_compute; reflexivity | vm_compute; reflexivity |].
  cbv zeta. eexists. split; [exact Hf|].
  repeat split.
Defined.

(** ** Running twice *)

Lemma isinstance_client_error (code operation message : string) :
  isinstance (Aws.client_error code operation message) ClientError = true.
Proof. reflexivity. Qed.

Lemma stack_first_run (s : Aws.state) (fs : gmap string string)
    (stack_name template_file region template_body : string) :
  fs !! template_file = Some template_body →
  ∃ s' made lines,
    create_or_update_cf_stack Aws.serve stack_name template_file region (start s fs)
    = (Returned (Some (role_arns_of (Aws.provision s template_body))),
       World s' fs made lines)
    ∧ Aws.stacks s' !! stack_name = Some template_body
    ∧ Aws.provision s' = Aws.provision s.
Proof.
  intros Hfile.
  destruct (Aws.stacks s !! stack_name) as [current|] eqn:Hstack.
  - destruct (String.eqb_spec current template_body) as [->|Hne].
    + rewrite (noop_update_on_reference _ _ _ _ s fs Hfile Hstack).
      eauto 10.
    + apply String.eqb_neq in Hne.
      unfold create_or_update_cf_stack. unfold_script. unfold start. world_simpl.
      rewrite Hfile. cbn [Aws.serve]. world_simpl. rewrite Hstack. world_simpl.
      rewrite Hstack, Hne. world_simpl.
      unfold Aws.with_stacks at 1. cbn [Aws.stacks]. rewrite lookup_insert_eq. world_simpl.
      unfold Aws.with_stacks at 1. cbn [Aws.stacks]. rewrite lookup_insert_eq. world_simpl.
      do 3 eexists. split; [reflexivity|]. split; [apply lookup_insert_eq | reflexivity].
  - unfold create_or_update_cf_stack. unfold_script. unfold start. world_simpl.
    rewrite Hfile. cbn [Aws.serve]. world_simpl. rewrite Hstack. world_simpl.
    rewrite isinstance_client_error. cbv iota.
    rewrite missing_stack_text. world_simpl. rewrite Hstack. world_simpl.
    unfold Aws.with_stacks at 1. cbn [Aws.stacks]. rewrite lookup_insert_eq. world_simpl.
    unfold Aws.with_stacks at 1. cbn [Aws.stacks]. rewrite lookup_insert_eq. world_simpl.
    do 3 eexists. split; [reflexivity|]. split; [apply lookup_insert_eq | reflexivity].
Qed.

Lemma isinstance_no_such_entity (text : string) :
  isinstance (Exn NoSuchEntityException text) NoSuchEntityException = true.
Proof. reflexivity. Qed.

Lemma isinstance_already_exists (text : string) :
  isinstance (Exn EntityAlreadyExistsException text) EntityAlreadyExistsException = true.
Proof. reflexivity. Qed.

Lemma ensure_codebuild_role_existing (s : Aws.state) (fs : gmap string string)
    (name : string) (ro : Aws.role) :
  Aws.roles s !! name = Some ro →
  ensure_codebuild_role Aws.serve name (start s fs)
  = (Returned (Some (Aws.role_arn ro)),
     World s fs [get_role name] ["✅ IAM Role '" +:+ name +:+ "' already exists."]).
Proof.
  intros Hrole. unfold ensure_codebuild_role. unfold_script. unfold start. world_simpl.
  cbn [Aws.serve]. rewrite Hrole. reflexivity.
Qed.

Lemma ensure_codebuild_role_first (s : Aws.state) (fs : gmap string string) (name : string) :
  ∃ s' arn made lines,
    ensure_codebuild_role Aws.serve name (start s fs)
    = (Returned (Some arn), World s' fs made lines)
    ∧ ∃ ro, Aws.roles s' !! name = Some ro ∧ Aws.role_arn ro = arn.
Proof.
  destruct (Aws.roles s !! name) as [ro|] eqn:Hrole.
  - rewrite (ensure_codebuild_role_existing s fs name ro Hrole). eauto 10.
  - unfold ensure_codebuild_role. unfold_script. unfold start. world_simpl.
    cbn [Aws.serve]. rewrite Hrole. world_simpl.
    rewrite isinstance_no_such_entity. world_simpl. rewrite Hrole. world_simpl.
    unfold Aws.with_roles at 1. cbn [Aws.roles]. rewrite lookup_insert_eq. world_simpl.
    unfold Aws.with_roles at 1. cbn [Aws.roles]. rewrite lookup_insert_eq. world_simpl.
    do 4 eexists. split; [reflexivity|].
    unfold Aws.with_roles. cbn [Aws.roles]. rewrite lookup_insert_eq.
    eexists. split; reflexivity.
Qed.

Lemma create_or_get_role_existing (s : Aws.state) (fs : gmap string string) (ro : Aws.role) :
  Aws.roles s !! role_name = Some ro →
  create_or_get_role Aws.serve (start s fs)
  = (Normal (mkRoleResponse (Aws.role_arn ro)),
     World s fs
       [create_role role_name assume_role_policy "Lambda role for SES contact form";
        get_role role_name]
       ["IAM role '" +:+ role_name +:+ "' already exists."]).
Proof.
  intros Hrole. unfold create_or_get_role. unfold_script. unfold start. world_simpl.
  cbn [Aws.serve]. rewrite Hrole. world_simpl.
  rewrite isinstance_already_exists. world_simpl. rewrite Hrole. reflexivity.
Qed.

Lemma create_or_get_role_first (s : Aws.state) (fs : gmap string string) :
  ∃ s' arn made lines,
    create_or_get_role Aws.serve (start s fs)
    = (Normal (mkRoleResponse arn), World s' fs made lines)
    ∧ ∃ ro, Aws.roles s' !! role_name = Some ro ∧ Aws.role_arn ro = arn.
Proof.
  destruct (Aws.roles s !! role_name) as [ro|] eqn:Hrole.
  - rewrite (create_or_get_role_existing s fs ro Hrole). eauto 10.
  - unfold create_or_get_role. unfold_script. unfold start. world_simpl.
    cbn [Aws.serve]. rewrite Hrole. world_simpl.
    do 4 eexists. split; [reflexivity|].
    unfold Aws.with_roles. cbn [Aws.roles]. rewrite lookup_insert_eq.
    eexists. split; reflexivity.
Qed.

(** C6 (as the code has it): for the stack and for the two IAM roles,
    running the same reconciliation a second time against the reference
    control plane takes the branch for what already exists and changes
    nothing remotely.  The stack is probed, the update call answers that
    there is nothing to update, and the same role map is returned with no
    create call; [ensure_codebuild_role] returns the role found by
    [get_role] and creates nothing; the role set-up of the contact form has
    its [create_role] refused and returns the role found by [get_role]. *)
Theorem second_run_takes_existing_branch (s : Aws.state) (fs : gmap string string) :
  (∀ stack_name template_file region template_body,
     fs !! template_file = Some template_body →
     let first :=
       create_or_update_cf_stack Aws.serve stack_name template_file region (start s fs) in
     let second :=
       create_or_update_cf_stack Aws.serve stack_name template_file region
         (rerun first.2) in
     first.1 = Returned (Some (role_arns_of (Aws.provision s template_body)))
     ∧ second
       = (Returned (Some (role_arns_of (Aws.provision s template_body))),
          World (cloud first.2) fs
            [describe_stacks stack_name;
             update_stack stack_name template_body ["CAPABILITY_IAM"];
             describe_stack_resources stack_name]
            ["🔄 Updating CloudFormation stack '" +:+ stack_name +:+ "'...";
             "ℹ️ Stack '" +:+ stack_name
             +:+ "' is already up-to-date, no changes to perform."]))
  ∧ (∀ name,
       let first := ensure_codebuild_role Aws.serve name (start s fs) in
       let second := ensure_codebuild_role Aws.serve name (rerun first.2) in
       ∃ arn,
         first.1 = Returned (Some arn)
         ∧ second
           = (Returned (Some arn),
              World (cloud first.2) fs [get_role name]
                ["✅ IAM Role '" +:+ name +:+ "' already exists."]))
  ∧ (let first := create_or_get_role Aws.serve (start s fs) in
     let second := create_or_get_role Aws.serve (rerun first.2) in
     ∃ role,
       first.1 = Normal role
       ∧ second
         = (Normal role,
            World (cloud first.2) fs
              [create_role role_name assume_role_policy "Lambda role for SES contact form";
               get_role role_name]
              ["IAM role '" +:+ role_name +:+ "' already exists."])).
Proof.
  split; [|split].
  - intros stack_name template_file region template_body Hfile first second.
    subst second first.
    destruct (stack_first_run s fs stack_name template_file region template_body Hfile)
      as (s' & made & lines & -> & Hstack & Hprov).
    split; [reflexivity|]. unfold rerun. world_simpl.
    change (World s' fs [] []) with (start s' fs).
    rewrite (noop_update_on_reference _ _ _ _ s' fs Hfile Hstack), Hprov. reflexivity.
  - intros name first second. subst second first.
    destruct (ensure_codebuild_role_first s fs name)
      as (s' & arn & made & lines & -> & ro & Hrole & <-).
    exists (Aws.role_arn ro). split; [reflexivity|]. unfold rerun. world_simpl.
    change (World s' fs [] []) with (start s' fs).
    apply ensure_codebuild_role_existing. exact Hrole.
  - intros first second. subst second first.
    destruct (create_or_get_role_first s fs)
      as (s' & arn & made & lines & -> & ro & Hrole & <-).
    exists (mkRoleResponse (Aws.role_arn ro)). split; [reflexivity|].
    unfold rerun. world_simpl. change (World s' fs [] []) with (start s' fs).
    apply create_or_get_role_existing. exact Hrole.
Qed.

(** Twice in a row on the sample stack: the second run reports the stack
    as up to date and returns the one role again. *)
Lemma second_run_takes_existing_branch_witness :
  let first :=
    create_or_update_cf_stack Aws.serve "MyCICDProjectStack" "iac_ec2.yml" "ap-south-1"
      (start fresh_account workstation) in
  let second :=
    create_or_update_cf_stack Aws.serve "MyCICDProjectStack" "iac_ec2.yml" "ap-south-1"
      (rerun first.2) in
  second.1 = Returned (Some (role_arns_of [sample_role; sample_bucket]))
  ∧ stdout second.2
    = ["🔄 Updating CloudFormation stack '" +:+ "MyCICDProjectStack" +:+ "'...";
       "ℹ️ Stack '" +:+ "MyCICDProjectStack"
       +:+ "' is already up-to-date, no changes to perform."].
Proof.
  destruct (second_run_takes_existing_branch fresh_account workstation) as (H & _ & _).
  destruct (H "MyCICDProjectStack" "iac_ec2.yml" "ap-south-1" sample_template)
    as [_ Hsecond]; [vm_compute; reflexivity|].
  cbv zeta. rewrite Hsecond. split; reflexivity.
Defined.

(** C6 as stated fails for other resources.  Running the contact-form
    script twice, the second run updates the function in place and then
    stops on the refused invoke permission; running the pipeline script
    twice, the second run logs a failed create for the bucket, the
    application, the project, the deployment group and the pipeline. *)
Lemma second_run_of_other_resources_not_unchanged :
  let deploy_first :=
    deploy_contact_form Aws.serve sample_zip (start fresh_account workstation) in
  let deploy_second := deploy_contact_form Aws.serve sample_zip (rerun deploy_first.2) in
  let pipeline_first :=
    create_pipeline_main Aws.serve (account_with_secret (github_token_payload "abc")) in
  let pipeline_second := create_pipeline_main Aws.serve (rerun pipeline_first.2) in
  deploy_first.1 = Normal ()
  ∧ stdout deploy_second.2
    = ["IAM role 'ContactFormLambdaRole' already exists.";
       "Lambda function 'contact-form-sender' updated."]
  ∧ method <$> calls deploy_second.2
    = ["create_role"; "get_role"; "attach_role_policy"; "put_role_policy";
       "create_function"; "update_function_code"; "update_function_configuration";
       "create_api"; "get_caller_identity"; "create_integration"; "create_route";
       "create_deployment"; "create_stage"; "get_caller_identity"; "add_permission"]
  ∧ deploy_second.1
    = Raise (Exn ResourceConflictException
               (Aws.error_text "ResourceConflictException" "AddPermission"
                  "The statement id (APIGatewayInvoke) provided already exists."))
  ∧ pipeline_first.1 = Normal ()
  ∧ stdout pipeline_second.2
    = ["✅ IAM Role 'CodeBuildServiceRole' already exists.";
       "⚠️ Error creating S3 bucket: "
       +:+ Aws.error_text "BucketAlreadyOwnedByYou" "CreateBucket"
             "cicd-artifact-bucket-980921729554-ap-south-1 already exists";
       "⚠️ Error creating CodeDeploy application: "
       +:+ Aws.error_text "ApplicationAlreadyExistsException" "CreateApplication"
             "MyCICDProjectApp already exists";
       "❌ Error creating CodeBuild project: "
       +:+ Aws.error_text "ResourceAlreadyExistsException" "CreateProject"
             "MyCICDProjectBuild already exists";
       "❌ Error creating CodeDeploy deployment group: "
       +:+ Aws.error_text "DeploymentGroupAlreadyExistsException" "CreateDeploymentGroup"
             "MyCICDProjectApp/MyCICDProjectGroup already exists";
       "❌ Error creating CodePipeline: "
       +:+ Aws.error_text "PipelineNameInUseException" "CreatePipeline"
             "MyCICDProjectPipeline already exists"].
Proof. vm_compute. repeat split. Qed.

(** ** The main sequence of the pipeline script *)

Lemma reference_raises_exceptions (r : request) (s : Aws.state) (e : exn) (s' : Aws.state) :
  Aws.serve r s = (Raised e, s') → isinstance e Exception = true.
Proof.
  destruct r; cbn [Aws.serve]; unfold Aws.create_named;
    repeat case_match; intros [= <- <-]; reflexivity.
Qed.

(** Float tokens as conditions: what is not a number or is infinite is
    true; a literal is false when it converts to zero, also by rounding. *)
Lemma float_tokens :
  truthy (PFloat "NaN") = true ∧ truthy (PFloat "Infinity") = true
  ∧ truthy (PFloat "-Infinity") = true ∧ truthy (PFloat "1e400") = true
  ∧ truthy (PFloat "5e-324") = true ∧ truthy (PFloat "3e-324") = true
  ∧ truthy (PFloat "2e-324") = false ∧ truthy (PFloat "1e-400") = false
  ∧ truthy (PFloat "0.0") = false ∧ truthy (PFloat "-0.0") = false
  ∧ truthy (PFloat "0e5") = false.
Proof. vm_compute. repeat split. Qed.

Lemma bind_run {remote R A B} (m : M remote R A) (k : A → M remote R B)
    (w : world remote) :
  (m ≫= k) w
  = match m w with
    | (Normal a, w') => k a w'
    | (Return v, w') => (Return v, w')
    | (Raise e, w') => (Raise e, w')
    end.
Proof. reflexivity. Qed.

(** One [try] statement of the main sequence, when what the call can raise
    is an [Exception]. *)
Lemma try_call_logged {remote R} (serve : handler remote) (r : request)
    (created failed : string) (w : world remote) :
  (∀ e c', serve r (cloud w) = (Raised e, c') → isinstance e Exception = true) →
  try_except (R:=R) (call serve r;; print created) (λ e, isinstance e Exception)
    (λ e, print (failed +:+ exn_str e)) w
  = (Normal (), logged_call serve r created failed w).
Proof.
  intros Hexc. unfold logged_call. unfold_script.
  destruct (serve r (cloud w)) as [[a|e] c']; world_simpl; [reflexivity|].
  rewrite (Hexc e c' eq_refl). reflexivity.
Qed.

Lemma calls_logged_call {remote} (serve : handler remote) (r : request)
    (created failed : string) (w : world remote) :
  calls (logged_call serve r created failed w) = calls w ++ [r].
Proof. unfold logged_call. destruct (serve r (cloud w)) as [[a|e] c']; reflexivity. Qed.

Lemma stdout_logged_call {remote} (serve : handler remote) (r : request)
    (created failed : string) (w : world remote) :
  ∃ line, stdout (logged_call serve r created failed w) = stdout w ++ [line].
Proof.
  unfold logged_call. destruct (serve r (cloud w)) as [[a|e] c']; eexists; reflexivity.
Qed.

(** C10 (as the code has it): in the main sequence, once the build role
    and a token are there, each of the bucket, application, project and
    deployment group calls is made in turn, a failure of any of them is
    caught and logged as one line that ends in the text of the exception,
    and the remaining calls are still made, the pipeline call last.  What
    ends the run before that is an exception out of
    [ensure_codebuild_role] or out of [get_secret], which nothing catches,
    and a token that is false as a condition (not only [None]), upon which
    the script prints its message and exits with status 1. *)
Theorem main_sequence_aborts_only_before_resources {remote} (serve : handler remote)
    (w : world remote) :
  let run := create_pipeline_main serve w in
  let bucket := create_bucket "cicd-artifact-bucket-980921729554-ap-south-1" "ap-south-1" in
  let application := create_application "MyCICDProjectApp" in
  let project arn :=
    create_project "MyCICDProjectBuild" arn "CODEPIPELINE" "CODEPIPELINE"
      (BuildEnvironment "LINUX_CONTAINER" "BUILD_GENERAL1_SMALL"
         "aws/codebuild/standard:5.0") in
  let group :=
    create_deployment_group "MyCICDProjectApp" "MyCICDProjectGroup"
      "arn:aws:iam::980921729554:role/MyCICDProjectStack-CodeDeployRole-qrk0vjduap4d"
      (DeploymentStyle "IN_PLACE" "WITHOUT_TRAFFIC_CONTROL")
      [TagFilter "Name" "MyEC2Instance" "KEY_AND_VALUE"] in
  let pipeline token :=
    create_pipeline
      (pipeline_definition "MyCICDProjectPipeline"
         "cicd-artifact-bucket-980921729554-ap-south-1" "aws-cicd-project"
         "your-github-username" "MyCICDProjectBuild" "MyCICDProjectApp"
         "MyCICDProjectGroup"
         "arn:aws:iam::980921729554:role/MyCICDProjectStack-CodePipelineRole-BfBJkSvHRfJN"
         token) in
  (∀ e w1, ensure_codebuild_role serve "CodeBuildServiceRole" w = (Raised e, w1) →
           run = (Raise e, w1))
  ∧ (∀ arn w1 e w2,
       ensure_codebuild_role serve "CodeBuildServiceRole" w = (Returned arn, w1) →
       get_secret serve "github_pat_for_cicd" "ap-south-1" w1 = (Raised e, w2) →
       run = (Raise e, w2))
  ∧ (∀ arn w1 token w2,
       ensure_codebuild_role serve "CodeBuildServiceRole" w = (Returned arn, w1) →
       get_secret serve "github_pat_for_cicd" "ap-south-1" w1 = (Returned token, w2) →
       truthy token = false →
       run = (Raise (Exn SystemExit "1"),
              printed w2 "❌ Failed to retrieve GitHub token. Exiting."))
  ∧ (∀ arn w1 token w2,
       (∀ r c e c', serve r c = (Raised e, c') → isinstance e Exception = true) →
       ensure_codebuild_role serve "CodeBuildServiceRole" w = (Returned arn, w1) →
       get_secret serve "github_pat_for_cicd" "ap-south-1" w1 = (Returned token, w2) →
       truthy token = true →
       run
       = (Normal (),
          logged_call serve (pipeline token)
            "✅ CodePipeline 'MyCICDProjectPipeline' created."
            "❌ Error creating CodePipeline: "
            (logged_call serve group
               "✅ CodeDeploy deployment group 'MyCICDProjectGroup' created."
               "❌ Error creating CodeDeploy deployment group: "
               (logged_call serve (project arn)
                  "✅ CodeBuild project 'MyCICDProjectBuild' created."
                  "❌ Error creating CodeBuild project: "
                  (logged_call serve application
                     "✅ CodeDeploy application 'MyCICDProjectApp' created."
                     "⚠️ Error creating CodeDeploy application: "
                     (logged_call serve bucket
                        "✅ S3 bucket 'cicd-artifact-bucket-980921729554-ap-south-1' created."
                        "⚠️ Error creating S3 bucket: " w2)))))
       ∧ calls run.2 = calls w2 ++ [bucket; application; project arn; group; pipeline token]
       ∧ ∃ lines, stdout run.2 = stdout w2 ++ lines ∧ length lines = 5).
Proof.
  intros run bucket application project group pipeline.
  subst run bucket application project group pipeline.
  split; [|split; [|split]].
  - intros e w1 Hrole. unfold create_pipeline_main. unfold_script. rewrite Hrole.
    reflexivity.
  - intros arn w1 e w2 Hrole Hsecret.
    unfold create_pipeline_main. unfold_script. rewrite Hrole, Hsecret. reflexivity.
  - intros arn w1 token w2 Hrole Hsecret Hfalse.
    unfold create_pipeline_main. unfold_script. rewrite Hrole, Hsecret, Hfalse.
    reflexivity.
  - intros arn w1 token w2 Hexc Hrole Hsecret Htrue.
    set (bucket := create_bucket _ _).
    set (application := create_application _).
    set (project := create_project _ _ _ _ _).
    set (group := create_deployment_group _ _ _ _ _).
    set (pipeline := create_pipeline _).
    assert (Hrun : create_pipeline_main serve w
                   = (Normal (),
                      logged_call serve pipeline
                        "✅ CodePipeline 'MyCICDProjectPipeline' created."
                        "❌ Error creating CodePipeline: "
                        (logged_call serve group
                           "✅ CodeDeploy deployment group 'MyCICDProjectGroup' created."
                           "❌ Error creating CodeDeploy deployment group: "
                           (logged_call serve project
                              "✅ CodeBuild project 'MyCICDProjectBuild' created."
                              "❌ Error creating CodeBuild project: "
                              (logged_call serve application
                                 "✅ CodeDeploy application 'MyCICDProjectApp' created."
                                 "⚠️ Error creating CodeDeploy application: "
                                 (logged_call serve bucket
                                    "✅ S3 bucket 'cicd-artifact-bucket-980921729554-ap-south-1' created."
                                    "⚠️ Error creating S3 bucket: " w2)))))).
    { unfold create_pipeline_main.
      rewrite bind_run. unfold invoke at 1. rewrite Hrole.
      rewrite bind_run. unfold invoke at 1. rewrite Hsecret.
      rewrite bind_run, Htrue. cbn [negb]. cbv [mret M_ret].
      do 4 (rewrite bind_run, try_call_logged by (intros; eapply Hexc; eassumption)).
      unfold invoke, create_codepipeline, def, submit_pipeline.
      rewrite try_call_logged by (intros; eapply Hexc; eassumption).
      reflexivity. }
    rewrite Hrun. split; [reflexivity|]. cbn [snd]. split.
    + rewrite !calls_logged_call, <- !app_assoc. reflexivity.
    + destruct (stdout_logged_call serve bucket
                  "✅ S3 bucket 'cicd-artifact-bucket-980921729554-ap-south-1' created."
                  "⚠️ Error creating S3 bucket: " w2) as [l1 H1].
      revert H1. set (w3 := logged_call serve bucket _ _ w2). intros H1.
      destruct (stdout_logged_call serve application
                  "✅ CodeDeploy application 'MyCICDProjectApp' created."
                  "⚠️ Error creating CodeDeploy application: " w3) as [l2 H2].
      revert H2. set (w4 := logged_call serve application _ _ w3). intros H2.
      destruct (stdout_logged_call serve project
                  "✅ CodeBuild project 'MyCICDProjectBuild' created."
                  "❌ Error creating CodeBuild project: " w4) as [l3 H3].
      revert H3. set (w5 := logged_call serve project _ _ w4). intros H3.
      destruct (stdout_logged_call serve group
                  "✅ CodeDeploy deployment group 'MyCICDProjectGroup' created."
                  "❌ Error creating CodeDeploy deployment group: " w5) as [l4 H4].
      revert H4. set (w6 := logged_call serve group _ _ w5). intros H4.
      destruct (stdout_logged_call serve pipeline
                  "✅ CodePipeline 'MyCICDProjectPipeline' created."
                  "❌ Error creating CodePipeline: " w6) as [l5 H5].
      exists [l1; l2; l3; l4; l5]. split; [|reflexivity].
      rewrite H5, H4, H3, H2, H1, <- !app_assoc. reflexivity.
Qed.

(** An account in which the four resources exist already: each of the
    four calls fails, each failure is printed, and the pipeline is still
    created. *)
Lemma main_sequence_aborts_only_before_resources_witness :
  let run := create_pipeline_main Aws.serve account_with_resources in
  run.1 = Normal ()
  ∧ stdout run.2
    = ["⚠️ IAM Role 'CodeBuildServiceRole' not found. Creating...";
       "✅ Created IAM Role 'CodeBuildServiceRole' with policies.";
       "⚠️ Error creating S3 bucket: An error occurred (BucketAlreadyOwnedByYou) when calling the CreateBucket operation: cicd-artifact-bucket-980921729554-ap-south-1 already exists";
       "⚠️ Error creating CodeDeploy application: An error occurred (ApplicationAlreadyExistsException) when calling the CreateApplication operation: MyCICDProjectApp already exists";
       "❌ Error creating CodeBuild project: An error occurred (ResourceAlreadyExistsException) when calling the CreateProject operation: MyCICDProjectBuild already exists";
       "❌ Error creating CodeDeploy deployment group: An error occurred (DeploymentGroupAlreadyExistsException) when calling the CreateDeploymentGroup operation: MyCICDProjectApp/MyCICDProjectGroup already exists";
       "✅ CodePipeline 'MyCICDProjectPipeline' created."]
  ∧ method <$> calls run.2
    = ["get_role"; "create_role"; "attach_role_policy"; "attach_role_policy";
       "get_secret_value"; "create_bucket"; "create_application"; "create_project";
       "create_deployment_group"; "create_pipeline"].
Proof.
  pose proof (main_sequence_aborts_only_before_resources Aws.serve
                account_with_resources) as (_ & _ & _ & H).
  edestruct H as (Hrun & _ & _);
    [ exact reference_raises_exceptions
    | vm_compute; reflexivity
    | vm_compute; reflexivity
    | reflexivity
    | ].
  cbv zeta. rewrite Hrun. vm_compute. repeat split.
Defined.

(** C10 as stated fails: with a secret object whose [github_token] is the
    empty string the resolver returns that empty string, not [None], and
    the run still exits
    with status 1 before any resource is created; and when the control
    plane cannot be reached the run ends in [ensure_codebuild_role], before
    the secret is even asked for. *)
Lemma run_aborts_without_None_secret :
  let w := account_with_secret (github_token_payload EmptyString) in
  let role := ensure_codebuild_role Aws.serve "CodeBuildServiceRole" w in
  let secret := get_secret Aws.serve "github_pat_for_cicd" "ap-south-1" role.2 in
  let run := create_pipeline_main Aws.serve w in
  let offline := create_pipeline_main unreachable (start () ∅) in
  secret.1 = Returned (PStr EmptyString)
  ∧ secret.1 ≠ Returned PNone
  ∧ run.1 = Raise (Exn SystemExit "1")
  ∧ method <$> calls run.2
    = ["get_role"; "create_role"; "attach_role_policy"; "attach_role_policy";
       "get_secret_value"]
  ∧ offline.1 = Raise (Exn BotoCoreError "Could not connect to the endpoint URL")
  ∧ calls offline.2 = [get_role "CodeBuildServiceRole"].
Proof. vm_compute. repeat split. discriminate. Qed.

(** * Further properties *)

(** ** The resolver on other replies *)

(** X1: a secret without [SecretString] is returned as its [SecretBinary]
    bytes, undecoded even when they spell JSON; a response with neither
    field makes the resolver log the missing key and return [None]. *)
Theorem get_secret_binary_or_neither {remote} (serve : handler remote)
    (secret_name region_name : string) (w : world remote) (c' : remote) :
  (∀ blob,
     serve (get_secret_value secret_name) (cloud w)
     = (Returned (mkSecretValue None (Some blob)), c') →
     get_secret serve secret_name region_name w
     = (Returned (PBytes blob), sent w (get_secret_value secret_name) c'))
  ∧ (serve (get_secret_value secret_name) (cloud w)
     = (Returned (mkSecretValue None None), c') →
     get_secret serve secret_name region_name w
     = (Returned PNone,
        printed (sent w (get_secret_value secret_name) c')
          ("❌ Error retrieving secret '" +:+ secret_name +:+ "': 'SecretBinary'"))).
Proof.
  split.
  - intros blob reply. unfold get_secret. unfold_script. rewrite reply. reflexivity.
  - intros reply. unfold get_secret. unfold_script. rewrite reply. reflexivity.
Qed.

(** A binary secret that spells the JSON object of a token comes back as
    those bytes, not as the token. *)
Lemma get_secret_binary_or_neither_witness :
  (get_secret Aws.serve "github_pat_for_cicd" "ap-south-1"
     (account_with_binary_secret (github_token_payload "abc"))).1
  = Returned (PBytes (github_token_payload "abc"))
  ∧ (get_secret Aws.serve "github_pat_for_cicd" "ap-south-1" account_with_empty_secret).1
    = Returned PNone.
Proof.
  split.
  - destruct (get_secret_binary_or_neither Aws.serve "github_pat_for_cicd" "ap-south-1"
                (account_with_binary_secret (github_token_payload "abc"))
                (cloud (account_with_binary_secret (github_token_payload "abc"))))
      as [H _].
    rewrite (H (github_token_payload "abc")); [reflexivity | vm_compute; reflexivity].
  - destruct (get_secret_binary_or_neither Aws.serve "github_pat_for_cicd" "ap-south-1"
                account_with_empty_secret (cloud account_with_empty_secret)) as [_ H].
    rewrite H; [reflexivity | vm_compute; reflexivity].
Defined.

(** X2: the resolver sends exactly one request, whatever it is answered;
    and when that request raises an exception deriving from [Exception],
    the resolver prints it and returns [None] instead of raising. *)
Theorem get_secret_one_request {remote} (serve : handler remote)
    (secret_name region_name : string) (w : world remote) :
  calls (get_secret serve secret_name region_name w).2
  = calls w ++ [get_secret_value secret_name]
  ∧ (∀ e c', serve (get_secret_value secret_name) (cloud w) = (Raised e, c') →
             isinstance e Exception = true →
             get_secret serve secret_name region_name w
             = (Returned PNone,
                printed (sent w (get_secret_value secret_name) c')
                  ("❌ Error retrieving secret '" +:+ secret_name +:+ "': " +:+ exn_str e))).
Proof.
  split.
  - unfold get_secret. unfold_script.
    destruct (serve (get_secret_value secret_name) (cloud w)) as [[[text blob]|e] c'];
      world_simpl.
    + destruct text as [secret|]; cbn [SecretString SecretBinary].
      * destruct (Json.loads secret) as [v|e]; simpl.
        -- destruct v; reflexivity.
        -- destruct (isinstance e JSONDecodeError); [reflexivity|].
           destruct (isinstance e Exception); reflexivity.
      * destruct blob; reflexivity.
    + destruct (isinstance e Exception); reflexivity.
  - intros e c' reply Hclass. unfold get_secret. unfold_script.
    rewrite reply. world_simpl. rewrite Hclass. reflexivity.
Qed.

(** Asking a fresh account for a secret it does not hold. *)
Lemma get_secret_one_request_witness :
  (get_secret Aws.serve "github_pat_for_cicd" "ap-south-1" (start fresh_account ∅)).1
  = Returned PNone.
Proof.
  destruct (get_secret_one_request Aws.serve "github_pat_for_cicd" "ap-south-1"
              (start fresh_account ∅)) as [_ H].
  rewrite (H (Aws.client_error "ResourceNotFoundException" "GetSecretValue"
                "Secrets Manager can't find the specified secret.") fresh_account);
    [reflexivity | vm_compute; reflexivity | reflexivity].
Defined.

(** ** The build role *)

(** X3: [ensure_codebuild_role] probes with [get_role].  A role that is
    found is returned after that single request, nothing being created or
    attached.  When the probe says there is no such role, the role is
    created with the CodeBuild trust policy, the S3 and CodeBuild policies
    are attached in that order, and the ARN returned is the one of the
    created role.  Any other probe failure leaves the function as an
    exception after the single request. *)
Theorem ensure_codebuild_role_paths {remote} (serve : handler remote)
    (name : string) (w : world remote) :
  (∀ found c1,
     serve (get_role name) (cloud w) = (Returned found, c1) →
     ensure_codebuild_role serve name w
     = (Returned (Some (Arn found)),
        World c1 (files w) (calls w ++ [get_role name])
          (stdout w ++ ["✅ IAM Role '" +:+ name +:+ "' already exists."])))
  ∧ (∀ e created c1 c2 c3 c4,
       serve (get_role name) (cloud w) = (Raised e, c1) →
       isinstance e NoSuchEntityException = true →
       serve (create_role name codebuild_trust_policy
                "Service role for CodeBuild with S3 + build permissions") c1
       = (Returned created, c2) →
       serve (attach_role_policy name "arn:aws:iam::aws:policy/AmazonS3FullAccess") c2
       = (Returned (), c3) →
       serve (attach_role_policy name "arn:aws:iam::aws:policy/AWSCodeBuildDeveloperAccess") c3
       = (Returned (), c4) →
       ensure_codebuild_role serve name w
       = (Returned (Some (Arn created)),
          World c4 (files w)
            (calls w
             ++ [get_role name;
                 create_role name codebuild_trust_policy
                   "Service role for CodeBuild with S3 + build permissions";
                 attach_role_policy name "arn:aws:iam::aws:policy/AmazonS3FullAccess";
                 attach_role_policy name
                   "arn:aws:iam::aws:policy/AWSCodeBuildDeveloperAccess"])
            (stdout w
             ++ ["⚠️ IAM Role '" +:+ name +:+ "' not found. Creating...";
                 "✅ Created IAM Role '" +:+ name +:+ "' with policies."])))
  ∧ (∀ e c1,
       serve (get_role name) (cloud w) = (Raised e, c1) →
       isinstance e NoSuchEntityException = false →
       ensure_codebuild_role serve name w = (Raised e, sent w (get_role name) c1)).
Proof.
  split; [|split].
  - intros found c1 Hprobe. unfold ensure_codebuild_role. unfold_script.
    rewrite Hprobe. reflexivity.
  - intros e created c1 c2 c3 c4 Hprobe Hclass Hcreate Hs3 Hbuild.
    unfold ensure_codebuild_role. unfold_script.
    rewrite Hprobe. world_simpl. rewrite Hclass. script_step Hcreate.
    script_step Hs3. script_step Hbuild. rewrite <- !app_assoc. reflexivity.
  - intros e c1 Hprobe Hclass. unfold ensure_codebuild_role. unfold_script.
    rewrite Hprobe. world_simpl. rewrite Hclass. reflexivity.
Qed.

(** In a fresh account the role is created and its ARN returned; when the
    control plane cannot be reached the function raises. *)
Lemma ensure_codebuild_role_paths_witness :
  (ensure_codebuild_role Aws.serve "CodeBuildServiceRole" (start fresh_account ∅)).1
  = Returned (Some "arn:aws:iam::980921729554:role/CodeBuildServiceRole")
  ∧ (ensure_codebuild_role unreachable "CodeBuildServiceRole" (start () ∅)).1
    = Raised (Exn BotoCoreError "Could not connect to the endpoint URL").
Proof.
  split.
  - destruct (ensure_codebuild_role_paths Aws.serve "CodeBuildServiceRole"
                (start fresh_account ∅)) as (_ & H & _).
    erewrite H; cycle 1.
    { vm_compute. reflexivity. }
    { reflexivity. }
    { vm_compute. reflexivity. }
    { vm_compute. reflexivity. }
    { vm_compute. reflexivity. }
    reflexivity.
  - destruct (ensure_codebuild_role_paths unreachable "CodeBuildServiceRole"
                (start () ∅)) as (_ & _ & H).
    rewrite (H (Exn BotoCoreError "Could not connect to the endpoint URL") ());
      reflexivity.
Defined.

(** X4: nothing that fails after the probe is caught.  If [create_role]
    raises, no policy is attached; if the first attachment raises, the
    second is not attempted, although the role has been created; if the
    second raises, the function raises as well.  In each case the
    exception reaches the caller and the success line is not printed. *)
Theorem ensure_codebuild_role_failures_propagate {remote} (serve : handler remote)
    (name : string) (w : world remote) (e : exn) (c1 : remote) :
  serve (get_role name) (cloud w) = (Raised e, c1) →
  isinstance e NoSuchEntityException = true →
  let create :=
    create_role name codebuild_trust_policy
      "Service role for CodeBuild with S3 + build permissions" in
  let attach_s3 := attach_role_policy name "arn:aws:iam::aws:policy/AmazonS3FullAccess" in
  let attach_build :=
    attach_role_policy name "arn:aws:iam::aws:policy/AWSCodeBuildDeveloperAccess" in
  let announced := stdout w ++ ["⚠️ IAM Role '" +:+ name +:+ "' not found. Creating..."] in
  (∀ e' c2, serve create c1 = (Raised e', c2) →
            ensure_codebuild_role serve name w
            = (Raised e', World c2 (files w) (calls w ++ [get_role name; create]) announced))
  ∧ (∀ created c2 e' c3,
       serve create c1 = (Returned created, c2) →
       serve attach_s3 c2 = (Raised e', c3) →
       ensure_codebuild_role serve name w
       = (Raised e',
          World c3 (files w) (calls w ++ [get_role name; create; attach_s3]) announced))
  ∧ (∀ created c2 c3 e' c4,
       serve create c1 = (Returned created, c2) →
       serve attach_s3 c2 = (Returned (), c3) →
       serve attach_build c3 = (Raised e', c4) →
       ensure_codebuild_role serve name w
       = (Raised e',
          World c4 (files w)
            (calls w ++ [get_role name; create; attach_s3; attach_build]) announced)).
Proof.
  intros Hprobe Hclass create attach_s3 attach_build announced.
  subst create attach_s3 attach_build announced.
  split; [|split].
  - intros e' c2 Hcreate. unfold ensure_codebuild_role. unfold_script.
    rewrite Hprobe. world_simpl. rewrite Hclass. script_step Hcreate.
    rewrite <- !app_assoc. reflexivity.
  - intros created c2 e' c3 Hcreate Hs3. unfold ensure_codebuild_role. unfold_script.
    rewrite Hprobe. world_simpl. rewrite Hclass. script_step Hcreate. script_step Hs3.
    rewrite <- !app_assoc. reflexivity.
  - intros created c2 c3 e' c4 Hcreate Hs3 Hbuild.
    unfold ensure_codebuild_role. unfold_script.
    rewrite Hprobe. world_simpl. rewrite Hclass. script_step Hcreate. script_step Hs3.
    script_step Hbuild. rewrite <- !app_assoc. reflexivity.
Qed.

(** Where attachments are refused, the run raises after creating the
    role, and the role is left in the account without policies. *)
Lemma ensure_codebuild_role_failures_propagate_witness :
  let run := ensure_codebuild_role policies_denied "CodeBuildServiceRole"
               (start fresh_account ∅) in
  run.1 = Raised (Aws.client_error "AccessDenied" "AttachRolePolicy"
                    "not authorized to perform iam:AttachRolePolicy")
  ∧ Aws.role_managed <$> (Aws.roles (cloud run.2) !! "CodeBuildServiceRole") = Some [].
Proof.
  destruct (ensure_codebuild_role_failures_propagate policies_denied "CodeBuildServiceRole"
              (start fresh_account ∅)
              (Exn NoSuchEntityException
                 (Aws.error_text "NoSuchEntity" "GetRole"
                    ("The role with name " +:+ "CodeBuildServiceRole"
                     +:+ " cannot be found.")))
              fresh_account) as (_ & H & _); [reflexivity | reflexivity |].
  cbv zeta. erewrite H; cycle 1.
  { vm_compute. reflexivity. }
  { vm_compute. reflexivity. }
  split; [reflexivity | vm_compute; reflexivity].
Defined.

(** ** Stack reconciliation: waits, files and request sequences *)

(** X5: a waiter that gives up is handled differently on the two paths.
    After a successful [update_stack], a waiter failure that is not a
    [ClientError] leaves the function as an exception, with nothing logged
    beyond the updating line and no resource read.  After a successful
    [create_stack], a waiter failure deriving from [Exception] is logged
    as a creation error and the function returns [None]. *)
Theorem stack_waiter_failure {remote} (serve : handler remote)
    (stack_name template_file region template_body : string) (w : world remote) :
  files w !! template_file = Some template_body →
  (∀ c1 c2 e c3,
     serve (describe_stacks stack_name) (cloud w) = (Returned (), c1) →
     serve (update_stack stack_name template_body ["CAPABILITY_IAM"]) c1
     = (Returned (), c2) →
     serve (wait_stack_update_complete stack_name) c2 = (Raised e, c3) →
     isinstance e ClientError = false →
     create_or_update_cf_stack serve stack_name template_file region w
     = (Raised e,
        World c3 (files w)
          (calls w ++ [describe_stacks stack_name;
                       update_stack stack_name template_body ["CAPABILITY_IAM"];
                       wait_stack_update_complete stack_name])
          (stdout w ++ ["🔄 Updating CloudFormation stack '" +:+ stack_name +:+ "'..."])))
  ∧ (∀ e0 c1 c2 e c3,
       serve (describe_stacks stack_name) (cloud w) = (Raised e0, c1) →
       isinstance e0 ClientError = true →
       str_contains "does not exist" (exn_str e0) = true →
       serve (create_stack stack_name template_body ["CAPABILITY_IAM"]) c1
       = (Returned (), c2) →
       serve (wait_stack_create_complete stack_name) c2 = (Raised e, c3) →
       isinstance e Exception = true →
       create_or_update_cf_stack serve stack_name template_file region w
       = (Returned None,
          World c3 (files w)
            (calls w ++ [describe_stacks stack_name;
                         create_stack stack_name template_body ["CAPABILITY_IAM"];
                         wait_stack_create_complete stack_name])
            (stdout w
             ++ ["🚀 Creating CloudFormation stack '" +:+ stack_name +:+ "'...";
                 "❌ Error creating CloudFormation stack: " +:+ exn_str e]))).
Proof.
  intros Hfile. split.
  - intros c1 c2 e c3 Hprobe Hupdate Hwait Hclass.
    unfold create_or_update_cf_stack. unfold_script.
    rewrite Hfile. script_step Hprobe. script_step Hupdate. script_step Hwait.
    rewrite Hclass. rewrite <- !app_assoc. reflexivity.
  - intros e0 c1 c2 e c3 Hprobe Hclass0 Htext Hcreate Hwait Hclass.
    unfold create_or_update_cf_stack. unfold_script.
    rewrite Hfile. script_step Hprobe. rewrite Hclass0, Htext. world_simpl.
    script_step Hcreate. script_step Hwait. rewrite Hclass. world_simpl.
    rewrite <- !app_assoc. reflexivity.
Qed.

(** With waiters that give up: creating the sample stack returns [None]
    although the stack is then in the account, and updating it with a
    changed template raises. *)
Lemma stack_waiter_failure_witness :
  let created :=
    create_or_update_cf_stack stalled "MyCICDProjectStack" "iac_ec2.yml" "ap-south-1"
      (start fresh_account workstation) in
  let updated :=
    create_or_update_cf_stack stalled "MyCICDProjectStack" "iac_ec2.yml" "ap-south-1"
      (start (Aws.with_stacks fresh_account (<["MyCICDProjectStack" := sample_template]> ∅))
         (<["iac_ec2.yml" := "Resources: changed"]> workstation)) in
  created.1 = Returned None
  ∧ Aws.stacks (cloud created.2) !! "MyCICDProjectStack" = Some sample_template
  ∧ updated.1
    = Raised (Exn WaiterError "Waiter StackUpdateComplete failed: Max attempts exceeded").
Proof.
  destruct (stack_waiter_failure stalled "MyCICDProjectStack" "iac_ec2.yml" "ap-south-1"
              sample_template (start fresh_account workstation)) as [_ Hcreate];
    [vm_compute; reflexivity|].
  cbv zeta. erewrite Hcreate; cycle 1.
  { vm_compute. reflexivity. }
  { reflexivity. }
  { vm_compute. reflexivity. }
  { vm_compute. reflexivity. }
  { vm_compute. reflexivity. }
  { reflexivity. }
  split; [reflexivity|]. split; [vm_compute; reflexivity|].
  destruct (stack_waiter_failure stalled "MyCICDProjectStack" "iac_ec2.yml" "ap-south-1"
              "Resources: changed"
              (start (Aws.with_stacks fresh_account
                        (<["MyCICDProjectStack" := sample_template]> ∅))
                 (<["iac_ec2.yml" := "Resources: changed"]> workstation)))
    as [Hupdate _]; [vm_compute; reflexivity|].
  erewrite Hupdate; cycle 1.
  { vm_compute. reflexivity. }
  { vm_compute. reflexivity. }
  { vm_compute. reflexivity. }
  { reflexivity. }
  reflexivity.
Defined.

(** X6: when the template file cannot be read, the function raises the
    file error before any request is sent and before anything is printed. *)
Theorem missing_template_sends_nothing {remote} (serve : handler remote)
    (stack_name template_file region : string) (w : world remote) :
  files w !! template_file = None →
  create_or_update_cf_stack serve stack_name template_file region w
  = (Raised (Exn FileNotFoundError template_file), w).
Proof.
  intros Hfile. unfold create_or_update_cf_stack. unfold_script. rewrite Hfile.
  reflexivity.
Qed.

Lemma missing_template_sends_nothing_witness :
  create_or_update_cf_stack Aws.serve "MyCICDProjectStack" "iac_ec2.yml" "ap-south-1"
    (start fresh_account ∅)
  = (Raised (Exn FileNotFoundError "iac_ec2.yml"), start fresh_account ∅).
Proof.
  apply (missing_template_sends_nothing Aws.serve "MyCICDProjectStack" "iac_ec2.yml"
           "ap-south-1" (start fresh_account ∅)).
  vm_compute. reflexivity.
Defined.

Lemma stack_call_sequences_exclusive :
  Forall (λ names, ¬ ("create_stack" ∈ names ∧ "update_stack" ∈ names))
         stack_call_sequences.
Proof. apply (bool_decide_unpack _). vm_compute. exact I. Qed.

(** X7: whatever the control plane answers, the requests of one call are
    one of nine sequences of methods: the probe comes first, then at most
    one of [update_stack] and [create_stack], never both, each optionally
    followed by its wait, and the resource read last.  A role map is only
    returned by a call whose last request is that read. *)
Theorem stack_request_sequences {remote} (serve : handler remote)
    (stack_name template_file region : string) (w : world remote) :
  ∃ made,
    calls (create_or_update_cf_stack serve stack_name template_file region w).2
    = calls w ++ made
    ∧ method <$> made ∈ stack_call_sequences
    ∧ ¬ ("create_stack" ∈ method <$> made ∧ "update_stack" ∈ method <$> made)
    ∧ (∀ role_arns,
         (create_or_update_cf_stack serve stack_name template_file region w).1
         = Returned (Some role_arns) →
         last made = Some (describe_stack_resources stack_name)).
Proof.
  assert (shape : ∃ made,
    calls (create_or_update_cf_stack serve stack_name template_file region w).2
    = calls w ++ made
    ∧ method <$> made ∈ stack_call_sequences
    ∧ (∀ role_arns,
         (create_or_update_cf_stack serve stack_name template_file region w).1
         = Returned (Some role_arns) →
         last made = Some (describe_stack_resources stack_name))).
  { unfold create_or_update_cf_stack. unfold_script.
    destruct (files w !! template_file) as [body|].
    2:{ exists []. rewrite app_nil_r. split; [reflexivity|].
        split; [apply list_elem_of_here | discriminate]. }
    repeat lazymatch goal with
      | |- context [serve ?r ?c] =>
          let E := fresh "E" in
          destruct (serve r c) as [[?|?] ?] eqn:E; world_simpl
      | |- context [if isinstance ?e ?k then _ else _] =>
          destruct (isinstance e k); world_simpl
      | |- context [if str_contains ?a ?b then _ else _] =>
          destruct (str_contains a b); world_simpl
      end;
      rewrite <- ?app_assoc;
      (eexists; split; [reflexivity|]; split;
       [ cbn [fmap list_fmap method]; unfold stack_call_sequences;
         repeat first [apply list_elem_of_here | apply list_elem_of_further]
       | intros role_arns Hret; first [discriminate Hret | reflexivity] ]). }
  destruct shape as (made & Hcalls & Hseq & Hlast).
  exists made. split; [exact Hcalls|]. split; [exact Hseq|]. split; [|exact Hlast].
  pose proof stack_call_sequences_exclusive as Hex.
  rewrite Forall_forall in Hex. apply (Hex _ Hseq).
Qed.

(** X8: a role map that is returned is the one extracted from the reply to
    a [describe_stack_resources] request for the stack; it never comes from
    anything else. *)
Theorem returned_role_map_from_resource_read {remote} (serve : handler remote)
    (stack_name template_file region : string) (w : world remote)
    (role_arns : gmap string string) :
  (create_or_update_cf_stack serve stack_name template_file region w).1
  = Returned (Some role_arns) →
  ∃ resources c c',
    serve (describe_stack_resources stack_name) c = (Returned resources, c')
    ∧ role_arns = role_arns_of resources
    ∧ ∀ k v, role_arns !! k = Some v →
             ∃ res, res ∈ resources ∧ ResourceType res = "AWS::IAM::Role"
                    ∧ LogicalResourceId res = k ∧ PhysicalResourceId res = v.
Proof.
  intros Hret.
  destruct (returned_role_map_is_extracted serve _ _ _ _ _ Hret)
    as (resources & c & c' & Hread & ->).
  exists resources, c, c'. split; [exact Hread|]. split; [reflexivity|].
  apply role_arns_of_sound.
Qed.

Lemma returned_role_map_from_resource_read_witness :
  ∃ resources c c',
    Aws.serve (describe_stack_resources "MyCICDProjectStack") c = (Returned resources, c')
    ∧ role_arns_of [sample_role; sample_bucket] = role_arns_of resources.
Proof.
  destruct (returned_role_map_from_resource_read Aws.serve "MyCICDProjectStack"
              "iac_ec2.yml" "ap-south-1" (start fresh_account workstation)
              (role_arns_of [sample_role; sample_bucket]))
    as (resources & c & c' & Hread & Heq & _); [vm_compute; reflexivity|].
  exists resources, c, c'. split; assumption.
Defined.

(** With the sample stack created, the last request of the call is the
    resource read. *)
Lemma stack_request_sequences_witness :
  ∃ made,
    calls (create_or_update_cf_stack Aws.serve "MyCICDProjectStack" "iac_ec2.yml"
             "ap-south-1" (start fresh_account workstation)).2 = made
    ∧ last made = Some (describe_stack_resources "MyCICDProjectStack").
Proof.
  destruct (stack_request_sequences Aws.serve "MyCICDProjectStack" "iac_ec2.yml"
              "ap-south-1" (start fresh_account workstation))
    as (made & Hcalls & _ & _ & Hlast).
  exists made. split; [exact Hcalls|].
  apply (Hlast (role_arns_of [sample_role; sample_bucket])). vm_compute. reflexivity.
Defined.

(** ** The role map as a function of the resource list *)

Lemma role_arns_of_union (first second : list StackResource) :
  role_arns_of (first ++ second) = role_arns_of second ∪ role_arns_of first.
Proof.
  induction second as [|res second IH] using rev_ind.
  - rewrite app_nil_r. unfold role_arns_of at 2. simpl. rewrite (left_id_L ∅ (∪)).
    reflexivity.
  - rewrite app_assoc, !role_arns_of_snoc, IH.
    destruct (String.eqb (ResourceType res) "AWS::IAM::Role"); [|reflexivity].
    rewrite insert_union_l. reflexivity.
Qed.

(** X9: extraction composes over concatenation.  The map of two resource
    lists one after the other is the map of the second completed by the
    entries of the first, so an entry of the second list takes precedence
    over an entry of the first with the same logical id. *)
Theorem role_arns_of_app (first second : list StackResource) :
  role_arns_of (first ++ second) = role_arns_of second ∪ role_arns_of first
  ∧ ∀ k v, role_arns_of second !! k = Some v →
           role_arns_of (first ++ second) !! k = Some v.
Proof.
  split; [apply role_arns_of_union|].
  intros k v Hk. rewrite role_arns_of_union. apply lookup_union_Some_l. exact Hk.
Qed.

Lemma role_arns_of_app_witness :
  role_arns_of ([mkStackResource "AWS::IAM::Role" "CodePipelineRole" "old"]
                ++ [sample_role; sample_bucket])
  !! "CodePipelineRole"
  = Some "MyCICDProjectStack-CodePipelineRole-BfBJkSvHRfJN".
Proof.
  destruct (role_arns_of_app [mkStackResource "AWS::IAM::Role" "CodePipelineRole" "old"]
              [sample_role; sample_bucket]) as [_ H].
  apply H. vm_compute. reflexivity.
Defined.

(** X10: the map is empty exactly when the list holds no resource of type
    [AWS::IAM::Role]; in particular for the empty list. *)
Theorem role_arns_of_empty_iff (resources : list StackResource) :
  role_arns_of resources = ∅
  ↔ ∀ res, res ∈ resources → ResourceType res ≠ "AWS::IAM::Role".
Proof.
  split.
  - intros Hempty res Hin Hrole.
    destruct (role_arns_of_keys resources res Hin Hrole) as [v Hv].
    rewrite Hempty, lookup_empty in Hv. discriminate.
  - intros Hnone. apply map_empty. intros k.
    destruct (role_arns_of resources !! k) as [v|] eqn:Hk; [|reflexivity].
    destruct (role_arns_of_sound resources k v Hk) as (res & Hin & Hrole & _).
    destruct (Hnone res Hin Hrole).
Qed.

Lemma role_arns_of_empty_iff_witness :
  role_arns_of [sample_bucket] = ∅ ∧ role_arns_of [] = ∅.
Proof.
  split.
  - apply (role_arns_of_empty_iff [sample_bucket]).
    intros res Hin. apply list_elem_of_singleton in Hin. subst res. discriminate.
  - apply (role_arns_of_empty_iff []).
    intros res Hin. apply elem_of_nil in Hin. destruct Hin.
Defined.

Lemma role_arns_of_dom (resources : list StackResource) :
  dom (role_arns_of resources)
  = list_to_set (LogicalResourceId
                   <$> filter (λ res, ResourceType res = "AWS::IAM::Role") resources).
Proof.
  induction resources as [|res resources IH] using rev_ind.
  - unfold role_arns_of. simpl. apply dom_empty_L.
  - rewrite role_arns_of_snoc, filter_app, fmap_app, list_to_set_app_L, <- IH.
    rewrite filter_cons, filter_nil.
    destruct (String.eqb_spec (ResourceType res) "AWS::IAM::Role") as [Hrole|Hother].
    + rewrite decide_True by exact Hrole. simpl.
      rewrite dom_insert_L, (right_id_L ∅ (∪)). apply (comm_L (∪)).
    + rewrite decide_False by exact Hother. simpl.
      rewrite (right_id_L ∅ (∪)). reflexivity.
Qed.

(** X11: the keys of the map are exactly the logical ids of the role
    resources, and when a logical id occurs more than once the last role
    resource carrying it decides the value. *)
Theorem role_arns_of_last_wins (resources : list StackResource) :
  dom (role_arns_of resources)
  = list_to_set (LogicalResourceId
                   <$> filter (λ res, ResourceType res = "AWS::IAM::Role") resources)
  ∧ ∀ before res after,
      resources = before ++ res :: after →
      ResourceType res = "AWS::IAM::Role" →
      (∀ later, later ∈ after → ResourceType later = "AWS::IAM::Role" →
                LogicalResourceId later ≠ LogicalResourceId res) →
      role_arns_of resources !! LogicalResourceId res = Some (PhysicalResourceId res).
Proof.
  split; [apply role_arns_of_dom|].
  intros before res after -> Hrole Hlater.
  change (res :: after) with ([res] ++ after).
  rewrite !role_arns_of_union.
  assert (role_arns_of after !! LogicalResourceId res = None) as Hafter.
  { destruct (role_arns_of after !! LogicalResourceId res) as [v|] eqn:Hk; [|reflexivity].
    destruct (role_arns_of_sound after _ v Hk) as (later & Hin & Hr & Hid & _).
    destruct (Hlater later Hin Hr Hid). }
  apply lookup_union_Some_l. rewrite lookup_union_r by exact Hafter.
  unfold role_arns_of. simpl. rewrite Hrole. simpl. apply lookup_insert_eq.
Qed.

(** Two roles under one logical id: the later physical id is kept. *)
Lemma role_arns_of_last_wins_witness :
  role_arns_of [mkStackResource "AWS::IAM::Role" "CodePipelineRole" "old";
                sample_bucket; sample_role]
  !! "CodePipelineRole"
  = Some "MyCICDProjectStack-CodePipelineRole-BfBJkSvHRfJN".
Proof.
  destruct (role_arns_of_last_wins
              [mkStackResource "AWS::IAM::Role" "CodePipelineRole" "old";
               sample_bucket; sample_role]) as [_ H].
  apply (H [mkStackResource "AWS::IAM::Role" "CodePipelineRole" "old"; sample_bucket]
           sample_role []); [reflexivity | reflexivity |].
  intros later Hin. apply elem_of_nil in Hin. destruct Hin.
Defined.

(** ** The main block of the infrastructure script *)

Lemma for_each_print {remote A} (body : A → M remote unit unit) (line : A → string)
    (items : list A) (w : world remote) :
  (∀ x w', body x w' = print (line x) w') →
  for_each items body w
  = (Normal (), World (cloud w) (files w) (calls w) (stdout w ++ (line <$> items))).
Proof.
  intros Hbody. revert w. induction items as [|x items IH]; intros w.
  - unfold for_each. simpl. unfold mret, M_ret. rewrite app_nil_r.
    destruct w; reflexivity.
  - unfold for_each in *. simpl. unfold mbind, M_bind. rewrite Hbody. unfold print.
    rewrite IH. world_simpl. rewrite <- app_assoc. reflexivity.
Qed.

(** X12: the main block reports failure whenever the role map is false as
    a condition: not only when the function returned [None], but also
    when the stack was reconciled and holds no IAM role.  With a non-empty
    map it prints the heading and then one line per entry. *)
Theorem infrastructure_main_report {remote} (serve : handler remote)
    (w w1 : world remote) (roles : option (gmap string string)) :
  create_or_update_cf_stack serve "MyCICDProjectStack" "iac_ec2.yml" "ap-south-1" w
  = (Returned roles, w1) →
  (roles = None ∨ roles = Some ∅ →
   create_infrastructure_main serve w
   = (Normal (), printed w1 (String "010" "❌ CloudFormation stack operation failed.")))
  ∧ (∀ role_arns,
       roles = Some role_arns → role_arns ≠ ∅ →
       ∃ lines,
         create_infrastructure_main serve w
         = (Normal (),
            World (cloud w1) (files w1) (calls w1)
              (stdout w1
               ++ String "010" "✅ Infrastructure setup complete. IAM Roles created/managed:"
                  :: lines))
         ∧ lines ≡ₚ (λ entry, "- " +:+ entry.1 +:+ ": " +:+ entry.2)
                     <$> map_to_list role_arns).
Proof.
  intros Hrun. split.
  - intros [-> | ->]; unfold create_infrastructure_main; unfold_script;
      rewrite Hrun; reflexivity.
  - intros role_arns -> Hne.
    exists ((λ entry, "- " +:+ entry.1 +:+ ": " +:+ entry.2) <$> map_to_list role_arns).
    split; [|reflexivity].
    unfold create_infrastructure_main.
    cbv [invoke mbind M_bind]. rewrite Hrun.
    rewrite bool_decide_eq_false_2 by exact Hne.
    cbv [print]. world_simpl.
    rewrite (for_each_print _ (λ entry : string * string,
                                 "- " +:+ entry.1 +:+ ": " +:+ entry.2))
      by (intros [k v] w'; reflexivity).
    world_simpl. rewrite <- app_assoc. reflexivity.
Qed.

(** A template without roles: the stack is created and is in the account,
    and the main block still ends on the failure line. *)
Lemma infrastructure_main_report_witness :
  let run := create_infrastructure_main Aws.serve (start account_without_roles workstation) in
  stdout run.2
  = ["🚀 Creating CloudFormation stack 'MyCICDProjectStack'...";
     "✅ Stack 'MyCICDProjectStack' created successfully.";
     String "010" "❌ CloudFormation stack operation failed."]
  ∧ Aws.stacks (cloud run.2) !! "MyCICDProjectStack" = Some sample_template.
Proof.
  edestruct (infrastructure_main_report Aws.serve (start account_without_roles workstation))
    as [H _]; [vm_compute; reflexivity|].
  cbv zeta. rewrite H by (right; reflexivity).
  split; vm_compute; reflexivity.
Defined.

(** ** The role of the contact form *)

(** X13: in the role set-up of the contact form only the inline policy is
    guarded.  Once the role is there, a failing [attach_role_policy] ends
    the script with its exception before the inline policy is tried,
    while a failing [put_role_policy] is printed and the set-up still
    yields the role ARN.  A [create_role] failure other than "already
    exists" is not followed by [get_role]. *)
Theorem iam_role_setup_guards {remote} (serve : handler remote) (w : world remote) :
  let attach :=
    attach_role_policy role_name
      "arn:aws:iam::aws:policy/service-role/AWSLambdaBasicExecutionRole" in
  let put := put_role_policy role_name "SESSendEmailPolicy" ses_policy in
  (∀ role w1 e c2,
     create_or_get_role serve w = (Normal role, w1) →
     serve attach (cloud w1) = (Raised e, c2) →
     iam_role_setup serve w = (Raise e, sent w1 attach c2))
  ∧ (∀ role w1 c2 e c3,
       create_or_get_role serve w = (Normal role, w1) →
       serve attach (cloud w1) = (Returned (), c2) →
       serve put c2 = (Raised e, c3) →
       isinstance e Exception = true →
       iam_role_setup serve w
       = (Normal (Arn role),
          World c3 (files w1) (calls w1 ++ [attach; put])
            (stdout w1 ++ ["Error attaching inline SES policy: " +:+ exn_str e])))
  ∧ (∀ role w1 c2 c3,
       create_or_get_role serve w = (Normal role, w1) →
       serve attach (cloud w1) = (Returned (), c2) →
       serve put c2 = (Returned (), c3) →
       iam_role_setup serve w
       = (Normal (Arn role), World c3 (files w1) (calls w1 ++ [attach; put]) (stdout w1)))
  ∧ (∀ e c1,
       serve (create_role role_name assume_role_policy "Lambda role for SES contact form")
         (cloud w) = (Raised e, c1) →
       isinstance e EntityAlreadyExistsException = false →
       iam_role_setup serve w
       = (Raise e,
          sent w (create_role role_name assume_role_policy
                    "Lambda role for SES contact form") c1)).
Proof.
  intros attach put. subst attach put. repeat split.
  - intros role w1 e c2 Hrole Hattach. unfold iam_role_setup. unfold_script.
    rewrite Hrole. script_step Hattach. reflexivity.
  - intros role w1 c2 e c3 Hrole Hattach Hput Hclass. unfold iam_role_setup. unfold_script.
    rewrite Hrole. script_step Hattach. script_step Hput. rewrite Hclass. world_simpl.
    rewrite <- !app_assoc. reflexivity.
  - intros role w1 c2 c3 Hrole Hattach Hput. unfold iam_role_setup. unfold_script.
    rewrite Hrole. script_step Hattach. script_step Hput.
    rewrite <- !app_assoc. reflexivity.
  - intros e c1 Hcreate Hclass. unfold iam_role_setup, create_or_get_role. unfold_script.
    rewrite Hcreate. world_simpl. rewrite Hclass. reflexivity.
Qed.

(** Where only inline policies are refused the set-up yields the ARN and
    prints the refusal; where attachments are refused too it raises. *)
Lemma iam_role_setup_guards_witness :
  let tolerated := iam_role_setup inline_policies_denied (start fresh_account ∅) in
  let aborted := iam_role_setup policies_denied (start fresh_account ∅) in
  tolerated.1 = Normal "arn:aws:iam::980921729554:role/ContactFormLambdaRole"
  ∧ aborted.1 = Raise (Aws.client_error "AccessDenied" "AttachRolePolicy"
                         "not authorized to perform iam:AttachRolePolicy").
Proof.
  destruct (iam_role_setup_guards inline_policies_denied (start fresh_account ∅))
    as (_ & Htolerated & _).
  destruct (iam_role_setup_guards policies_denied (start fresh_account ∅))
    as (Haborted & _).
  cbv zeta. split.
  - erewrite Htolerated; cycle 1.
    { vm_compute. reflexivity. }
    { vm_compute. reflexivity. }
    { vm_compute. reflexivity. }
    { reflexivity. }
    reflexivity.
  - erewrite Haborted; cycle 1.
    { vm_compute. reflexivity. }
    { vm_compute. reflexivity. }
    reflexivity.
Defined.

(** ** Creating or updating the function *)

(** X14: the function block reads the archive first, so a missing archive
    raises the file error with no request sent.  A successful
    [create_function] is the only request of the block, no update
    following it.  A [create_function] failure that is not a resource
    conflict leaves the block as an exception, again with no update
    attempted and nothing printed. *)
Theorem lambda_create_paths {remote} (serve : handler remote)
    (role_arn : string) (env : gmap string string) (w : world remote) :
  (files w !! zip_filename = None →
   create_or_update_lambda serve role_arn env w
   = (Raise (Exn FileNotFoundError zip_filename), w))
  ∧ (∀ code,
       files w !! zip_filename = Some code →
       let create :=
         create_function LAMBDA_NAME "python3.11" role_arn
           "lambda_function.lambda_handler" code 10 env in
       (∀ c1, serve create (cloud w) = (Returned (), c1) →
              create_or_update_lambda serve role_arn env w
              = (Normal (),
                 World c1 (files w) (calls w ++ [create])
                   (stdout w ++ ["Lambda function '" +:+ LAMBDA_NAME +:+ "' created."])))
       ∧ (∀ e c1, serve create (cloud w) = (Raised e, c1) →
                  isinstance e ResourceConflictException = false →
                  create_or_update_lambda serve role_arn env w
                  = (Raise e, sent w create c1))).
Proof.
  split.
  - intros Hfile. unfold create_or_update_lambda. unfold_script. rewrite Hfile.
    reflexivity.
  - intros code Hfile create. subst create. split.
    + intros c1 Hcreate. unfold create_or_update_lambda. unfold_script.
      rewrite Hfile. script_step Hcreate. reflexivity.
    + intros e c1 Hcreate Hclass. unfold create_or_update_lambda. unfold_script.
      rewrite Hfile. script_step Hcreate. rewrite Hclass. reflexivity.
Qed.

Lemma lambda_create_paths_witness :
  (create_or_update_lambda Aws.serve "arn:role" env_vars (start fresh_account ∅)).1
  = Raise (Exn FileNotFoundError "lambda_function.zip")
  ∧ calls (create_or_update_lambda Aws.serve "arn:role" env_vars
             (start fresh_account (<[zip_filename := "PK"]> ∅))).2
    = [create_function LAMBDA_NAME "python3.11" "arn:role" "lambda_function.lambda_handler"
         "PK" 10 env_vars].
Proof.
  split.
  - destruct (lambda_create_paths Aws.serve "arn:role" env_vars (start fresh_account ∅))
      as [H _].
    rewrite H; [reflexivity | vm_compute; reflexivity].
  - destruct (lambda_create_paths Aws.serve "arn:role" env_vars
                (start fresh_account (<[zip_filename := "PK"]> ∅))) as [_ H].
    destruct (H "PK") as [Hcreated _]; [vm_compute; reflexivity|].
    erewrite Hcreated; [reflexivity | vm_compute; reflexivity].
Defined.

(** X15: the update path is not atomic.  After a resource conflict, if
    [update_function_code] raises, the configuration is not touched; if
    the code update succeeds and [update_function_configuration] raises,
    the block raises after the code has been replaced, and the "updated"
    line is not printed in either case. *)
Theorem lambda_update_not_atomic {remote} (serve : handler remote)
    (role_arn : string) (env : gmap string string) (w : world remote)
    (code : string) (e : exn) (c1 : remote) :
  files w !! zip_filename = Some code →
  let create :=
    create_function LAMBDA_NAME "python3.11" role_arn
      "lambda_function.lambda_handler" code 10 env in
  serve create (cloud w) = (Raised e, c1) →
  isinstance e ResourceConflictException = true →
  (∀ e' c2,
     serve (update_function_code LAMBDA_NAME code) c1 = (Raised e', c2) →
     create_or_update_lambda serve role_arn env w
     = (Raise e',
        World c2 (files w) (calls w ++ [create; update_function_code LAMBDA_NAME code])
          (stdout w)))
  ∧ (∀ c2 e' c3,
       serve (update_function_code LAMBDA_NAME code) c1 = (Returned (), c2) →
       serve (update_function_configuration LAMBDA_NAME env) c2 = (Raised e', c3) →
       create_or_update_lambda serve role_arn env w
       = (Raise e',
          World c3 (files w)
            (calls w ++ [create; update_function_code LAMBDA_NAME code;
                         update_function_configuration LAMBDA_NAME env])
            (stdout w))).
Proof.
  intros Hfile create Hcreate Hclass. subst create. split.
  - intros e' c2 Hcode. unfold create_or_update_lambda. unfold_script.
    rewrite Hfile. script_step Hcreate. rewrite Hclass. rewrite Hfile.
    script_step Hcode. rewrite <- !app_assoc. reflexivity.
  - intros c2 e' c3 Hcode Hconf. unfold create_or_update_lambda. unfold_script.
    rewrite Hfile. script_step Hcreate. rewrite Hclass. rewrite Hfile.
    script_step Hcode. script_step Hconf. rewrite <- !app_assoc. reflexivity.
Qed.

(** While a code update is in progress the configuration call is
    refused: the block raises, the new code is in place and the old
    variables are still there. *)
Lemma lambda_update_not_atomic_witness :
  let run :=
    create_or_update_lambda update_in_progress "arn:role" (<["DEBUG" := "1"]> ∅)
      (start account_with_function (<[zip_filename := "PK:new"]> ∅)) in
  run.1 = Raise (Exn ResourceConflictException
                   (Aws.error_text "ResourceConflictException" "UpdateFunctionConfiguration"
                      ("An update is in progress for resource: " +:+ LAMBDA_NAME)))
  ∧ Aws.fn_code <$> (Aws.functions (cloud run.2) !! LAMBDA_NAME) = Some "PK:new"
  ∧ Aws.fn_environment <$> (Aws.functions (cloud run.2) !! LAMBDA_NAME) = Some env_vars.
Proof.
  edestruct (lambda_update_not_atomic update_in_progress "arn:role" (<["DEBUG" := "1"]> ∅)
               (start account_with_function (<[zip_filename := "PK:new"]> ∅)) "PK:new")
    as [_ H].
  { vm_compute. reflexivity. }
  { vm_compute. reflexivity. }
  { reflexivity. }
  cbv zeta. erewrite H; cycle 1.
  { vm_compute. reflexivity. }
  { vm_compute. reflexivity. }
  split; [reflexivity|]. split; vm_compute; reflexivity.
Defined.

(** X16: a redeployment changes the code and the variables of the function
    and nothing else.  Against the reference control plane, whatever role
    the second run was given, the existing function keeps its role,
    runtime, handler, timeout and permission statements, and every other
    function of the account is left as it was. *)
Theorem lambda_redeploy_keeps_settings (s : Aws.state) (fs : gmap string string)
    (role_arn code : string) (env : gmap string string) (f : Aws.function) :
  Aws.functions s !! LAMBDA_NAME = Some f →
  fs !! zip_filename = Some code →
  let after := cloud (create_or_update_lambda Aws.serve role_arn env (start s fs)).2 in
  Aws.functions after !! LAMBDA_NAME
  = Some (Aws.Function (Aws.fn_runtime f) (Aws.fn_role f) (Aws.fn_handler f) code
            (Aws.fn_timeout f) env (Aws.fn_statements f))
  ∧ ∀ other, other ≠ LAMBDA_NAME →
             Aws.functions after !! other = Aws.functions s !! other.
Proof.
  intros Hold Hfile after. subst after.
  rewrite (lambda_redeploy s fs role_arn code env f Hold Hfile). world_simpl.
  unfold Aws.with_functions. cbn [Aws.functions]. split.
  - apply lookup_insert_eq.
  - intros other Hother. apply lookup_insert_ne. congruence.
Qed.

Lemma lambda_redeploy_keeps_settings_witness :
  Aws.fn_role
  <$> (Aws.functions
         (cloud (create_or_update_lambda Aws.serve "arn:aws:iam::1:role/Other"
                   (<["DEBUG" := "1"]> ∅)
                   (start account_with_function (<[zip_filename := "PK:new"]> ∅))).2)
       !! LAMBDA_NAME)
  = Some "arn:aws:iam::980921729554:role/ContactFormLambdaRole".
Proof.
  edestruct (lambda_redeploy_keeps_settings account_with_function
               (<[zip_filename := "PK:new"]> ∅) "arn:aws:iam::1:role/Other" "PK:new"
               (<["DEBUG" := "1"]> ∅)) as [H _].
  { vm_compute. reflexivity. }
  { vm_compute. reflexivity. }
  rewrite H. reflexivity.
Defined.

(** ** Identifiers through the API set-up *)

(** X17: the identifiers returned by the control plane are the ones the
    later requests carry.  The integration, the route, the deployment and
    the stage are created in the API that [create_api] returned; the route
    targets the integration that was returned; the stage points at the
    deployment that was returned; the account in the integration URI and
    in the permission is the one the identity call returned; and the URL
    printed at the end is built from the API id. *)
Theorem api_gateway_wiring {remote} (serve : handler remote) (w : world remote)
    (api : ApiResponse) (caller caller' : CallerIdentity)
    (integration : IntegrationResponse) (deployment : DeploymentResponse)
    (c1 c2 c3 c4 c5 c6 c7 c8 : remote) :
  let integrate :=
    create_integration (ApiId_of api) "AWS_PROXY"
      ("arn:aws:apigateway:" +:+ REGION
       +:+ ":lambda:path/2015-03-31/functions/arn:aws:lambda:" +:+ REGION +:+ ":"
       +:+ Account caller +:+ ":function:" +:+ LAMBDA_NAME +:+ "/invocations")
      "2.0" in
  let route :=
    create_route (ApiId_of api) "POST /contact"
      ("integrations/" +:+ IntegrationId_of integration) in
  let deploy := create_deployment (ApiId_of api) "Contact Form Deployment" in
  let stage := create_stage (ApiId_of api) "prod" (DeploymentId_of deployment) in
  let permit :=
    add_permission LAMBDA_NAME "APIGatewayInvoke" "lambda:InvokeFunction"
      "apigateway.amazonaws.com"
      ("arn:aws:execute-api:" +:+ REGION +:+ ":" +:+ Account caller' +:+ ":"
       +:+ ApiId_of api +:+ "/*/*/contact") in
  serve (create_api API_NAME "HTTP") (cloud w) = (Returned api, c1) →
  serve get_caller_identity c1 = (Returned caller, c2) →
  serve integrate c2 = (Returned integration, c3) →
  serve route c3 = (Returned (), c4) →
  serve deploy c4 = (Returned deployment, c5) →
  serve stage c5 = (Returned (), c6) →
  serve get_caller_identity c6 = (Returned caller', c7) →
  serve permit c7 = (Returned (), c8) →
  create_api_gateway serve w
  = (Normal (),
     World c8 (files w)
       (calls w ++ [create_api API_NAME "HTTP"; get_caller_identity; integrate; route;
                    deploy; stage; get_caller_identity; permit])
       (stdout w ++ ["Contact form API is live at: https://" +:+ ApiId_of api
                     +:+ ".execute-api." +:+ REGION +:+ ".amazonaws.com/prod/contact"])).
Proof.
  intros integrate route deploy stage permit.
  subst integrate route deploy stage permit.
  intros Hapi Hcaller Hint Hroute Hdeploy Hstage Hcaller' Hpermit.
  unfold create_api_gateway. unfold_script.
  rewrite Hapi. script_step Hcaller. script_step Hint. script_step Hroute.
  script_step Hdeploy. script_step Hstage. script_step Hcaller'. script_step Hpermit.
  rewrite <- !app_assoc. reflexivity.
Qed.

(** With the function deployed, the first API of the account gets the
    identifier [id0] and the printed URL names it. *)
Lemma api_gateway_wiring_witness :
  stdout (create_api_gateway Aws.serve (start account_with_function ∅)).2
  = ["Contact form API is live at: https://id0.execute-api.ap-south-1.amazonaws.com/prod/contact"].
Proof.
  erewrite (api_gateway_wiring Aws.serve (start account_with_function ∅)); cycle 1.
  { vm_compute. reflexivity. }
  { vm_compute. reflexivity. }
  { vm_compute. reflexivity. }
  { vm_compute. reflexivity. }
  { vm_compute. reflexivity. }
  { vm_compute. reflexivity. }
  { vm_compute. reflexivity. }
  { vm_compute. reflexivity. }
  vm_compute. reflexivity.
Defined.

(** ** The contact-form script as a whole *)

(** X18: what the script deploys is what it has just set up and packed.
    Once the role set-up has yielded a role ARN, the archive written to
    [lambda_function.zip] is the archive of [lambda_function.py], and the
    next request is [create_function] with that archive as code, that ARN
    as role and the three variables of the script.  When
    [lambda_function.py] is missing, the script raises the file error at
    that point: the role has been set up, no function request is sent, and
    [lambda_function.zip] is left as an archive without entries, whatever
    it held before. *)
Theorem deploy_contact_form_packs_and_deploys {remote} (serve : handler remote)
    (zip_archive : list (string * string) → string) (w w1 : world remote)
    (role_arn : string) :
  iam_role_setup serve w = (Normal role_arn, w1) →
  (∀ source,
     files w1 !! "lambda_function.py" = Some source →
     ∃ rest,
       calls (deploy_contact_form serve zip_archive w).2
       = calls w1
         ++ create_function LAMBDA_NAME "python3.11" role_arn
              "lambda_function.lambda_handler"
              (zip_archive [("lambda_function.py", source)]) 10 env_vars :: rest
       ∧ files (deploy_contact_form serve zip_archive w).2 !! zip_filename
         = Some (zip_archive [("lambda_function.py", source)]))
  ∧ (files w1 !! "lambda_function.py" = None →
     ∃ e,
       deploy_contact_form serve zip_archive w
       = (Raise e,
          World (cloud w1) (<[zip_filename := zip_archive []]> (files w1))
            (calls w1) (stdout w1))
       ∧ exn_type e = FileNotFoundError).
Proof.
  intros Hrole.
  assert (Hother : ∀ content : string,
             <[zip_filename := content]> (files w1) !! "lambda_function.py"
             = files w1 !! "lambda_function.py").
  { intros content. apply lookup_insert_ne. discriminate. }
  split.
  - intros source Hsource.
    unfold deploy_contact_form, zip_lambda_function, create_or_update_lambda,
      create_api_gateway.
    unfold_script. rewrite Hrole. world_simpl. rewrite Hother, Hsource. world_simpl.
    repeat lazymatch goal with
      | |- context [<[?k := ?v]> ?m !! ?k] =>
          rewrite (lookup_insert_eq m k v); world_simpl
      | |- context [serve ?r ?c] =>
          let E := fresh "E" in
          destruct (serve r c) as [[?|?] ?] eqn:E; world_simpl
      | |- context [if isinstance ?e ?k then _ else _] =>
          destruct (isinstance e k); world_simpl
      end;
      rewrite <- ?app_assoc; cbn [app];
      (eexists; split; [reflexivity | first [reflexivity | apply lookup_insert_eq]]).
  - intros Hsource. unfold deploy_contact_form, zip_lambda_function. unfold_script.
    rewrite Hrole. world_simpl. rewrite Hother, Hsource. world_simpl.
    eexists. split; [rewrite insert_insert_eq; reflexivity | reflexivity].
Qed.

(** From a fresh account with the source file in place, the function is
    created from the packed source under the role just created; without
    the source file the run stops after the role set-up, and the archive
    of an earlier run is replaced by an empty one. *)
Lemma deploy_contact_form_packs_and_deploys_witness :
  (∃ rest,
     calls (deploy_contact_form Aws.serve sample_zip (start fresh_account workstation)).2
     = [create_role role_name assume_role_policy "Lambda role for SES contact form";
        attach_role_policy role_name
          "arn:aws:iam::aws:policy/service-role/AWSLambdaBasicExecutionRole";
        put_role_policy role_name "SESSendEmailPolicy" ses_policy]
       ++ create_function LAMBDA_NAME "python3.11"
            "arn:aws:iam::980921729554:role/ContactFormLambdaRole"
            "lambda_function.lambda_handler"
            "PK:lambda_function.py:def lambda_handler(event, context): pass"
            10 env_vars :: rest)
  ∧ (let run := deploy_contact_form Aws.serve sample_zip
                  (start fresh_account (<[zip_filename := "PK:lambda_function.py:old"]> ∅)) in
     method <$> calls run.2 = ["create_role"; "attach_role_policy"; "put_role_policy"]
     ∧ files run.2 !! zip_filename = Some "PK").
Proof.
  split.
  - edestruct (deploy_contact_form_packs_and_deploys Aws.serve sample_zip
                 (start fresh_account workstation)) as [H _];
      [vm_compute; reflexivity|].
    destruct (H "def lambda_handler(event, context): pass") as (rest & Hcalls & _);
      [vm_compute; reflexivity|].
    exists rest. exact Hcalls.
  - edestruct (deploy_contact_form_packs_and_deploys Aws.serve sample_zip
                 (start fresh_account (<[zip_filename := "PK:lambda_function.py:old"]> ∅)))
      as [_ H]; [vm_compute; reflexivity|].
    destruct H as (e & -> & _); [vm_compute; reflexivity|].
    split; [reflexivity | vm_compute; reflexivity].
Defined.

(** ** Classification by message text *)

Lemma prefix_split (a s : string) :
  String.prefix a s = true → ∃ post, s = a +:+ post.
Proof.
  revert s. induction a as [|c a IH]; intros s Hpre.
  - exists s. reflexivity.
  - destruct s as [|d s]; [discriminate|]. simpl in Hpre.
    destruct (ascii_dec c d) as [->|]; [|discriminate].
    destruct (IH s Hpre) as [post ->]. exists post. reflexivity.
Qed.

Lemma str_contains_split (needle hay : string) :
  str_contains needle hay = true ↔ ∃ pre post, hay = pre +:+ needle +:+ post.
Proof.
  split.
  - induction hay as [|c hay IH]; unfold str_contains; fold str_contains;
      intros Hin; apply orb_true_iff in Hin as [Hpre|Hin].
    + destruct (prefix_split _ _ Hpre) as [post ->]. exists EmptyString, post. reflexivity.
    + discriminate.
    + destruct (prefix_split _ _ Hpre) as [post Heq]. exists EmptyString, post. exact Heq.
    + destruct (IH Hin) as (pre & post & ->). exists (String c pre), post. reflexivity.
  - intros (pre & post & ->). apply str_contains_app_r, str_contains_app_l.
Qed.

(** X19: the probe failure is classified by the text of the exception
    alone.  With the template readable, a [ClientError] from the probe
    leads to [create_stack] as the second request exactly when the words
    "does not exist" occur somewhere in its text, whatever the error code
    and whatever the text is about; otherwise the probe is the only
    request. *)
Theorem probe_classified_by_text {remote} (serve : handler remote)
    (stack_name template_file region template_body : string) (w : world remote)
    (e : exn) (c1 : remote) :
  files w !! template_file = Some template_body →
  serve (describe_stacks stack_name) (cloud w) = (Raised e, c1) →
  isinstance e ClientError = true →
  let made := calls (create_or_update_cf_stack serve stack_name template_file region w).2 in
  ((∃ pre post, exn_str e = pre +:+ "does not exist" +:+ post)
   → ∃ rest, made = calls w ++ [describe_stacks stack_name;
                                create_stack stack_name template_body ["CAPABILITY_IAM"]]
                               ++ rest)
  ∧ (¬ (∃ pre post, exn_str e = pre +:+ "does not exist" +:+ post)
     → made = calls w ++ [describe_stacks stack_name]).
Proof.
  intros Hfile Hprobe Hclass made. subst made.
  split.
  - intros Htext. apply str_contains_split in Htext.
    unfold create_or_update_cf_stack. unfold_script.
    rewrite Hfile. script_step Hprobe. rewrite Hclass, Htext. world_simpl.
    repeat lazymatch goal with
      | |- context [serve ?r ?c] =>
          destruct (serve r c) as [[?|?] ?]; world_simpl
      | |- context [if isinstance ?x ?k then _ else _] =>
          destruct (isinstance x k); world_simpl
      end;
      rewrite <- ?app_assoc; cbn [app]; eexists; reflexivity.
  - intros Htext.
    destruct (str_contains "does not exist" (exn_str e)) eqn:Hin.
    + destruct Htext. apply str_contains_split. exact Hin.
    + unfold create_or_update_cf_stack. unfold_script.
      rewrite Hfile. script_step Hprobe. rewrite Hclass, Hin. reflexivity.
Qed.

(** An access error whose text happens to contain the words is taken for
    a missing stack, and the create call follows. *)
Lemma probe_classified_by_text_witness :
  ∃ rest,
    calls (create_or_update_cf_stack access_denied "MyCICDProjectStack" "iac_ec2.yml"
             "ap-south-1" (start fresh_account workstation)).2
    = [describe_stacks "MyCICDProjectStack";
       create_stack "MyCICDProjectStack" sample_template ["CAPABILITY_IAM"]] ++ rest.
Proof.
  edestruct (probe_classified_by_text access_denied "MyCICDProjectStack" "iac_ec2.yml"
               "ap-south-1" sample_template (start fresh_account workstation))
    as [H _].
  { vm_compute. reflexivity. }
  { vm_compute. reflexivity. }
  { reflexivity. }
  apply H.
  exists "An error occurred (AccessDenied) when calling the DescribeStacks operation: the policy that would allow cloudformation:DescribeStacks ",
         EmptyString.
  vm_compute. reflexivity.
Defined.

(** ** The policy documents *)

(** The three policy texts decode to the dictionaries written in the
    scripts. *)
Lemma policy_documents_decode :
  Json.loads codebuild_trust_policy
  = Returned (PDict [("Version", PStr "2012-10-17");
                     ("Statement",
                      PList [PDict [("Effect", PStr "Allow");
                                    ("Principal",
                                     PDict [("Service", PStr "codebuild.amazonaws.com")]);
                                    ("Action", PStr "sts:AssumeRole")]])])
  ∧ Json.loads assume_role_policy
    = Returned (PDict [("Version", PStr "2012-10-17");
                       ("Statement",
                        PList [PDict [("Effect", PStr "Allow");
                                      ("Principal",
                                       PDict [("Service", PStr "lambda.amazonaws.com")]);
                                      ("Action", PStr "sts:AssumeRole")]])])
  ∧ Json.loads ses_policy
    = Returned (PDict [("Version", PStr "2012-10-17");
                       ("Statement",
                        PList [PDict [("Effect", PStr "Allow");
                                      ("Action",
                                       PList [PStr "ses:SendEmail"; PStr "ses:SendRawEmail"]);
                                      ("Resource", PStr "*")]])]).
Proof. repeat split; vm_compute; reflexivity. Qed.

(** ** The pipeline call of the script *)

(** X20: [create_codepipeline] checks nothing itself and sends exactly one
    request, [create_pipeline] with the definition it builds from its
    arguments; that definition passes the validator of the specification
    whatever the arguments are.  The function prints the line of success
    when the call returns and the line of the handler when it raises an
    [Exception], and returns [None] in both cases. *)
Theorem create_codepipeline_submits_built_in {remote} (serve : handler remote)
    (pipeline_name s3_bucket_name github_repo_name github_owner
     codebuild_project_name codedeploy_app_name codedeploy_group_name
     codepipeline_role_arn : string) (github_token : pyval)
    (codebuild_role_arn : option string) (w : world remote) :
  let built_in :=
    pipeline_definition pipeline_name s3_bucket_name github_repo_name github_owner
      codebuild_project_name codedeploy_app_name codedeploy_group_name
      codepipeline_role_arn github_token in
  let run :=
    create_codepipeline serve pipeline_name s3_bucket_name github_repo_name
      github_owner codebuild_project_name codedeploy_app_name
      codedeploy_group_name codepipeline_role_arn github_token
      codebuild_role_arn w in
  validate_topology built_in = None
  ∧ calls run.2 = calls w ++ [create_pipeline built_in]
  ∧ ((∀ e c', serve (create_pipeline built_in) (cloud w) = (Raised e, c') →
              isinstance e Exception = true) →
     run = (Returned (),
            logged_call serve (create_pipeline built_in)
              ("✅ CodePipeline '" +:+ pipeline_name +:+ "' created.")
              "❌ Error creating CodePipeline: " w)).
Proof.
  intros built_in run. subst built_in run.
  split; [vm_compute; reflexivity|].
  unfold create_codepipeline, def. rewrite submit_pipeline_run. unfold logged_call.
  destruct (serve (create_pipeline _) (cloud w)) as [[[]|e] c'] eqn:Hreply.
  - split; [reflexivity|]. intros _. reflexivity.
  - split.
    + destruct (isinstance e Exception); reflexivity.
    + intros Hexc. rewrite (Hexc e c' eq_refl). reflexivity.
Qed.

(** With the pipeline of the script in place already, the reference
    control plane refuses the call; the refusal is printed and the
    function returns. *)
Lemma create_codepipeline_submits_built_in_witness :
  create_codepipeline Aws.serve "MyCICDProjectPipeline"
    "cicd-artifact-bucket-980921729554-ap-south-1" "aws-cicd-project"
    "your-github-username" "MyCICDProjectBuild" "MyCICDProjectApp" "MyCICDProjectGroup"
    "arn:aws:iam::980921729554:role/MyCICDProjectStack-CodePipelineRole-BfBJkSvHRfJN"
    (PStr "abc") (Some "arn:aws:iam::980921729554:role/CodeBuildServiceRole")
    account_with_pipeline
  = (Returned (),
     printed
       (sent account_with_pipeline
          (create_pipeline
             (pipeline_definition "MyCICDProjectPipeline"
                "cicd-artifact-bucket-980921729554-ap-south-1" "aws-cicd-project"
                "your-github-username" "MyCICDProjectBuild" "MyCICDProjectApp"
                "MyCICDProjectGroup"
                "arn:aws:iam::980921729554:role/MyCICDProjectStack-CodePipelineRole-BfBJkSvHRfJN"
                (PStr "abc")))
          (cloud account_with_pipeline))
       "❌ Error creating CodePipeline: An error occurred (PipelineNameInUseException) when calling the CreatePipeline operation: MyCICDProjectPipeline already exists").
Proof.
  destruct (create_codepipeline_submits_built_in Aws.serve "MyCICDProjectPipeline"
              "cicd-artifact-bucket-980921729554-ap-south-1" "aws-cicd-project"
              "your-github-username" "MyCICDProjectBuild" "MyCICDProjectApp"
              "MyCICDProjectGroup"
              "arn:aws:iam::980921729554:role/MyCICDProjectStack-CodePipelineRole-BfBJkSvHRfJN"
              (PStr "abc") (Some "arn:aws:iam::980921729554:role/CodeBuildServiceRole")
              account_with_pipeline) as (_ & _ & H).
  rewrite H; [vm_compute; reflexivity|].
  intros e c' Hreply. exact (reference_raises_exceptions _ _ _ _ Hreply).
Defined.
